(** * download-gdfiles: the retrieval pipeline of the Drive downloader

    A shallow embedding of
      - [src/utils/utils.ts]            ([extractFileId]),
      - [utils/googleDriveHelper]       ([extractGoogleDriveFileId]),
      - [src/app/api/download/route.ts] (the download handler [GET] with its
        filename resolver [getProperFilename]),
      - the file-info route             (the metadata handler [GET]),
    and the properties the specification states about them.

    JavaScript strings are modelled by [string]: sequences of code units in
    the range 0..255.  Regular-expression literals are values of [regex],
    run by a backtracking matcher with the priorities of the JavaScript
    engine (leftmost start, greedy [+] longest first, lazy [*?] shortest
    first).  Calls to axios go through a transport that is a parameter of
    the development: an arbitrary deterministic world answers each request
    with a response or a network failure. *)

From Stdlib Require Import String Ascii List Bool NArith Arith Lia.
From Stdlib Require Import DecimalString.
Import ListNotations.

Local Open Scope string_scope.
Local Open Scope bool_scope.

(* ===================================================================== *)
(** ** JavaScript strings                                                 *)
(* ===================================================================== *)

Module JsString.

(** A value used as a condition: the empty string is falsy. *)
Definition truthy (s : string) : bool :=
  match s with EmptyString => false | String _ _ => true end.

(** [a || b] on strings, the left side possibly [undefined]/[null]. *)
Definition orElse (a : option string) (b : string) : string :=
  match a with
  | Some s => if truthy s then s else b
  | None => b
  end.

(** [s.startsWith(p)] *)
Definition startsWith (s p : string) : bool := String.prefix p s.

(** [s.includes(p)] *)
Fixpoint includes (s p : string) : bool :=
  if String.prefix p s then true
  else match s with
       | EmptyString => false
       | String _ s' => includes s' p
       end.

(** [s.slice(0, n)] for [0 <= n]. *)
Definition take (n : nat) (s : string) : string := String.substring 0 n s.

(** One code unit of [s.toLowerCase()]: A-Z and the upper-case letters of
    the Latin-1 block (U+00C0..U+00DE without the multiplication sign
    U+00D7) move 32 places up, everything else stays. *)
Definition lowerChar (c : ascii) : ascii :=
  let n := N_of_ascii c in
  if ((65 <=? n) && (n <=? 90)
      || (192 <=? n) && (n <=? 222) && negb (n =? 215))%N
  then ascii_of_N (n + 32)
  else c.

Fixpoint toLowerCase (s : string) : string :=
  match s with
  | EmptyString => EmptyString
  | String c s' => String (lowerChar c) (toLowerCase s')
  end.

(** [String(n)] for a non-negative integer. *)
Definition ofN (n : N) : string := NilZero.string_of_uint (N.to_uint n).

(** Every code unit of [s] satisfies [p]. *)
Fixpoint all (p : ascii -> bool) (s : string) : bool :=
  match s with
  | EmptyString => true
  | String c s' => p c && all p s'
  end.

(** [s.endsWith(p)] *)
Fixpoint endsWith (s p : string) : bool :=
  if String.eqb s p then true
  else match s with
       | EmptyString => false
       | String _ s' => endsWith s' p
       end.

End JsString.

(* ===================================================================== *)
(** ** Regular expressions                                                *)
(* ===================================================================== *)

Module Regex.

(** The character sets the patterns of the repository use. *)
Inductive cset :=
| NoneOf (cs : string)   (* [^...] *)
| Word                   (* \w *)
| Dot.                   (* .  : any code unit but a line terminator *)

Fixpoint occurs (c : ascii) (cs : string) : bool :=
  match cs with
  | EmptyString => false
  | String d cs' => Ascii.eqb c d || occurs c cs'
  end.

Definition isWord (c : ascii) : bool :=
  let n := N_of_ascii c in
  ((48 <=? n) && (n <=? 57) || (65 <=? n) && (n <=? 90)
   || (97 <=? n) && (n <=? 122) || (n =? 95))%N.

Definition mem (k : cset) (c : ascii) : bool :=
  match k with
  | NoneOf cs => negb (occurs c cs)
  | Word => isWord c
  | Dot => negb (occurs c (String "010" (String "013" EmptyString)))
  end.

(** The pieces of a pattern, left to right. *)
Inductive atom :=
| Lit (l : string)       (* a run of literal characters *)
| Plus (k : cset)        (* k+   greedy *)
| StarLazy (k : cset)    (* k*?  lazy *)
| GroupOpen              (* (    start of capturing group 1 *)
| GroupClose             (* )    end of capturing group 1 *)
| Eos.                   (* $    end of input (no m flag) *)

Definition regex := list atom.

(** [dropPrefix l s]: what is left of [s] after the literal [l]. *)
Fixpoint dropPrefix (l s : string) : option string :=
  match l with
  | EmptyString => Some s
  | String a l' =>
      match s with
      | EmptyString => None
      | String b s' => if Ascii.eqb a b then dropPrefix l' s' else None
      end
  end.

(** Greedy repetition: take as many code units of [k] as there are, and
    give them back one at a time while the rest of the pattern fails. *)
Fixpoint greedy {A} (k : cset) (cont : string -> option A) (s : string)
  : option A :=
  match s with
  | String c s' =>
      if mem k c
      then match greedy k cont s' with
           | Some r => Some r
           | None => cont s
           end
      else cont s
  | EmptyString => cont s
  end.

(** Lazy repetition: try the rest of the pattern first, take one more
    code unit of [k] only when it fails. *)
Fixpoint lazy {A} (k : cset) (cont : string -> option A) (s : string)
  : option A :=
  match cont s with
  | Some r => Some r
  | None =>
      match s with
      | String c s' => if mem k c then lazy k cont s' else None
      | EmptyString => None
      end
  end.

(** The text between the place where the group opened and the current
    place. *)
Definition between (opened now : string) : string :=
  JsString.take (String.length opened - String.length now) opened.

(** [run r opened cap s]: match [r] at the start of [s]; [opened] is the
    input at the open parenthesis, [cap] the capture so far.  The result
    is the capture and the input left after the match. *)
Fixpoint run (r : regex) (opened : string) (cap : option string)
  (s : string) : option (option string * string) :=
  match r with
  | [] => Some (cap, s)
  | Lit l :: r' =>
      match dropPrefix l s with
      | Some s' => run r' opened cap s'
      | None => None
      end
  | Plus k :: r' =>
      match s with
      | String c s' =>
          if mem k c then greedy k (run r' opened cap) s' else None
      | EmptyString => None
      end
  | StarLazy k :: r' => lazy k (run r' opened cap) s
  | GroupOpen :: r' => run r' s cap s
  | GroupClose :: r' => run r' opened (Some (between opened s)) s
  | Eos :: r' =>
      match s with
      | EmptyString => run r' opened cap s
      | String _ _ => None
      end
  end.

(** The array [s.match(r)] returns, with the position of the match. *)
Record result := {
  index : nat;               (* match.index *)
  whole : string;            (* match[0] *)
  group1 : option string;    (* match[1] *)
  rest : string              (* the input after the match *)
}.

(** Try each start position from the left. *)
Fixpoint search (r : regex) (i : nat) (s : string) : option result :=
  match run r s None s with
  | Some (cap, s') =>
      Some {| index := i; whole := between s s'; group1 := cap;
              rest := s' |}
  | None =>
      match s with
      | String _ s' => search r (S i) s'
      | EmptyString => None
      end
  end.

(** [s.match(r)] for a pattern without the g flag. *)
Definition jsMatch (s : string) (r : regex) : option result :=
  search r 0 s.

(** [s.replace(r, by)]: the first match is replaced. *)
Definition replace (s : string) (r : regex) (by_ : string) : string :=
  match jsMatch s r with
  | Some m => JsString.take (index m) s ++ by_ ++ rest m
  | None => s
  end.

(** [m && m[1]] as a condition, giving the capture when it holds. *)
Definition captured (m : option result) : option string :=
  match m with
  | Some m' =>
      match group1 m' with
      | Some g => if JsString.truthy g then Some g else None
      | None => None
      end
  | None => None
  end.

End Regex.

Import Regex.

(* ===================================================================== *)
(** ** The identifier extractors                                          *)
(* ===================================================================== *)

(** /drive\.google\.com\/file\/d\/([^\/\?]+)/ *)
Definition pat_file : regex :=
  [Lit "drive.google.com/file/d/"; GroupOpen; Plus (NoneOf "/?"); GroupClose].

(** /drive\.google\.com\/open\?id=([^&]+)/ *)
Definition pat_open : regex :=
  [Lit "drive.google.com/open?id="; GroupOpen; Plus (NoneOf "&"); GroupClose].

(** /docs\.google\.com\/\w+\/d\/([^\/\?]+)/ *)
Definition pat_docs : regex :=
  [Lit "docs.google.com/"; Plus Word; Lit "/d/";
   GroupOpen; Plus (NoneOf "/?"); GroupClose].

(** /drive\.google\.com\/uc\?id=([^&]+)/ *)
Definition pat_uc : regex :=
  [Lit "drive.google.com/uc?id="; GroupOpen; Plus (NoneOf "&"); GroupClose].

(** /docs\.google\.com\/spreadsheets\/d\/([^\/\?]+)/ *)
Definition pat_sheets : regex :=
  [Lit "docs.google.com/spreadsheets/d/";
   GroupOpen; Plus (NoneOf "/?"); GroupClose].

(** /docs\.google\.com\/presentation\/d\/([^\/\?]+)/ *)
Definition pat_slides : regex :=
  [Lit "docs.google.com/presentation/d/";
   GroupOpen; Plus (NoneOf "/?"); GroupClose].

(** The loop both extractors run:
    [for (const pattern of patterns) { const match = url.match(pattern);
       if (match && match[1]) return match[1]; } return null;] *)
Fixpoint firstCapture (patterns : list regex) (url : string)
  : option string :=
  match patterns with
  | [] => None
  | pattern :: more =>
      match captured (jsMatch url pattern) with
      | Some id => Some id
      | None => firstCapture more url
      end
  end.

(** utils.ts *)
Definition extractFileId (url : string) : option string :=
  firstCapture [pat_file; pat_open; pat_docs; pat_uc; pat_sheets; pat_slides]
    url.

(** googleDriveHelper *)
Definition extractGoogleDriveFileId (url : string) : option string :=
  firstCapture [pat_file; pat_open; pat_docs; pat_uc] url.

(* ===================================================================== *)
(** ** The static tables and the filename resolver                        *)
(* ===================================================================== *)

(** An object literal used as a table: its own entries in source
    order. *)
Definition table := list (string * string).

(** The own entry of [k], if the literal has one. *)
Fixpoint lookup (t : table) (k : string) : option string :=
  match t with
  | [] => None
  | (k', v) :: t' => if String.eqb k k' then Some v else lookup t' k
  end.

(** The members every object literal inherits from [Object.prototype],
    each with the text [String(member)] gives in Node: eleven functions
    and, under [__proto__], the prototype object itself. *)
Definition objectPrototype : table :=
  [ ("constructor", "function Object() { [native code] }");
    ("__defineGetter__", "function __defineGetter__() { [native code] }");
    ("__defineSetter__", "function __defineSetter__() { [native code] }");
    ("hasOwnProperty", "function hasOwnProperty() { [native code] }");
    ("__lookupGetter__", "function __lookupGetter__() { [native code] }");
    ("__lookupSetter__", "function __lookupSetter__() { [native code] }");
    ("isPrototypeOf", "function isPrototypeOf() { [native code] }");
    ("propertyIsEnumerable",
     "function propertyIsEnumerable() { [native code] }");
    ("toString", "function toString() { [native code] }");
    ("valueOf", "function valueOf() { [native code] }");
    ("__proto__", "[object Object]");
    ("toLocaleString", "function toLocaleString() { [native code] }") ].

(** What [t[k]] evaluates to. *)
Inductive member :=
| Own (v : string)           (* the string of an own entry *)
| Inherited (text : string)  (* a function or object: truthy, equal to no
                                string, [text] when turned into one *)
| Undefined.

(** [t[k]]: own entries first, then the prototype. *)
Definition get (t : table) (k : string) : member :=
  match lookup t k with
  | Some v => Own v
  | None =>
      match lookup objectPrototype k with
      | Some text => Inherited text
      | None => Undefined
      end
  end.

(** [m || d], where the result is used as a string (in a template or
    as a header value). *)
Definition orText (m : member) (d : string) : string :=
  match m with
  | Own v => if JsString.truthy v then v else d
  | Inherited text => text
  | Undefined => d
  end.

Definition mimeToExtension : table :=
  [ (* Document formats *)
    ("application/pdf", "pdf");
    ("application/vnd.openxmlformats-officedocument.wordprocessingml.document",
     "docx");
    ("application/msword", "doc");
    ("application/vnd.oasis.opendocument.text", "odt");
    ("application/rtf", "rtf");
    ("text/plain", "txt");
    ("text/html", "html");
    ("text/css", "css");
    ("text/javascript", "js");
    ("text/markdown", "md");
    (* Spreadsheet formats *)
    ("application/vnd.openxmlformats-officedocument.spreadsheetml.sheet",
     "xlsx");
    ("application/vnd.ms-excel", "xls");
    ("application/vnd.oasis.opendocument.spreadsheet", "ods");
    ("text/csv", "csv");
    ("text/tab-separated-values", "tsv");
    (* Presentation formats *)
    ("application/vnd.openxmlformats-officedocument.presentationml.presentation",
     "pptx");
    ("application/vnd.ms-powerpoint", "ppt");
    ("application/vnd.oasis.opendocument.presentation", "odp");
    (* Image formats *)
    ("image/jpeg", "jpg");
    ("image/png", "png");
    ("image/gif", "gif");
    ("image/bmp", "bmp");
    ("image/webp", "webp");
    ("image/svg+xml", "svg");
    ("image/tiff", "tiff");
    (* Audio formats *)
    ("audio/mpeg", "mp3");
    ("audio/wav", "wav");
    ("audio/ogg", "ogg");
    ("audio/flac", "flac");
    ("audio/aac", "aac");
    (* Video formats *)
    ("video/mp4", "mp4");
    ("video/mpeg", "mpeg");
    ("video/webm", "webm");
    ("video/quicktime", "mov");
    ("video/x-msvideo", "avi");
    (* Archive formats *)
    ("application/zip", "zip");
    ("application/x-zip-compressed", "zip");
    ("application/x-rar-compressed", "rar");
    ("application/x-tar", "tar");
    ("application/x-7z-compressed", "7z");
    ("application/gzip", "gz");
    (* Google formats *)
    ("application/vnd.google-apps.document", "docx");
    ("application/vnd.google-apps.spreadsheet", "xlsx");
    ("application/vnd.google-apps.presentation", "pptx");
    ("application/vnd.google-apps.drawing", "png");
    ("application/vnd.google-apps.form", "html");
    ("application/vnd.google-apps.script", "json") ].

Definition contentTypeMap : table :=
  [ ("pdf", "application/pdf");
    ("docx",
     "application/vnd.openxmlformats-officedocument.wordprocessingml.document");
    ("xlsx",
     "application/vnd.openxmlformats-officedocument.spreadsheetml.sheet");
    ("pptx",
     "application/vnd.openxmlformats-officedocument.presentationml.presentation");
    ("csv", "text/csv");
    ("txt", "text/plain");
    ("rtf", "application/rtf") ].

(** /\.[^/.]+$/ *)
Definition re_strip_ext : regex := [Lit "."; Plus (NoneOf "/."); Eos].

(** /\.([^.]+)$/ *)
Definition re_ext : regex :=
  [Lit "."; GroupOpen; Plus (NoneOf "."); GroupClose; Eos].

(** The condition [if (specifiedFormat)] on [string | null]. *)
Definition given (f : option string) : option string :=
  match f with
  | Some s => if JsString.truthy s then Some s else None
  | None => None
  end.

Definition getProperFilename (baseName contentType : string)
  (specifiedFormat : option string) : string :=
  match given specifiedFormat with
  | Some fmt =>
      (* First, use the specified format if provided *)
      let nameWithoutExt := replace baseName re_strip_ext EmptyString in
      nameWithoutExt ++ "." ++ fmt
  | None =>
      (* Try to extract extension from the filename *)
      match captured (jsMatch baseName re_ext) with
      | Some ext =>
          let existingExt := JsString.toLowerCase ext in
          let nameWithoutExt := replace baseName re_strip_ext EmptyString in
          match get mimeToExtension contentType with
          | Own expectedExt =>
              if JsString.truthy expectedExt
              then
                if String.eqb existingExt expectedExt
                then baseName
                else nameWithoutExt ++ "." ++ expectedExt
              else baseName
          | Inherited text =>
              (* truthy and [===] to no string: the extension is changed *)
              nameWithoutExt ++ "." ++ text
          | Undefined => baseName
          end
      | None =>
          (* No extension in the filename, determine from content type *)
          let extension := orText (get mimeToExtension contentType) "bin" in
          baseName ++ "." ++ extension
      end
  end.

(* ===================================================================== *)
(** ** axios: requests, responses, exceptions                             *)
(* ===================================================================== *)

Module Axios.

Inductive responseType := json | arraybuffer.

(** The part of the request configuration that reaches the network. *)
Record options := {
  kind : responseType;
  headers : list (string * string);
  maxRedirects : option nat
}.

(** The fields the handlers read from the JSON object of the Drive API. *)
Record driveFile := {
  name : option string;
  mimeType : option string;
  size : option string;
  canDownload : option bool      (* capabilities?.canDownload *)
}.

(** [response.data] *)
Inductive data (Payload : Type) :=
| Absent                         (* null or undefined *)
| Text (s : string)              (* a string body *)
| Object (o : driveFile)         (* a parsed JSON object *)
| Buffer (p : Payload).          (* bytes; responseType arraybuffer *)
Arguments Absent {Payload}.
Arguments Text {Payload} s.
Arguments Object {Payload} o.
Arguments Buffer {Payload} p.

Record response (Payload : Type) := {
  status : N;
  contentType : option string;   (* headers["content-type"] *)
  body : data Payload            (* data *)
}.
Arguments status {Payload} r.
Arguments contentType {Payload} r.
Arguments body {Payload} r.

(** What the network gives back for one request. *)
Inductive reply (Payload : Type) :=
| Answer (r : response Payload)
| Failure (message : string).
Arguments Answer {Payload} r.
Arguments Failure {Payload} message.

(** The values the handlers can see thrown. *)
Inductive exn :=
| NetworkError (message : string)   (* no response at all *)
| StatusError (status : N)          (* validateStatus said no *)
| TypeError (message : string).     (* property read on null *)

(** [error.message] *)
Definition message (e : exn) : string :=
  match e with
  | NetworkError m => m
  | StatusError s => "Request failed with status code " ++ JsString.ofN s
  | TypeError m => m
  end.

(** A computation either yields a value or throws. *)
Inductive outcome (A : Type) :=
| Value (a : A)
| Thrown (e : exn).
Arguments Value {A} a.
Arguments Thrown {A} e.

(** A value used as a condition. *)
Definition truthy {Payload} (d : data Payload) : bool :=
  match d with
  | Absent => false
  | Text s => JsString.truthy s
  | Object _ => true
  | Buffer _ => true
  end.

Section Monad.
Context {Payload World : Type}.
Variable byteLength : Payload -> N.
Variable transport :
  World -> string -> options -> reply Payload * World.

(** Handlers run against the world and leave it changed, also when
    they throw. *)
Definition M (A : Type) : Type := World -> outcome A * World.

Definition ret {A} (a : A) : M A := fun w => (Value a, w).

Definition throw {A} (e : exn) : M A := fun w => (Thrown e, w).

Definition bind {A B} (m : M A) (f : A -> M B) : M B :=
  fun w =>
    match m w with
    | (Value a, w') => f a w'
    | (Thrown e, w') => (Thrown e, w')
    end.

(** [try { m } catch (error) { h error }] *)
Definition tryCatch {A} (m : M A) (h : exn -> M A) : M A :=
  fun w =>
    match m w with
    | (Value a, w') => (Value a, w')
    | (Thrown e, w') => h e w'
    end.

(** [await axios.get(url, { ...o, validateStatus })]: the promise is
    rejected when there is no response or when [validateStatus]
    refuses the status code. *)
Definition get (url : string) (o : options)
  (validateStatus : N -> bool) : M (response Payload) :=
  fun w =>
    match transport w url o with
    | (Answer r, w') =>
        if validateStatus (status r)
        then (Value r, w')
        else (Thrown (StatusError (status r)), w')
    | (Failure m, w') => (Thrown (NetworkError m), w')
    end.

(** [d.byteLength]: a number on a buffer, [undefined] on other
    objects and strings, a TypeError on null. *)
Definition byteLengthOf (d : data Payload) : M (option N) :=
  match d with
  | Absent =>
      throw (TypeError
               "Cannot read properties of null (reading 'byteLength')")
  | Buffer p => ret (Some (byteLength p))
  | Text _ | Object _ => ret None
  end.

(** [d.name] and [d.mimeType] of the metadata answer. *)
Definition fileOf (d : data Payload) : M driveFile :=
  match d with
  | Absent =>
      throw (TypeError "Cannot read properties of null (reading 'name')")
  | Object o => ret o
  | Text _ | Buffer _ =>
      ret {| name := None; mimeType := None; size := None;
             canDownload := None |}
  end.

End Monad.

Arguments M World A : clear implicits.

(** [x < n] and [x > n] where [x] may be [undefined]: false then. *)
Definition below (x : option N) (n : N) : bool :=
  match x with Some v => (v <? n)%N | None => false end.

Definition above (x : option N) (n : N) : bool :=
  match x with Some v => (n <? v)%N | None => false end.

End Axios.

Declare Scope js_scope.
Delimit Scope js_scope with js.
Notation "x <- m ;; k" := (Axios.bind m (fun x => k))
  (at level 100, m at next level, right associativity) : js_scope.

(* ===================================================================== *)
(** ** What a route handler returns                                       *)
(* ===================================================================== *)

Module Response.

(** The record the file-info route sends. *)
Record fileInfo := {
  id : string;
  name : option string;
  mimeType : option string;
  size : option string;
  isViewOnly : option bool;
  canDownload : bool;
  isGoogleApps : option bool;    (* undefined when there is no mimeType *)
  exportOptions : list string
}.

Inductive body (Payload : Type) :=
| Null                                     (* new Response(null, ...) *)
| Bytes (d : Axios.data Payload)           (* new Response(x.data, ...) *)
| Error (error : string) (details : option string) (status : option N)
| Info (m : fileInfo).
Arguments Null {Payload}.
Arguments Bytes {Payload} d.
Arguments Error {Payload} error details status.
Arguments Info {Payload} m.

Record t (Payload : Type) := {
  status : N;
  headers : table;
  content : body Payload
}.
Arguments status {Payload} t.
Arguments headers {Payload} t.
Arguments content {Payload} t.

Definition header {Payload} (r : t Payload) (h : string) : option string :=
  lookup (headers r) h.

(** HTTP whitespace: tab, line feed, carriage return, space. *)
Definition isWhitespace (c : ascii) : bool :=
  let n := N_of_ascii c in
  ((n =? 9) || (n =? 10) || (n =? 13) || (n =? 32))%N.

Fixpoint trimStart (v : string) : string :=
  match v with
  | EmptyString => EmptyString
  | String c v' => if isWhitespace c then trimStart v' else v
  end.

Fixpoint trimEnd (v : string) : string :=
  match v with
  | EmptyString => EmptyString
  | String c v' =>
      match trimEnd v' with
      | EmptyString =>
          if isWhitespace c then EmptyString else String c EmptyString
      | rest => String c rest
      end
  end.

(** A value is normalized when its header is appended: the whitespace
    at both ends is removed. *)
Definition normalize (v : string) : string := trimEnd (trimStart v).

(** A header value holds no NUL, line feed or carriage return.  (The
    strings of this development are sequences of code units below 256,
    which is what a header value is converted to.) *)
Definition isHeaderValue (v : string) : bool :=
  JsString.all
    (fun c => let n := N_of_ascii c in
              negb ((n =? 0) || (n =? 10) || (n =? 13))%N) v.

(** [new Response(body, { status, headers })], its arguments given as a
    record: each value is normalized, and a value that is then not a
    header value is refused with a TypeError.  The text of its message
    is the runtime's; the one here stands for it, and no statement
    depends on it. *)
Definition construct {Payload World} (init : t Payload)
  : Axios.M World (t Payload) :=
  if forallb (fun h => isHeaderValue (normalize (snd h))) (headers init)
  then
    Axios.ret
      {| status := status init;
         headers := map (fun h => (fst h, normalize (snd h))) (headers init);
         content := content init |}
  else Axios.throw (Axios.TypeError "Invalid header value").

End Response.

(** The double quote, as a string. *)
Definition dquote : string := String "034" EmptyString.

(* ===================================================================== *)
(** ** The download route: app/api/download/route.ts                      *)
(* ===================================================================== *)

Module Download.

(** [request.nextUrl.searchParams.get(...)] for the four parameters. *)
Record query := {
  fileId : option string;
  format : option string;
  forcePdf : option string;
  viewOnly : option string
}.

(** [p === "true"] *)
Definition isTrue (p : option string) : bool :=
  match p with Some s => String.eqb s "true" | None => false end.

Definition userAgent : string :=
  "Mozilla/5.0 (Windows NT 10.0; Win64; x64) AppleWebKit/537.36 (KHTML, like Gecko) Chrome/96.0.4664.110 Safari/537.36".

(** [let exportFormat = format || "pdf"; if (!format) { ... }] *)
Definition exportFormatOf (format : option string) (mimeType : string)
  : string :=
  let exportFormat := JsString.orElse format "pdf" in
  match given format with
  | Some _ => exportFormat
  | None =>
      (* Choose appropriate default format *)
      if String.eqb mimeType "application/vnd.google-apps.spreadsheet"
      then "xlsx"
      else if String.eqb mimeType "application/vnd.google-apps.presentation"
      then "pptx"
      else if String.eqb mimeType "application/vnd.google-apps.document"
      then "docx"
      else exportFormat
  end.

(** [headers["content-type"]?.includes("text/html")] as a condition. *)
Definition declaresHtml (contentType : option string) : bool :=
  match contentType with
  | Some c => JsString.includes c "text/html"
  | None => false
  end.

Section Handler.
Context {Payload World : Type}.
Variable byteLength : Payload -> N.
Variable transport :
  World -> string -> Axios.options -> Axios.reply Payload * World.

Local Open Scope js_scope.

(** [new Response(data, { status: 200, headers: { "Content-Type": ...,
    "Content-Disposition": `attachment; filename="${finalFilename}"` } })] *)
Definition attachment (d : Axios.data Payload)
  (contentType finalFilename : string) : Response.t Payload :=
  {| Response.status := 200;
     Response.headers :=
       [("Content-Type", contentType);
        ("Content-Disposition",
         "attachment; filename=" ++ dquote ++ finalFilename ++ dquote)];
     Response.content := Response.Bytes d |}.

(** [return new Response(...)] in a block: the response is built, which
    may throw, and returned. *)
Definition deliver (init : Response.t Payload)
  : Axios.M World (option (Response.t Payload)) :=
  response <- Response.construct init ;;
  Axios.ret (Some response).

(** Get file metadata if possible: the name and the MIME type, or
    their defaults. *)
Definition metadata (fileId : string) : Axios.M World (string * string) :=
  let fileName := "file_" ++ fileId in
  let mimeType := "application/octet-stream" in
  Axios.tryCatch
    (metadataResponse <-
       Axios.get transport
         ("https://www.googleapis.com/drive/v3/files/" ++ fileId
          ++ "?fields=name,mimeType")
         {| Axios.kind := Axios.json; Axios.headers := [];
            Axios.maxRedirects := None |}
         (fun status => (status <? 500)%N) ;;
     if (Axios.status metadataResponse =? 200)%N
     then
       file <- Axios.fileOf (Axios.body metadataResponse) ;;
       Axios.ret (JsString.orElse (Axios.name file) fileName,
            JsString.orElse (Axios.mimeType file) mimeType)
     else Axios.ret (fileName, mimeType))
    (fun _ => Axios.ret (fileName, mimeType)).

(** Special handling for view-only PDFs (the body of the try block);
    [None] when the block ends without a return. *)
Definition viewOnlyPdf (fileId fileName : string)
  : Axios.M World (option (Response.t Payload)) :=
  (* Try the printout approach for PDFs *)
  let printUrl :=
    "https://drive.google.com/uc?id=" ++ fileId
    ++ "&export=download&format=pdf" in
  printResponse <-
    Axios.get transport printUrl
      {| Axios.kind := Axios.arraybuffer;
         Axios.headers :=
           [("User-Agent", userAgent); ("Accept", "application/pdf")];
         Axios.maxRedirects := Some 5 |}
      (fun _ => true) ;;
  if (Axios.status printResponse =? 200)%N
     && Axios.truthy (Axios.body printResponse)
     && match Axios.body printResponse with
        | Axios.Buffer p => (1000 <? byteLength p)%N
        | _ => false
        end
     && negb (declaresHtml (Axios.contentType printResponse))
  then
    let finalFilename :=
      getProperFilename fileName "application/pdf" (Some "pdf") in
    deliver (attachment (Axios.body printResponse) "application/pdf"
               finalFilename)
  else
    (* Alternative approach for view-only PDFs *)
    let embedUrl :=
      "https://drive.google.com/file/d/" ++ fileId ++ "/preview" in
    embedResponse <-
      Axios.get transport embedUrl
        {| Axios.kind := Axios.arraybuffer;
           Axios.headers := [("User-Agent", userAgent)];
           Axios.maxRedirects := None |}
        (fun _ => true) ;;
    if (Axios.status embedResponse =? 200)%N
    then
      let finalFilename :=
        getProperFilename fileName "application/pdf" (Some "pdf") in
      deliver (attachment (Axios.body embedResponse) "application/pdf"
                 finalFilename)
    else Axios.ret None.

(** Google Docs handling (the body of the if block). *)
Definition googleDocs (fileId fileName mimeType : string)
  (format : option string) : Axios.M World (option (Response.t Payload)) :=
  let exportFormat := exportFormatOf format mimeType in
  let exportUrl :=
    "https://docs.google.com/export/download?id=" ++ fileId
    ++ "&exportFormat=" ++ exportFormat in
  exportResponse <-
    Axios.get transport exportUrl
      {| Axios.kind := Axios.arraybuffer; Axios.headers := [];
         Axios.maxRedirects := Some 5 |}
      (fun status => (status =? 200)%N) ;;
  if (Axios.status exportResponse =? 200)%N
     && Axios.truthy (Axios.body exportResponse)
  then
    let contentType :=
      orText (get contentTypeMap exportFormat) "application/octet-stream" in
    let finalFilename :=
      getProperFilename fileName contentType (Some exportFormat) in
    deliver (attachment (Axios.body exportResponse) contentType
               finalFilename)
  else Axios.ret None.

(** Standard file download approach; [None] when the status is not 200
    or there is no data. *)
Definition standardDownload (fileId fileName mimeType : string)
  : Axios.M World (option (Response.t Payload)) :=
  let downloadUrl :=
    "https://drive.google.com/uc?id=" ++ fileId
    ++ "&export=download&confirm=t" in
  fileResponse <-
    Axios.get transport downloadUrl
      {| Axios.kind := Axios.arraybuffer;
         Axios.headers := [("User-Agent", userAgent)];
         Axios.maxRedirects := Some 5 |}
      (fun status =>
         (status =? 200)%N || (status =? 303)%N || (status =? 302)%N) ;;
  if (Axios.status fileResponse =? 200)%N
     && Axios.truthy (Axios.body fileResponse)
  then
    (* Get content type from response if available *)
    let responseContentType :=
      JsString.orElse (Axios.contentType fileResponse) mimeType in
    let deliverFile :=
      let finalFilename :=
        getProperFilename fileName responseContentType None in
      deliver (attachment (Axios.body fileResponse)
                 responseContentType finalFilename) in
    (* Make sure it's not HTML (which would indicate an error page) *)
    suspect <-
      (if JsString.includes responseContentType "text/html"
       then
         size <- Axios.byteLengthOf byteLength (Axios.body fileResponse) ;;
         Axios.ret (Axios.below size 1000000)
       else Axios.ret false) ;;
    if suspect : bool
    then
      (* This might be an error page - try another approach *)
      let alternativeUrl :=
        "https://drive.google.com/uc?export=download&id=" ++ fileId in
      altResponse <-
        Axios.get transport alternativeUrl
          {| Axios.kind := Axios.arraybuffer;
             Axios.headers := [("User-Agent", userAgent)];
             Axios.maxRedirects := Some 5 |}
          (fun _ => true) ;;
      if (Axios.status altResponse =? 200)%N
      then
        let altContentType :=
          JsString.orElse (Axios.contentType altResponse) mimeType in
        genuine <-
          (if negb (JsString.includes altContentType "text/html")
           then Axios.ret true
           else
             altSize <-
               Axios.byteLengthOf byteLength (Axios.body altResponse) ;;
             Axios.ret (Axios.above altSize 1000000)) ;;
        if genuine : bool
        then
          let finalFilename :=
            getProperFilename fileName altContentType None in
          deliver (attachment (Axios.body altResponse)
                     altContentType finalFilename)
        else deliverFile
      else deliverFile
    else deliverFile
  else Axios.ret None.

(** Direct download with different URL structure as a last resort. *)
Definition lastResort (fileId fileName mimeType : string)
  : Axios.M World (option (Response.t Payload)) :=
  let directUrl :=
    "https://docs.google.com/uc?export=download&id=" ++ fileId in
  directResponse <-
    Axios.get transport directUrl
      {| Axios.kind := Axios.arraybuffer;
         Axios.headers := [("User-Agent", userAgent)];
         Axios.maxRedirects := Some 5 |}
      (fun status => (status =? 200)%N) ;;
  if (Axios.status directResponse =? 200)%N
     && Axios.truthy (Axios.body directResponse)
  then
    let contentType :=
      JsString.orElse (Axios.contentType directResponse) mimeType in
    let finalFilename := getProperFilename fileName contentType None in
    deliver (attachment (Axios.body directResponse) contentType
               finalFilename)
  else Axios.ret None.

(** If all approaches fail, redirect to Google's viewer. *)
Definition viewerRedirect (fileId : string) : Response.t Payload :=
  {| Response.status := 302;
     Response.headers :=
       [("Location",
         "https://drive.google.com/file/d/" ++ fileId ++ "/view")];
     Response.content := Response.Null |}.

(** [a] returned, or the rest of the function run. *)
Definition orThen (a : Axios.M World (option (Response.t Payload)))
  (rest : Axios.M World (Response.t Payload))
  : Axios.M World (Response.t Payload) :=
  r <- a ;;
  match r with
  | Some response => Axios.ret response
  | None => rest
  end.

(** The body of the outer try block. *)
Definition attempts (fileId : string) (format : option string)
  (forcePdf viewOnly : bool) : Axios.M World (Response.t Payload) :=
  meta <- metadata fileId ;;
  let fileName := fst meta in
  let mimeType := snd meta in
  orThen
    (if (viewOnly || forcePdf)
        && (JsString.includes mimeType "pdf" || forcePdf)
     then Axios.tryCatch (viewOnlyPdf fileId fileName)
            (fun _ => Axios.ret None)
     else Axios.ret None)
  (orThen
    (if JsString.startsWith mimeType "application/vnd.google-apps"
     then googleDocs fileId fileName mimeType format
     else Axios.ret None)
  (orThen (standardDownload fileId fileName mimeType)
  (orThen (lastResort fileId fileName mimeType)
  (Response.construct (viewerRedirect fileId))))).

Definition GET (request : query) : Axios.M World (Response.t Payload) :=
  let forcePdf := isTrue (forcePdf request) in
  let viewOnly := isTrue (viewOnly request) in
  match given (fileId request) with
  | None =>
      Axios.ret
        {| Response.status := 400;
           Response.headers := [("Content-Type", "application/json")];
           Response.content :=
             Response.Error "File ID is required" None None |}
  | Some fileId =>
      Axios.tryCatch
        (attempts fileId (format request) forcePdf viewOnly)
        (fun error =>
           Axios.ret
             {| Response.status := 500;
                Response.headers := [("Content-Type", "application/json")];
                Response.content :=
                  Response.Error "Failed to download file"
                    (Some (Axios.message error)) None |})
  end.

End Handler.

End Download.

(* ===================================================================== *)
(** ** The file-info route                                                *)
(* ===================================================================== *)

Module FileInfo.

(** /<title>(.*?)<\/title>/ *)
Definition re_title : regex :=
  [Lit "<title>"; GroupOpen; StarLazy Dot; GroupClose; Lit "</title>"].

(** [data && typeof data === "string"], giving the string when it holds. *)
Definition page {Payload} (d : Axios.data Payload) : option string :=
  match d with
  | Axios.Text s => if JsString.truthy s then Some s else None
  | _ => None
  end.

(** The switch over [data.mimeType] for a Google Apps file. *)
Definition appsExportOptions (mimeType : option string) : list string :=
  match mimeType with
  | Some "application/vnd.google-apps.document" =>
      ["pdf"; "docx"; "txt"; "rtf"]
  | Some "application/vnd.google-apps.spreadsheet" => ["xlsx"; "csv"; "pdf"]
  | Some "application/vnd.google-apps.presentation" => ["pptx"; "pdf"]
  | _ => ["pdf"]
  end.

(** [NextResponse.json(body, { status })] *)
Definition jsonResponse {Payload} (status : N)
  (body : Response.body Payload) : Response.t Payload :=
  {| Response.status := status;
     Response.headers := [("content-type", "application/json")];
     Response.content := body |}.

Section Handler.
Context {Payload World : Type}.
Variable transport :
  World -> string -> Axios.options -> Axios.reply Payload * World.

Local Open Scope js_scope.

(** Try fallback approach for files that might be view-only (the body of
    the inner try block). *)
Definition fallback (fileId : string)
  : Axios.M World (Response.t Payload) :=
  fallbackResponse <-
    Axios.get transport
      ("https://drive.google.com/file/d/" ++ fileId ++ "/view")
      {| Axios.kind := Axios.json; Axios.headers := [];
         Axios.maxRedirects := Some 5 |}
      (fun _ => true) ;;
  (* Extract title from HTML if possible *)
  let name :=
    match page (Axios.body fallbackResponse) with
    | Some html =>
        match captured (jsMatch html re_title) with
        | Some title =>
            replace title [Lit " - Google Drive"] EmptyString
        | None => "file_" ++ fileId
        end
    | None => "file_" ++ fileId
    end in
  (* Determine if it's likely a PDF *)
  let isProbablyPdf :=
    match page (Axios.body fallbackResponse) with
    | Some html =>
        JsString.includes html "pdf.js"
        || JsString.includes html "PDF viewer"
    | None => false
    end in
  Axios.ret
    (jsonResponse 200
       (Response.Info
          {| Response.id := fileId;
             Response.name := Some name;
             Response.mimeType :=
               Some (if isProbablyPdf then "application/pdf"
                     else "application/octet-stream");
             Response.size := None;
             Response.isViewOnly := Some true;
             Response.canDownload := false;
             Response.isGoogleApps := Some false;
             Response.exportOptions :=
               if isProbablyPdf then ["pdf"] else [] |})).

(** The answer built from a 200 response of the Drive API. *)
Definition describe (fileId : string) (data : Axios.driveFile)
  : Response.t Payload :=
  let isGoogleApps :=
    option_map
      (fun m => JsString.startsWith m "application/vnd.google-apps")
      (Axios.mimeType data) in
  let exportOptions :=
    match isGoogleApps with
    | Some true => appsExportOptions (Axios.mimeType data)
    | _ => []
    end in
  jsonResponse 200
    (Response.Info
       {| Response.id := fileId;
          Response.name := Axios.name data;
          Response.mimeType := Axios.mimeType data;
          Response.size := Axios.size data;
          Response.isViewOnly := None;
          Response.canDownload :=
            match Axios.canDownload data with
            | Some b => b
            | None => false
            end;
          Response.isGoogleApps := isGoogleApps;
          Response.exportOptions := exportOptions |}).

Definition GET (fileId : option string)
  : Axios.M World (Response.t Payload) :=
  match given fileId with
  | None =>
      Axios.ret
        (jsonResponse 400 (Response.Error "File ID is required" None None))
  | Some fileId =>
      Axios.tryCatch
        ((* Try to get public file metadata using Google Drive API *)
         response <-
           Axios.get transport
             ("https://www.googleapis.com/drive/v3/files/" ++ fileId
              ++ "?fields=name,mimeType,size,capabilities,permissions")
             {| Axios.kind := Axios.json; Axios.headers := [];
                Axios.maxRedirects := None |}
             (fun _ => true) ;;
         if negb (Axios.status response =? 200)%N
         then
           Axios.tryCatch (fallback fileId)
             (fun _ =>
                Axios.ret
                  (jsonResponse 404
                     (Response.Error "File not found or not accessible"
                        None (Some (Axios.status response)))))
         else
           data <- Axios.fileOf (Axios.body response) ;;
           Axios.ret (describe fileId data))
        (fun _ =>
           Axios.ret
             (jsonResponse 500
                (Response.Error "Failed to get file information" None
                   None)))
  end.

End Handler.

End FileInfo.

(* ===================================================================== *)
(** * Properties                                                          *)
(* ===================================================================== *)

(** ** Strings *)

Module StringFacts.

Lemma app_nil_r (s : string) : s ++ EmptyString = s.
Proof. induction s as [|c s IH]; simpl; [reflexivity | now rewrite IH]. Qed.

Lemma app_assoc (a b c : string) : (a ++ b) ++ c = a ++ b ++ c.
Proof. induction a as [|x a IH]; simpl; [reflexivity | now rewrite IH]. Qed.

Lemma length_app (a b : string) :
  String.length (a ++ b) = String.length a + String.length b.
Proof. induction a as [|x a IH]; simpl; [reflexivity | now rewrite IH]. Qed.

Lemma take_app (a b : string) : JsString.take (String.length a) (a ++ b) = a.
Proof.
  unfold JsString.take.
  induction a as [|x a IH]; simpl.
  - destruct b; reflexivity.
  - now rewrite IH.
Qed.

Lemma between_app (a b : string) : between (a ++ b) b = a.
Proof.
  unfold between. rewrite length_app.
  replace (String.length a + String.length b - String.length b)
    with (String.length a) by lia.
  apply take_app.
Qed.

Lemma between_cons_app (x : ascii) (a b : string) :
  between (String x (a ++ b)) b = String x a.
Proof. exact (between_app (String x a) b). Qed.

Lemma between_nil (a : string) : between a EmptyString = a.
Proof.
  rewrite <- (app_nil_r a) at 1. apply between_app.
Qed.

Lemma all_app (p : ascii -> bool) (a b : string) :
  JsString.all p (a ++ b) = JsString.all p a && JsString.all p b.
Proof.
  induction a as [|x a IH]; simpl; [reflexivity|].
  rewrite IH. now rewrite andb_assoc.
Qed.

Lemma all_impl (p q : ascii -> bool) (s : string) :
  (forall c, p c = true -> q c = true) ->
  JsString.all p s = true -> JsString.all q s = true.
Proof.
  intros Hpq. induction s as [|c s IH]; simpl; [reflexivity|].
  intros H. apply andb_true_iff in H as [Hc Hs].
  now rewrite (Hpq _ Hc), (IH Hs).
Qed.

Lemma endsWith_app (a b : string) : JsString.endsWith (a ++ b) b = true.
Proof.
  induction a as [|x a IH]; simpl.
  - destruct b; simpl; [reflexivity|].
    now rewrite Ascii.eqb_refl, String.eqb_refl.
  - match goal with |- (if ?c then _ else _) = _ => destruct c end;
      [reflexivity | exact IH].
Qed.

Lemma truthy_nonempty (s : string) :
  JsString.truthy s = true <-> s <> EmptyString.
Proof. destruct s; simpl; split; congruence. Qed.

End StringFacts.

(** ** The matcher *)

Module RegexFacts.
Import StringFacts.

Lemma dropPrefix_app (l s : string) : dropPrefix l (l ++ s) = Some s.
Proof.
  induction l as [|c l IH]; simpl; [reflexivity|].
  now rewrite Ascii.eqb_refl.
Qed.

Lemma dropPrefix_inv (l s s' : string) :
  dropPrefix l s = Some s' -> s = l ++ s'.
Proof.
  revert s. induction l as [|c l IH]; simpl; intros s H.
  - congruence.
  - destruct s as [|d s]; [discriminate|].
    destruct (Ascii.eqb c d) eqn:E; [|discriminate].
    apply Ascii.eqb_eq in E. subst d. now rewrite (IH _ H).
Qed.

(** The input stops a repetition of [k]: it is empty or starts outside
    [k]. *)
Definition stops (k : cset) (s : string) : bool :=
  match s with
  | EmptyString => true
  | String c _ => negb (mem k c)
  end.

(** Greedy repetition over a run of [k] that the input ends: when the
    rest of the pattern accepts right after the run, that is the match. *)
Lemma greedy_run {A} (k : cset) (cont : string -> option A)
  (xs s : string) (r : A) :
  JsString.all (mem k) xs = true ->
  cont s = Some r ->
  greedy k cont (xs ++ s) = greedy k cont s.
Proof.
  intros Hxs Hs. induction xs as [|x xs IH]; simpl; [reflexivity|].
  simpl in Hxs. apply andb_true_iff in Hxs as [Hx Hxs].
  rewrite Hx, (IH Hxs).
  destruct (greedy k cont s) eqn:E; [reflexivity|].
  exfalso. destruct s as [|c s]; simpl in E.
  - congruence.
  - destruct (mem k c); [|congruence].
    destruct (greedy k cont s); congruence.
Qed.

Lemma greedy_stops {A} (k : cset) (cont : string -> option A) (s : string) :
  stops k s = true -> greedy k cont s = cont s.
Proof.
  destruct s as [|c s]; simpl; [reflexivity|].
  intros H. apply negb_true_iff in H. now rewrite H.
Qed.

(** Whatever a repetition returns, the rest of the pattern returned it on
    some input left after a run of [k]. *)
Lemma greedy_inv {A} (k : cset) (cont : string -> option A)
  (s : string) (r : A) :
  greedy k cont s = Some r ->
  exists xs y, s = xs ++ y /\ JsString.all (mem k) xs = true
               /\ cont y = Some r.
Proof.
  induction s as [|c s IH]; simpl; intros H.
  - exists EmptyString, EmptyString. auto.
  - destruct (mem k c) eqn:Hc.
    + destruct (greedy k cont s) eqn:E.
      * injection H as ->. destruct (IH eq_refl) as (xs & y & -> & Hxs & Hy).
        exists (String c xs), y. simpl. rewrite Hc. auto.
      * exists EmptyString, (String c s). auto.
    + exists EmptyString, (String c s). auto.
Qed.

(** A repetition never fails when the rest of the pattern never does. *)
Lemma greedy_total {A} (k : cset) (cont : string -> option A) (s : string) :
  (forall y, cont y <> None) -> greedy k cont s <> None.
Proof.
  intros Hc. destruct s as [|c s]; simpl; [apply Hc|].
  destruct (mem k c); [|apply Hc].
  destruct (greedy k cont s); [discriminate | apply Hc].
Qed.

(** A literal followed by a captured greedy run, as in the link patterns. *)
Definition linkPattern (l : string) (k : cset) : regex :=
  [Lit l; GroupOpen; Plus k; GroupClose].

Lemma run_link (l : string) (k : cset) (id s o : string) (c : option string) :
  id <> EmptyString ->
  JsString.all (mem k) id = true ->
  stops k s = true ->
  run (linkPattern l k) o c (l ++ id ++ s) = Some (Some id, s).
Proof.
  intros Hne Hid Hs. unfold linkPattern. simpl.
  rewrite dropPrefix_app.
  destruct id as [|x id]; [congruence|]. simpl in *.
  apply andb_true_iff in Hid as [Hx Hid]. rewrite Hx.
  rewrite (greedy_run k _ id s (Some (String x id), s)); trivial.
  - rewrite greedy_stops by exact Hs.
    now rewrite between_cons_app.
  - now rewrite between_cons_app.
Qed.

(** Any match of a link pattern captures a non-empty text. *)
Lemma run_link_inv (l : string) (k : cset) (s o : string)
  (c cap : option string) (y : string) :
  run (linkPattern l k) o c s = Some (cap, y) ->
  exists id, cap = Some id /\ JsString.truthy id = true
             /\ s = l ++ id ++ y /\ JsString.all (mem k) id = true.
Proof.
  unfold linkPattern. simpl.
  destruct (dropPrefix l s) as [s1|] eqn:E; [|discriminate].
  apply dropPrefix_inv in E. subst s.
  destruct s1 as [|x s1]; [discriminate|].
  destruct (mem k x) eqn:Hx; [|discriminate].
  intros H. apply greedy_inv in H as (xs & z & -> & Hxs & Hz).
  simpl in Hz. injection Hz as <- <-.
  exists (String x xs). rewrite between_cons_app.
  simpl. rewrite Hx, Hxs. auto.
Qed.

(** One step of [run] on a literal and on a repetition. *)
Lemma run_Lit (l : string) (r : regex) (o : string) (c : option string)
  (s : string) :
  run (Lit l :: r) o c (l ++ s) = run r o c s.
Proof. simpl. now rewrite dropPrefix_app. Qed.

Lemma run_Plus (k : cset) (r : regex) (o : string) (c : option string)
  (x : ascii) (s : string) :
  run (Plus k :: r) o c (String x s)
  = if mem k x then greedy k (run r o c) s else None.
Proof. reflexivity. Qed.

(** The generic editor pattern on a link with a word between the host and
    [/d/]. *)
Lemma run_docs (kind id s o : string) (c : option string) :
  kind <> EmptyString ->
  JsString.all (mem Word) kind = true ->
  id <> EmptyString ->
  JsString.all (mem (NoneOf "/?")) id = true ->
  stops (NoneOf "/?") s = true ->
  run pat_docs o c ("docs.google.com/" ++ kind ++ "/d/" ++ id ++ s)
  = Some (Some id, s).
Proof.
  intros Hk Hw Hne Hid Hs. unfold pat_docs.
  rewrite run_Lit.
  destruct kind as [|w kind]; [congruence|].
  cbn [JsString.all] in Hw. apply andb_true_iff in Hw as [Hw Hws].
  change (String w kind ++ "/d/" ++ id ++ s)
    with (String w (kind ++ "/d/" ++ id ++ s)).
  rewrite run_Plus, Hw.
  pose proof (run_link "/d/" (NoneOf "/?") id s o c Hne Hid Hs) as Hl.
  unfold linkPattern in Hl.
  rewrite (greedy_run Word _ kind _ (Some id, s) Hws Hl).
  rewrite greedy_stops by reflexivity.
  exact Hl.
Qed.

(** Any match of the generic editor pattern captures a non-empty text. *)
Lemma run_docs_inv (s o : string) (c cap : option string) (y : string) :
  run pat_docs o c s = Some (cap, y) ->
  exists id, cap = Some id /\ JsString.truthy id = true.
Proof.
  unfold pat_docs. cbn [run].
  destruct (dropPrefix "docs.google.com/" s) as [s1|]; [|discriminate].
  destruct s1 as [|w s1]; [discriminate|].
  destruct (mem Word w); [|discriminate].
  intros H. apply greedy_inv in H as (xs & z & _ & _ & Hz).
  apply (run_link_inv "/d/" (NoneOf "/?") z o c cap y) in Hz
    as (id & -> & Ht & _).
  now exists id.
Qed.

(** *** Searching from the left *)

Lemma search_here (r : regex) (i : nat) (s : string)
  (cap : option string) (y : string) :
  run r s None s = Some (cap, y) ->
  search r i s
  = Some {| index := i; whole := between s y; group1 := cap; rest := y |}.
Proof. intros H. destruct s; simpl; simpl in H; now rewrite H. Qed.

Lemma search_next (r : regex) (i : nat) (x : ascii) (s : string) :
  run r (String x s) None (String x s) = None ->
  search r i (String x s) = search r (S i) s.
Proof. intros H. simpl. simpl in H. now rewrite H. Qed.

(** [r] matches at no position that starts inside [pre]. *)
Fixpoint failsThrough (r : regex) (pre s : string) : Prop :=
  match pre with
  | EmptyString => True
  | String x pre' =>
      run r (String x (pre' ++ s)) None (String x (pre' ++ s)) = None
      /\ failsThrough r pre' s
  end.

Lemma search_skip (r : regex) (pre s : string) (i : nat) :
  failsThrough r pre s ->
  search r i (pre ++ s) = search r (String.length pre + i) s.
Proof.
  revert i. induction pre as [|x pre IH]; intros i H; [reflexivity|].
  destruct H as [Hx Hpre].
  change (String x pre ++ s) with (String x (pre ++ s)).
  rewrite (search_next _ _ _ _ Hx), (IH _ Hpre).
  simpl. f_equal. lia.
Qed.

(** *** Literals with a slash against text without one *)

Definition noSlash (c : ascii) : bool := negb (Ascii.eqb c "/").

(** Some slash-free start of [l] can be dropped so that the rest of [l]
    is a prefix of [sfx]. *)
Fixpoint alignments (l sfx : string) : bool :=
  match dropPrefix l sfx with
  | Some _ => true
  | None =>
      match l with
      | EmptyString => false
      | String c l' => if noSlash c then alignments l' sfx else false
      end
  end.

Lemma dropPrefix_alignments (l xs sfx s' : string) :
  JsString.all noSlash xs = true ->
  dropPrefix l (xs ++ sfx) = Some s' ->
  alignments l sfx = true.
Proof.
  revert l. induction xs as [|x xs IH]; intros l Hxs H.
  - cbn [append] in H.
    destruct l; [reflexivity|]. cbn [alignments]. now rewrite H.
  - cbn [JsString.all] in Hxs. apply andb_true_iff in Hxs as [Hx Hxs].
    destruct l as [|c l]; [reflexivity|].
    cbn [append dropPrefix] in H.
    destruct (Ascii.eqb c x) eqn:E; [|discriminate].
    apply Ascii.eqb_eq in E. subst c.
    cbn [alignments].
    destruct (dropPrefix (String x l) sfx); [reflexivity|].
    rewrite Hx. now apply IH.
Qed.

(** A pattern that starts with a literal needing a slash matches nowhere
    in slash-free text followed by a suffix the literal cannot reach. *)
Lemma search_slash_free (l : string) (r : regex) (xs sfx : string) :
  JsString.all noSlash xs = true ->
  alignments l sfx = false ->
  (forall j, search (Lit l :: r) j sfx = None) ->
  forall i, search (Lit l :: r) i (xs ++ sfx) = None.
Proof.
  intros Hxs Ha Hsfx. induction xs as [|x xs IH]; intros i; [apply Hsfx|].
  pose proof Hxs as Hxs'. simpl in Hxs'.
  apply andb_true_iff in Hxs' as [_ Hxs'].
  change (String x xs ++ sfx) with (String x (xs ++ sfx)).
  rewrite search_next; [now apply IH|].
  simpl run.
  destruct (dropPrefix l (String x (xs ++ sfx))) as [s'|] eqn:E;
    [|reflexivity].
  apply (dropPrefix_alignments l (String x xs) sfx s' Hxs) in E.
  congruence.
Qed.

(** A match found by [search] is a match of [run] at some position. *)
Lemma search_inv (r : regex) (s : string) (i : nat) (m : result) :
  search r i s = Some m ->
  exists s', run r s' None s' = Some (group1 m, rest m).
Proof.
  revert i. induction s as [|x s IH]; intros i; simpl.
  - destruct (run r EmptyString None EmptyString) as [[cap y]|] eqn:E;
      [|discriminate].
    intros H. injection H as <-. now exists EmptyString.
  - destruct (run r (String x s) None (String x s)) as [[cap y]|] eqn:E.
    + intros H. injection H as <-. now exists (String x s).
    + apply IH.
Qed.

End RegexFacts.

(** ** The identifier extractors *)

Module Extractor.
Import StringFacts RegexFacts.

(** The patterns of [extractFileId], in the order of the source. *)
Definition patterns : list regex :=
  [pat_file; pat_open; pat_docs; pat_uc; pat_sheets; pat_slides].

(** A code unit an identifier may hold: any but the delimiters the
    patterns stop at. *)
Definition idChar (c : ascii) : bool := negb (occurs c "/?&").

(** A file identifier: a non-empty run of identifier characters. *)
Definition isId (id : string) : Prop :=
  id <> EmptyString /\ JsString.all idChar id = true.

(** The link shapes named in the comments of the source. *)
Definition fileLink (id : string) : string :=
  "https://drive.google.com/file/d/" ++ id ++ "/view".
Definition openLink (id : string) : string :=
  "https://drive.google.com/open?id=" ++ id.
Definition documentLink (id : string) : string :=
  "https://docs.google.com/document/d/" ++ id ++ "/edit".
Definition ucLink (id : string) : string :=
  "https://drive.google.com/uc?id=" ++ id.
Definition spreadsheetLink (id : string) : string :=
  "https://docs.google.com/spreadsheets/d/" ++ id ++ "/edit".
Definition presentationLink (id : string) : string :=
  "https://docs.google.com/presentation/d/" ++ id ++ "/edit".

(** Links as they are pasted. *)
Example extract_file_view :
  extractFileId "https://drive.google.com/file/d/1AbC_d-9/view?usp=sharing"
  = Some "1AbC_d-9".
Proof. reflexivity. Qed.

Example extract_sheet_edit :
  extractFileId "https://docs.google.com/spreadsheets/d/XyZ/edit#gid=0"
  = Some "XyZ".
Proof. reflexivity. Qed.

Example extract_open :
  extractFileId "https://drive.google.com/open?id=abc&x=1" = Some "abc".
Proof. reflexivity. Qed.

Example extract_none :
  extractFileId "https://example.com/file/d/abc" = None.
Proof. reflexivity. Qed.

Lemma idChar_noSlash (c : ascii) : idChar c = true -> noSlash c = true.
Proof.
  unfold idChar, noSlash. simpl.
  destruct (Ascii.eqb c "/"); simpl; congruence.
Qed.

Lemma idChar_path (c : ascii) :
  idChar c = true -> mem (NoneOf "/?") c = true.
Proof.
  unfold idChar. simpl.
  destruct (Ascii.eqb c "/"), (Ascii.eqb c "?"); simpl; congruence.
Qed.

Lemma idChar_query (c : ascii) :
  idChar c = true -> mem (NoneOf "&") c = true.
Proof.
  unfold idChar. simpl.
  destruct (Ascii.eqb c "/"), (Ascii.eqb c "?"), (Ascii.eqb c "&");
    simpl; congruence.
Qed.

(** A pattern whose literal needs a slash the link does not have after
    its fixed start does not match the link. *)
Lemma no_match (l : string) (r : regex) (pre id sfx : string) :
  failsThrough (Lit l :: r) pre (id ++ sfx) ->
  JsString.all idChar id = true ->
  alignments l sfx = false ->
  (forall j, search (Lit l :: r) j sfx = None) ->
  captured (jsMatch (pre ++ id ++ sfx) (Lit l :: r)) = None.
Proof.
  intros Hpre Hid Ha Hsfx. unfold jsMatch.
  rewrite (search_skip _ _ _ _ Hpre).
  rewrite search_slash_free; trivial.
  exact (all_impl _ _ _ idChar_noSlash Hid).
Qed.

(** A pattern that first matches right after the fixed start of the link
    and captures [id] there. *)
Lemma first_match (p : regex) (pre s id y : string) :
  failsThrough p pre s ->
  run p s None s = Some (Some id, y) ->
  id <> EmptyString ->
  captured (jsMatch (pre ++ s) p) = Some id.
Proof.
  intros Hpre Hrun Hne. unfold jsMatch.
  rewrite (search_skip _ _ _ _ Hpre), (search_here _ _ _ _ _ Hrun).
  unfold captured. simpl.
  destruct id; [congruence | reflexivity].
Qed.

(** The same for a link that ends with the identifier. *)
Lemma no_match_end (l : string) (r : regex) (pre id : string) :
  failsThrough (Lit l :: r) pre id ->
  JsString.all idChar id = true ->
  alignments l EmptyString = false ->
  captured (jsMatch (pre ++ id) (Lit l :: r)) = None.
Proof.
  intros Hpre Hid Ha.
  rewrite <- (app_nil_r id). rewrite <- (app_nil_r id) in Hpre.
  apply no_match; trivial.
  intros j. simpl. destruct l; [discriminate | reflexivity].
Qed.

Lemma run_link_end (l : string) (k : cset) (id o : string)
  (c : option string) :
  id <> EmptyString ->
  JsString.all (mem k) id = true ->
  run (linkPattern l k) o c (l ++ id) = Some (Some id, EmptyString).
Proof.
  intros Hne Hid. rewrite <- (app_nil_r id) at 1.
  now apply run_link.
Qed.

Ltac fails_through := cbn [failsThrough]; repeat split; reflexivity.

Ltac path_id H := exact (all_impl _ _ _ idChar_path H).
Ltac query_id H := exact (all_impl _ _ _ idChar_query H).

Lemma extract_fileLink (id : string) :
  isId id -> extractFileId (fileLink id) = Some id.
Proof.
  intros [Hne Hid]. unfold extractFileId, fileLink. cbn [firstCapture].
  assert (H : captured (jsMatch ("https://drive.google.com/file/d/" ++ id
                                 ++ "/view") pat_file) = Some id).
  { apply (first_match pat_file "https://"
             ("drive.google.com/file/d/" ++ id ++ "/view") id "/view");
      [fails_through | | exact Hne].
    apply (run_link "drive.google.com/file/d/" (NoneOf "/?"));
      [exact Hne | path_id Hid | reflexivity]. }
  now rewrite H.
Qed.

Lemma extract_openLink (id : string) :
  isId id -> extractFileId (openLink id) = Some id.
Proof.
  intros [Hne Hid]. unfold extractFileId, openLink. cbn [firstCapture].
  assert (H1 : captured (jsMatch ("https://drive.google.com/open?id=" ++ id)
                           pat_file) = None).
  { apply (no_match_end "drive.google.com/file/d/" _
             "https://drive.google.com/open?id=" id);
      [fails_through | exact Hid | reflexivity]. }
  assert (H2 : captured (jsMatch ("https://drive.google.com/open?id=" ++ id)
                           pat_open) = Some id).
  { apply (first_match pat_open "https://"
             ("drive.google.com/open?id=" ++ id) id EmptyString);
      [fails_through | | exact Hne].
    apply (run_link_end "drive.google.com/open?id=" (NoneOf "&"));
      [exact Hne | query_id Hid]. }
  now rewrite H1, H2.
Qed.

Lemma extract_documentLink (id : string) :
  isId id -> extractFileId (documentLink id) = Some id.
Proof.
  intros [Hne Hid]. unfold extractFileId, documentLink. cbn [firstCapture].
  assert (H1 : captured (jsMatch ("https://docs.google.com/document/d/" ++ id
                                  ++ "/edit") pat_file) = None).
  { apply (no_match "drive.google.com/file/d/" _
             "https://docs.google.com/document/d/" id "/edit");
      [fails_through | exact Hid | reflexivity | intros; reflexivity]. }
  assert (H2 : captured (jsMatch ("https://docs.google.com/document/d/" ++ id
                                  ++ "/edit") pat_open) = None).
  { apply (no_match "drive.google.com/open?id=" _
             "https://docs.google.com/document/d/" id "/edit");
      [fails_through | exact Hid | reflexivity | intros; reflexivity]. }
  assert (H3 : captured (jsMatch ("https://docs.google.com/document/d/" ++ id
                                  ++ "/edit") pat_docs) = Some id).
  { apply (first_match pat_docs "https://"
             ("docs.google.com/document/d/" ++ id ++ "/edit") id "/edit");
      [fails_through | | exact Hne].
    apply (run_docs "document" id "/edit");
      [discriminate | reflexivity | exact Hne | path_id Hid | reflexivity]. }
  now rewrite H1, H2, H3.
Qed.

Lemma extract_ucLink (id : string) :
  isId id -> extractFileId (ucLink id) = Some id.
Proof.
  intros [Hne Hid]. unfold extractFileId, ucLink. cbn [firstCapture].
  assert (H1 : captured (jsMatch ("https://drive.google.com/uc?id=" ++ id)
                           pat_file) = None).
  { apply (no_match_end "drive.google.com/file/d/" _
             "https://drive.google.com/uc?id=" id);
      [fails_through | exact Hid | reflexivity]. }
  assert (H2 : captured (jsMatch ("https://drive.google.com/uc?id=" ++ id)
                           pat_open) = None).
  { apply (no_match_end "drive.google.com/open?id=" _
             "https://drive.google.com/uc?id=" id);
      [fails_through | exact Hid | reflexivity]. }
  assert (H3 : captured (jsMatch ("https://drive.google.com/uc?id=" ++ id)
                           pat_docs) = None).
  { apply (no_match_end "docs.google.com/" _
             "https://drive.google.com/uc?id=" id);
      [fails_through | exact Hid | reflexivity]. }
  assert (H4 : captured (jsMatch ("https://drive.google.com/uc?id=" ++ id)
                           pat_uc) = Some id).
  { apply (first_match pat_uc "https://"
             ("drive.google.com/uc?id=" ++ id) id EmptyString);
      [fails_through | | exact Hne].
    apply (run_link_end "drive.google.com/uc?id=" (NoneOf "&"));
      [exact Hne | query_id Hid]. }
  now rewrite H1, H2, H3, H4.
Qed.

Lemma extract_spreadsheetLink (id : string) :
  isId id -> extractFileId (spreadsheetLink id) = Some id.
Proof.
  intros [Hne Hid]. unfold extractFileId, spreadsheetLink.
  cbn [firstCapture].
  assert (H1 : captured (jsMatch ("https://docs.google.com/spreadsheets/d/"
                                  ++ id ++ "/edit") pat_file) = None).
  { apply (no_match "drive.google.com/file/d/" _
             "https://docs.google.com/spreadsheets/d/" id "/edit");
      [fails_through | exact Hid | reflexivity | intros; reflexivity]. }
  assert (H2 : captured (jsMatch ("https://docs.google.com/spreadsheets/d/"
                                  ++ id ++ "/edit") pat_open) = None).
  { apply (no_match "drive.google.com/open?id=" _
             "https://docs.google.com/spreadsheets/d/" id "/edit");
      [fails_through | exact Hid | reflexivity | intros; reflexivity]. }
  assert (H3 : captured (jsMatch ("https://docs.google.com/spreadsheets/d/"
                                  ++ id ++ "/edit") pat_docs) = Some id).
  { apply (first_match pat_docs "https://"
             ("docs.google.com/spreadsheets/d/" ++ id ++ "/edit") id "/edit");
      [fails_through | | exact Hne].
    apply (run_docs "spreadsheets" id "/edit");
      [discriminate | reflexivity | exact Hne | path_id Hid | reflexivity]. }
  now rewrite H1, H2, H3.
Qed.

Lemma extract_presentationLink (id : string) :
  isId id -> extractFileId (presentationLink id) = Some id.
Proof.
  intros [Hne Hid]. unfold extractFileId, presentationLink.
  cbn [firstCapture].
  assert (H1 : captured (jsMatch ("https://docs.google.com/presentation/d/"
                                  ++ id ++ "/edit") pat_file) = None).
  { apply (no_match "drive.google.com/file/d/" _
             "https://docs.google.com/presentation/d/" id "/edit");
      [fails_through | exact Hid | reflexivity | intros; reflexivity]. }
  assert (H2 : captured (jsMatch ("https://docs.google.com/presentation/d/"
                                  ++ id ++ "/edit") pat_open) = None).
  { apply (no_match "drive.google.com/open?id=" _
             "https://docs.google.com/presentation/d/" id "/edit");
      [fails_through | exact Hid | reflexivity | intros; reflexivity]. }
  assert (H3 : captured (jsMatch ("https://docs.google.com/presentation/d/"
                                  ++ id ++ "/edit") pat_docs) = Some id).
  { apply (first_match pat_docs "https://"
             ("docs.google.com/presentation/d/" ++ id ++ "/edit") id "/edit");
      [fails_through | | exact Hne].
    apply (run_docs "presentation" id "/edit");
      [discriminate | reflexivity | exact Hne | path_id Hid | reflexivity]. }
  now rewrite H1, H2, H3.
Qed.

(** The loop gives up when no pattern matches. *)
Lemma firstCapture_none (ps : list regex) (url : string) :
  Forall (fun p => jsMatch url p = None) ps -> firstCapture ps url = None.
Proof.
  induction 1 as [|p ps Hp _ IH]; simpl; [reflexivity|].
  now rewrite Hp.
Qed.

(** A pattern always captures: its match carries a non-empty group 1, so
    the loop never passes over a match. *)
Definition capturing (p : regex) : Prop :=
  forall url, captured (jsMatch url p) = None -> jsMatch url p = None.

Lemma link_capturing (l : string) (k : cset) : capturing (linkPattern l k).
Proof.
  intros url H. unfold jsMatch in *.
  destruct (search (linkPattern l k) 0 url) as [m|] eqn:E; [|reflexivity].
  exfalso. destruct (search_inv _ _ _ _ E) as (s' & Hs').
  apply run_link_inv in Hs' as (id & Hg & Ht & _).
  unfold captured in H. now rewrite Hg, Ht in H.
Qed.

Lemma docs_capturing : capturing pat_docs.
Proof.
  intros url H. unfold jsMatch in *.
  destruct (search pat_docs 0 url) as [m|] eqn:E; [|reflexivity].
  exfalso. destruct (search_inv _ _ _ _ E) as (s' & Hs').
  apply run_docs_inv in Hs' as (id & Hg & Ht).
  unfold captured in H. now rewrite Hg, Ht in H.
Qed.

Lemma patterns_capturing : Forall capturing patterns.
Proof.
  repeat constructor;
    first [exact docs_capturing | exact (link_capturing _ _)].
Qed.

(** When the loop gives up, no capturing pattern matched. *)
Lemma firstCapture_none_inv (ps : list regex) (url : string) :
  Forall capturing ps ->
  firstCapture ps url = None ->
  Forall (fun p => jsMatch url p = None) ps.
Proof.
  induction 1 as [|p ps Hp _ IH]; simpl; intros H; constructor.
  - apply Hp. now destruct (captured (jsMatch url p)).
  - apply IH. now destruct (captured (jsMatch url p)).
Qed.

(** C7. For each supported link shape (file/d/{id}, open?id={id}, the
    editor paths document/d/{id}, spreadsheets/d/{id} and
    presentation/d/{id}, and uc?id={id}) [extractFileId] returns exactly
    the embedded identifier, for every identifier: a non-empty text free
    of the delimiters the patterns stop at.  It returns null on every
    string that none of the six patterns matches, and only on those. *)
Theorem extractFileId_link_shapes :
  (forall id, isId id ->
     extractFileId (fileLink id) = Some id
     /\ extractFileId (openLink id) = Some id
     /\ extractFileId (documentLink id) = Some id
     /\ extractFileId (spreadsheetLink id) = Some id
     /\ extractFileId (presentationLink id) = Some id
     /\ extractFileId (ucLink id) = Some id)
  /\ (forall url,
        Forall (fun p => jsMatch url p = None) patterns <->
        extractFileId url = None).
Proof.
  split.
  - intros id Hid. repeat split.
    + now apply extract_fileLink.
    + now apply extract_openLink.
    + now apply extract_documentLink.
    + now apply extract_spreadsheetLink.
    + now apply extract_presentationLink.
    + now apply extract_ucLink.
  - intros url. split.
    + apply firstCapture_none.
    + apply firstCapture_none_inv, patterns_capturing.
Qed.

Lemma extractFileId_link_shapes_witness :
  isId "1AbC_d-9"
  /\ extractFileId "https://drive.google.com/uc?id=1AbC_d-9"
     = Some "1AbC_d-9"
  /\ Forall (fun p => jsMatch "https://example.com/file/d/abc" p = None)
       patterns
  /\ extractFileId "https://example.com/file/d/abc" = None.
Proof.
  assert (Hid : isId "1AbC_d-9") by (split; [discriminate | reflexivity]).
  assert (Hno : Forall
                  (fun p => jsMatch "https://example.com/file/d/abc" p = None)
                  patterns) by (repeat constructor).
  split; [exact Hid|]. split; [|split; [exact Hno|]].
  - exact (proj2 (proj2 (proj2 (proj2 (proj2
             (proj1 extractFileId_link_shapes _ Hid)))))).
  - exact (proj1 (proj2 extractFileId_link_shapes _) Hno).
Defined.

(** *** The two extractors agree *)

(** Where a pattern for one editor kind matches, the generic editor
    pattern matches too. *)
Lemma docs_subsumes (kind s o : string) (c : option string) :
  kind <> EmptyString ->
  JsString.all (mem Word) kind = true ->
  run (linkPattern ("docs.google.com/" ++ kind ++ "/d/") (NoneOf "/?"))
    o c s <> None ->
  run pat_docs o c s <> None.
Proof.
  intros Hk Hw H.
  destruct (run (linkPattern _ _) o c s) as [[cap y]|] eqn:E; [|congruence].
  apply run_link_inv in E as (id & _ & Ht & -> & Hid).
  destruct id as [|x id]; [discriminate|].
  cbn [JsString.all] in Hid. apply andb_true_iff in Hid as [Hx Hid].
  rewrite !app_assoc. unfold pat_docs. rewrite run_Lit.
  destruct kind as [|w kind]; [congruence|].
  cbn [JsString.all] in Hw. apply andb_true_iff in Hw as [Hw Hws].
  change (String w kind ++ "/d/" ++ String x id ++ y)
    with (String w (kind ++ "/d/" ++ String x id ++ y)).
  rewrite run_Plus, Hw.
  set (cont := run (linkPattern "/d/" (NoneOf "/?")) o c).
  change (greedy Word cont (kind ++ "/d/" ++ String x id ++ y) <> None).
  assert (Hc : cont ("/d/" ++ String x id ++ y) <> None).
  { unfold cont, linkPattern. rewrite run_Lit. cbn [run append].
    rewrite Hx. apply greedy_total. discriminate. }
  destruct (cont ("/d/" ++ String x id ++ y)) as [r|] eqn:Er; [|congruence].
  rewrite (greedy_run Word cont kind _ r Hws Er).
  rewrite greedy_stops by reflexivity. congruence.
Qed.

Lemma search_subsumed (p q : regex) :
  (forall s, run p s None s <> None -> run q s None s <> None) ->
  forall s i j, search p i s <> None -> search q j s <> None.
Proof.
  intros Hpq s. induction s as [|x s IH]; intros i j Hp.
  - specialize (Hpq EmptyString). simpl in *.
    destruct (run q EmptyString None EmptyString) as [[? ?]|];
      [discriminate|].
    destruct (run p EmptyString None EmptyString) as [[? ?]|];
      [now elim Hpq | congruence].
  - specialize (Hpq (String x s)). simpl in *.
    destruct (run q (String x s) None (String x s)) as [[? ?]|];
      [discriminate|].
    destruct (run p (String x s) None (String x s)) as [[? ?]|];
      [now elim Hpq | now apply (IH (S i))].
Qed.

(** When the generic editor pattern yields no identifier, a pattern for
    one editor kind yields none either. *)
Lemma docs_none (kind url : string) :
  kind <> EmptyString ->
  JsString.all (mem Word) kind = true ->
  captured (jsMatch url pat_docs) = None ->
  captured
    (jsMatch url
       (linkPattern ("docs.google.com/" ++ kind ++ "/d/") (NoneOf "/?")))
  = None.
Proof.
  intros Hk Hw H. apply docs_capturing in H as Hd. unfold jsMatch in *.
  destruct (search (linkPattern _ _) 0 url) as [m|] eqn:E; [|reflexivity].
  exfalso.
  apply (search_subsumed
           (linkPattern ("docs.google.com/" ++ kind ++ "/d/") (NoneOf "/?"))
           pat_docs) with (s := url) (i := 0) (j := 0); trivial.
  - intros s. now apply docs_subsumes.
  - congruence.
Qed.

(** C10. The two identifier extractors return the same result on every
    input string: the explicit spreadsheets/d and presentation/d patterns
    of [extractFileId] never find an identifier that the generic
    docs.google.com/\w+/d pattern, tried before them, did not find. *)
Theorem extractors_agree (url : string) :
  extractFileId url = extractGoogleDriveFileId url.
Proof.
  unfold extractFileId, extractGoogleDriveFileId. cbn [firstCapture].
  destruct (captured (jsMatch url pat_file)); [reflexivity|].
  destruct (captured (jsMatch url pat_open)); [reflexivity|].
  destruct (captured (jsMatch url pat_docs)) eqn:Hd; [reflexivity|].
  destruct (captured (jsMatch url pat_uc)); [reflexivity|].
  change pat_sheets
    with (linkPattern ("docs.google.com/" ++ "spreadsheets" ++ "/d/")
            (NoneOf "/?")).
  change pat_slides
    with (linkPattern ("docs.google.com/" ++ "presentation" ++ "/d/")
            (NoneOf "/?")).
  rewrite (docs_none "spreadsheets" url), (docs_none "presentation" url);
    trivial; discriminate.
Qed.

End Extractor.

(** ** The filename resolver *)

Module Resolver.
Import StringFacts RegexFacts.

(** The extension the resolver reads off a name: [extMatch && extMatch[1]]
    for [extMatch = baseName.match(/\.([^.]+)$/)]. *)
Definition extensionOf (baseName : string) : option string :=
  captured (jsMatch baseName re_ext).

(** The resolver on the names of section 8 of the specification. *)
Example resolver_requested :
  getProperFilename "Report.pdf" "application/pdf" (Some "xlsx")
  = "Report.xlsx".
Proof. reflexivity. Qed.

Example resolver_no_extension :
  getProperFilename "data" "text/csv" None = "data.csv".
Proof. reflexivity. Qed.

Example resolver_replace :
  getProperFilename "photo.jpeg" "image/png" None = "photo.png".
Proof. reflexivity. Qed.

Example resolver_upper_case_kept :
  getProperFilename "SCAN.PDF" "application/pdf" None = "SCAN.PDF".
Proof. reflexivity. Qed.

Example resolver_unknown_type :
  getProperFilename "notes.xyz" "application/octet-stream" None = "notes.xyz".
Proof. reflexivity. Qed.

(** A content type that names a member every object inherits: the text
    of the member takes the place of an extension. *)
Example resolver_inherited_member :
  getProperFilename "notes" "constructor" None
  = "notes.function Object() { [native code] }"
  /\ getProperFilename "notes.txt" "toString" None
     = "notes.function toString() { [native code] }".
Proof. split; reflexivity. Qed.

Lemma get_own (t : table) (k v : string) :
  lookup t k = Some v -> get t k = Own v.
Proof. intros H. unfold get. now rewrite H. Qed.

Lemma lookup_In (t : table) (k v : string) :
  lookup t k = Some v -> In v (map snd t).
Proof.
  induction t as [|[k' v'] t IH]; simpl; [discriminate|].
  destruct (String.eqb k k'); [|auto].
  intros H. injection H as ->. now left.
Qed.

(** What holds of every extension in the table: it is written in lower
    case, it is not empty and it has no dot. *)
Definition plainExtension (e : string) : Prop :=
  JsString.toLowerCase e = e
  /\ JsString.truthy e = true
  /\ JsString.all (mem (NoneOf ".")) e = true.

Lemma table_extensions_plain :
  Forall plainExtension (map snd mimeToExtension).
Proof. repeat constructor. Qed.

Lemma expected_plain (contentType ext : string) :
  lookup mimeToExtension contentType = Some ext -> plainExtension ext.
Proof.
  intros H. apply lookup_In in H.
  exact (proj1 (Forall_forall _ _) table_extensions_plain _ H).
Qed.

(** /\.([^.]+)$/ at a dot followed by a dot-free extension up to the end. *)
Lemma run_ext (ext o : string) (c : option string) :
  JsString.truthy ext = true ->
  JsString.all (mem (NoneOf ".")) ext = true ->
  run re_ext o c ("." ++ ext) = Some (Some ext, EmptyString).
Proof.
  intros Ht Hext. unfold re_ext. rewrite run_Lit. cbn [run].
  destruct ext as [|x ext]; [discriminate|].
  cbn [JsString.all] in Hext. apply andb_true_iff in Hext as [Hx Hext].
  rewrite Hx.
  rewrite <- (app_nil_r ext) at 1.
  rewrite (greedy_run _ _ ext EmptyString (Some (String x ext), EmptyString));
    trivial; cbn [greedy run]; now rewrite between_nil.
Qed.

(** Where /\.([^.]+)$/ matches, the input is a dot and a dot-free rest. *)
Lemma run_ext_inv (s o : string) (c cap : option string) (y : string) :
  run re_ext o c s = Some (cap, y) ->
  exists g, s = "." ++ g /\ JsString.all (mem (NoneOf ".")) g = true.
Proof.
  unfold re_ext. cbn [run].
  destruct (dropPrefix "." s) as [s1|] eqn:E; [|discriminate].
  apply dropPrefix_inv in E. subst s.
  destruct s1 as [|x s1]; [discriminate|].
  destruct (mem (NoneOf ".") x) eqn:Hx; [|discriminate].
  intros H. apply greedy_inv in H as (xs & z & -> & Hxs & Hz).
  destruct z; [|discriminate].
  exists (String x (xs ++ EmptyString)). split; [reflexivity|].
  cbn [JsString.all]. now rewrite Hx, all_app, Hxs.
Qed.

(** The resolver reads the text after the last dot as the extension. *)
Lemma extensionOf_app (stem ext : string) :
  JsString.truthy ext = true ->
  JsString.all (mem (NoneOf ".")) ext = true ->
  extensionOf (stem ++ "." ++ ext) = Some ext.
Proof.
  intros Ht Hext. unfold extensionOf, jsMatch. generalize 0.
  induction stem as [|x stem IH]; intros i.
  - cbn [append]. rewrite (search_here _ _ _ _ _ (run_ext ext _ None Ht Hext)).
    unfold captured. cbn [group1]. now rewrite Ht.
  - change (String x stem ++ "." ++ ext) with (String x (stem ++ "." ++ ext)).
    rewrite search_next; [apply IH|].
    destruct (run re_ext _ None _) as [[cap y]|] eqn:E; [|reflexivity].
    exfalso. apply run_ext_inv in E as (g & Hg & Hdots).
    injection Hg as _ <-.
    rewrite all_app in Hdots. simpl in Hdots.
    now rewrite andb_false_r in Hdots.
Qed.

(** C9. The resolver leaves a correctly-extensioned name alone: when no
    format is requested and the existing extension of the base filename
    equals the extension the table gives for the resolved content type,
    the filename is returned unchanged.  The existing extension is what
    the resolver itself reads off the name; a name that ends in a dot and
    the table's extension is one such name. *)
Theorem getProperFilename_keeps_matching_extension
  (baseName contentType ext : string) :
  lookup mimeToExtension contentType = Some ext ->
  extensionOf baseName = Some ext
  \/ (exists stem, baseName = stem ++ "." ++ ext) ->
  getProperFilename baseName contentType None = baseName.
Proof.
  intros Ht Hb.
  destruct (expected_plain _ _ Ht) as (Hlow & Hne & Hdots).
  assert (He : extensionOf baseName = Some ext).
  { destruct Hb as [H | [stem ->]]; [exact H | now apply extensionOf_app]. }
  unfold getProperFilename. cbn [given].
  unfold extensionOf in He. rewrite He, (get_own _ _ _ Ht).
  now rewrite Hne, Hlow, String.eqb_refl.
Qed.

Lemma getProperFilename_keeps_matching_extension_witness :
  lookup mimeToExtension "application/pdf" = Some "pdf"
  /\ extensionOf "annual.report.pdf" = Some "pdf"
  /\ getProperFilename "annual.report.pdf" "application/pdf" None
     = "annual.report.pdf".
Proof.
  split; [reflexivity|]. split; [reflexivity|].
  apply (getProperFilename_keeps_matching_extension
           "annual.report.pdf" "application/pdf" "pdf").
  - reflexivity.
  - left. reflexivity.
Defined.

Example keeps_name_with_table_extension :
  getProperFilename "cover.letter.docx"
    "application/vnd.google-apps.document" None = "cover.letter.docx".
Proof. reflexivity. Qed.

End Resolver.

(** ** The monad of the handlers *)

Module AxiosFacts.

Section Facts.
Context {Payload World : Type}.
Variable transport :
  World -> string -> Axios.options -> Axios.reply Payload * World.

Lemma bind_value {A B} (m : Axios.M World A) (f : A -> Axios.M World B)
  (w w' : World) (a : A) :
  m w = (Axios.Value a, w') -> Axios.bind m f w = f a w'.
Proof. intros H. unfold Axios.bind. now rewrite H. Qed.

Lemma bind_thrown {A B} (m : Axios.M World A) (f : A -> Axios.M World B)
  (w w' : World) (e : Axios.exn) :
  m w = (Axios.Thrown e, w') -> Axios.bind m f w = (Axios.Thrown e, w').
Proof. intros H. unfold Axios.bind. now rewrite H. Qed.

Lemma tryCatch_value {A} (m : Axios.M World A)
  (h : Axios.exn -> Axios.M World A) (w w' : World) (a : A) :
  m w = (Axios.Value a, w') -> Axios.tryCatch m h w = (Axios.Value a, w').
Proof. intros H. unfold Axios.tryCatch. now rewrite H. Qed.

Lemma tryCatch_thrown {A} (m : Axios.M World A)
  (h : Axios.exn -> Axios.M World A) (w w' : World) (e : Axios.exn) :
  m w = (Axios.Thrown e, w') -> Axios.tryCatch m h w = h e w'.
Proof. intros H. unfold Axios.tryCatch. now rewrite H. Qed.

Lemma get_answer (w w' : World) (url : string) (o : Axios.options)
  (v : N -> bool) (r : Axios.response Payload) :
  transport w url o = (Axios.Answer r, w') ->
  v (Axios.status r) = true ->
  Axios.get transport url o v w = (Axios.Value r, w').
Proof. intros H Hv. unfold Axios.get. now rewrite H, Hv. Qed.

Lemma get_refused (w w' : World) (url : string) (o : Axios.options)
  (v : N -> bool) (r : Axios.response Payload) :
  transport w url o = (Axios.Answer r, w') ->
  v (Axios.status r) = false ->
  Axios.get transport url o v w
  = (Axios.Thrown (Axios.StatusError (Axios.status r)), w').
Proof. intros H Hv. unfold Axios.get. now rewrite H, Hv. Qed.

Lemma get_failure (w w' : World) (url : string) (o : Axios.options)
  (v : N -> bool) (m : string) :
  transport w url o = (Axios.Failure m, w') ->
  Axios.get transport url o v w = (Axios.Thrown (Axios.NetworkError m), w').
Proof. intros H. unfold Axios.get. now rewrite H. Qed.

End Facts.

End AxiosFacts.

(** ** Building a response *)

Module ResponseFacts.
Import StringFacts.

Lemma trimEnd_last (s : string) (c : ascii) :
  Response.isWhitespace c = false ->
  Response.trimEnd (s ++ String c EmptyString) = s ++ String c EmptyString.
Proof.
  intros Hc. induction s as [|d s IH]; cbn [append Response.trimEnd].
  - now rewrite Hc.
  - rewrite IH. now destruct s.
Qed.

(** A value that starts and ends with a code unit that is not whitespace
    is stored as it is. *)
Lemma normalize_framed (a b : ascii) (s : string) :
  Response.isWhitespace a = false ->
  Response.isWhitespace b = false ->
  Response.normalize (String a (s ++ String b EmptyString))
  = String a (s ++ String b EmptyString).
Proof.
  intros Ha Hb. unfold Response.normalize. cbn [Response.trimStart].
  rewrite Ha. exact (trimEnd_last (String a s) b Hb).
Qed.

Lemma isHeaderValue_app (a b : string) :
  Response.isHeaderValue (a ++ b)
  = Response.isHeaderValue a && Response.isHeaderValue b.
Proof. apply all_app. Qed.

Section Facts.
Context {Payload World : Type}.

Lemma construct_value (init : Response.t Payload) (w : World) :
  forallb (fun h => Response.isHeaderValue (Response.normalize (snd h)))
    (Response.headers init) = true ->
  Response.construct init w
  = (Axios.Value
       {| Response.status := Response.status init;
          Response.headers :=
            map (fun h => (fst h, Response.normalize (snd h)))
              (Response.headers init);
          Response.content := Response.content init |}, w).
Proof. intros H. unfold Response.construct. now rewrite H. Qed.

Lemma construct_thrown (init : Response.t Payload) (w : World) :
  forallb (fun h => Response.isHeaderValue (Response.normalize (snd h)))
    (Response.headers init) = false ->
  exists e, Response.construct init w = (Axios.Thrown e, w).
Proof. intros H. unfold Response.construct. rewrite H. now eexists. Qed.

(** What is built has the status and the content asked for, and as
    many headers, under the same names. *)
Lemma construct_inv (init r : Response.t Payload) (w w' : World) :
  Response.construct init w = (Axios.Value r, w') ->
  w' = w
  /\ Response.status r = Response.status init
  /\ Response.content r = Response.content init
  /\ map fst (Response.headers r) = map fst (Response.headers init).
Proof.
  unfold Response.construct.
  destruct (forallb _ _); [|discriminate].
  intros H. injection H as <- <-. cbn. repeat split.
  now rewrite map_map.
Qed.

End Facts.

End ResponseFacts.

(** ** The download route *)

Module DownloadFacts.
Import StringFacts AxiosFacts ResponseFacts.

Arguments getProperFilename : simpl never.

(** The request configurations of the six calls. *)
Definition metadataUrl (fileId : string) : string :=
  "https://www.googleapis.com/drive/v3/files/" ++ fileId
  ++ "?fields=name,mimeType".
Definition metadataOptions : Axios.options :=
  {| Axios.kind := Axios.json; Axios.headers := [];
     Axios.maxRedirects := None |}.

Definition printUrl (fileId : string) : string :=
  "https://drive.google.com/uc?id=" ++ fileId
  ++ "&export=download&format=pdf".
Definition printOptions : Axios.options :=
  {| Axios.kind := Axios.arraybuffer;
     Axios.headers :=
       [("User-Agent", Download.userAgent); ("Accept", "application/pdf")];
     Axios.maxRedirects := Some 5 |}.

Definition embedUrl (fileId : string) : string :=
  "https://drive.google.com/file/d/" ++ fileId ++ "/preview".
Definition embedOptions : Axios.options :=
  {| Axios.kind := Axios.arraybuffer;
     Axios.headers := [("User-Agent", Download.userAgent)];
     Axios.maxRedirects := None |}.

Definition exportUrl (fileId exportFormat : string) : string :=
  "https://docs.google.com/export/download?id=" ++ fileId
  ++ "&exportFormat=" ++ exportFormat.
Definition exportOptions : Axios.options :=
  {| Axios.kind := Axios.arraybuffer; Axios.headers := [];
     Axios.maxRedirects := Some 5 |}.

Definition downloadUrl (fileId : string) : string :=
  "https://drive.google.com/uc?id=" ++ fileId
  ++ "&export=download&confirm=t".
Definition alternativeUrl (fileId : string) : string :=
  "https://drive.google.com/uc?export=download&id=" ++ fileId.
Definition directUrl (fileId : string) : string :=
  "https://docs.google.com/uc?export=download&id=" ++ fileId.
Definition browserOptions : Axios.options :=
  {| Axios.kind := Axios.arraybuffer;
     Axios.headers := [("User-Agent", Download.userAgent)];
     Axios.maxRedirects := Some 5 |}.

(** The value of the Content-Disposition header for a filename. *)
Definition disposition (filename : string) : string :=
  "attachment; filename=" ++ dquote ++ filename ++ dquote.

(** The outbound content type of a successful export. *)
Definition exportContentType (exportFormat : string) : string :=
  orText (get contentTypeMap exportFormat) "application/octet-stream".

(** The members of the format table and of the prototype are stored as
    they are, and none is refused as a header value. *)
Lemma exportContentType_stored (exportFormat : string) :
  Response.normalize (exportContentType exportFormat)
  = exportContentType exportFormat
  /\ Response.isHeaderValue (exportContentType exportFormat) = true.
Proof.
  unfold exportContentType, get, contentTypeMap, objectPrototype.
  cbn [lookup].
  repeat match goal with
         | |- context [String.eqb exportFormat ?k] =>
             destruct (String.eqb exportFormat k); [split; reflexivity|]
         end.
  split; reflexivity.
Qed.

(** The value of Content-Disposition is stored as it is, and it is
    refused exactly when the file name holds a NUL, a line feed or a
    carriage return. *)
Lemma disposition_stored (filename : string) :
  Response.normalize (disposition filename) = disposition filename.
Proof.
  unfold disposition, dquote.
  replace ("attachment; filename=" ++ String "034" EmptyString ++ filename
           ++ String "034" EmptyString)
    with (String "a"
            (("ttachment; filename=" ++ String "034" EmptyString ++ filename)
             ++ String "034" EmptyString)).
  - now apply normalize_framed.
  - reflexivity.
Qed.

Lemma disposition_value (filename : string) :
  Response.isHeaderValue (disposition filename)
  = Response.isHeaderValue filename.
Proof.
  unfold disposition. rewrite !isHeaderValue_app.
  change (Response.isHeaderValue "attachment; filename=") with true.
  change (Response.isHeaderValue dquote) with true.
  now rewrite andb_true_r.
Qed.

Lemma getProperFilename_requested (baseName contentType fmt : string) :
  JsString.truthy fmt = true ->
  getProperFilename baseName contentType (Some fmt)
  = replace baseName re_strip_ext EmptyString ++ "." ++ fmt.
Proof. intros H. unfold getProperFilename, given. now rewrite H. Qed.

Lemma requested_extension (baseName contentType fmt : string) :
  JsString.truthy fmt = true ->
  JsString.endsWith (getProperFilename baseName contentType (Some fmt))
    ("." ++ fmt) = true.
Proof.
  intros H. rewrite getProperFilename_requested by exact H.
  apply endsWith_app.
Qed.

Section Facts.
Context {Payload World : Type}.
Variable byteLength : Payload -> N.
Variable transport :
  World -> string -> Axios.options -> Axios.reply Payload * World.

(** A delivery is built when the content type, once normalized, and the
    file name hold no NUL, line feed or carriage return; the content
    type is stored normalized. *)
Lemma deliver_value (d : Axios.data Payload) (contentType filename : string)
  (w : World) :
  Response.isHeaderValue (Response.normalize contentType) = true ->
  Response.isHeaderValue filename = true ->
  Download.deliver (Download.attachment d contentType filename) w
  = (Axios.Value
       (Some (Download.attachment d (Response.normalize contentType)
                filename)), w).
Proof.
  intros Hc Hf. unfold Download.deliver.
  assert (H : forallb
                (fun h => Response.isHeaderValue (Response.normalize (snd h)))
                (Response.headers
                   (Download.attachment d contentType filename)) = true).
  { unfold Download.attachment. cbn [Response.headers forallb snd].
    fold (disposition filename).
    now rewrite Hc, disposition_stored, disposition_value, Hf. }
  rewrite (bind_value _ _ w w _ (construct_value _ w H)).
  unfold Download.attachment. cbn [Response.headers map fst snd
    Response.status Response.content].
  fold (disposition filename). now rewrite disposition_stored.
Qed.

(** Otherwise the constructor throws. *)
Lemma deliver_refused (d : Axios.data Payload)
  (contentType filename : string) (w : World) :
  Response.isHeaderValue (Response.normalize contentType)
  && Response.isHeaderValue filename = false ->
  exists e,
    Download.deliver (Download.attachment d contentType filename) w
    = (Axios.Thrown e, w).
Proof.
  intros H. unfold Download.deliver.
  destruct (construct_thrown (Download.attachment d contentType filename) w)
    as (e & He).
  - unfold Download.attachment. cbn [Response.headers forallb snd].
    fold (disposition filename).
    now rewrite disposition_stored, disposition_value, andb_true_r.
  - exists e. now apply bind_thrown.
Qed.

(** The delivery of a block, when there is one, is the attachment asked
    for, with the content type normalized. *)
Lemma deliver_inv (d : Axios.data Payload) (contentType filename : string)
  (w w' : World) (o : option (Response.t Payload)) :
  Download.deliver (Download.attachment d contentType filename) w
  = (Axios.Value o, w') ->
  w' = w
  /\ o = Some (Download.attachment d (Response.normalize contentType)
                 filename)
  /\ Response.isHeaderValue filename = true.
Proof.
  destruct (Response.isHeaderValue (Response.normalize contentType)
            && Response.isHeaderValue filename) eqn:E.
  - apply andb_true_iff in E as [Hc Hf].
    rewrite (deliver_value _ _ _ _ Hc Hf).
    intros H. injection H as <- <-. auto.
  - destruct (deliver_refused d _ _ w E) as (e & ->). discriminate.
Qed.

(** The metadata step on a 200 answer with a JSON object. *)
Lemma metadata_found (w w' : World) (fileId : string)
  (r : Axios.response Payload) (file : Axios.driveFile) :
  transport w (metadataUrl fileId) metadataOptions = (Axios.Answer r, w') ->
  Axios.status r = 200%N ->
  Axios.body r = Axios.Object file ->
  Download.metadata transport fileId w
  = (Axios.Value
       (JsString.orElse (Axios.name file) ("file_" ++ fileId),
        JsString.orElse (Axios.mimeType file) "application/octet-stream"),
     w').
Proof.
  intros H Hs Hb. unfold Download.metadata.
  apply tryCatch_value.
  rewrite (bind_value _ _ w w' r).
  - rewrite Hs, Hb. reflexivity.
  - apply get_answer; [exact H | now rewrite Hs].
Qed.

(** The metadata step on any other status: the defaults. *)
Lemma metadata_default (w w' : World) (fileId : string)
  (r : Axios.response Payload) :
  transport w (metadataUrl fileId) metadataOptions = (Axios.Answer r, w') ->
  Axios.status r <> 200%N ->
  Download.metadata transport fileId w
  = (Axios.Value ("file_" ++ fileId, "application/octet-stream"), w').
Proof.
  intros H Hs. unfold Download.metadata.
  apply N.eqb_neq in Hs.
  destruct (Axios.status r <? 500)%N eqn:E.
  - apply tryCatch_value.
    rewrite (bind_value _ _ w w' r).
    + now rewrite Hs.
    + now apply get_answer.
  - rewrite (tryCatch_thrown _ _ w w' (Axios.StatusError (Axios.status r)));
      [reflexivity|].
    apply bind_thrown. now apply get_refused.
Qed.

(** *** The view-only path *)

(** The print sub-attempt is accepted: status 200, a buffer of more than
    1000 bytes, and a content type that does not declare HTML. *)
Definition printAccepted (r : Axios.response Payload) : Prop :=
  Axios.status r = 200%N
  /\ (exists p, Axios.body r = Axios.Buffer p /\ (1000 < byteLength p)%N)
  /\ Download.declaresHtml (Axios.contentType r) = false.

(** The condition of the source on the print response. *)
Definition printCondition (r : Axios.response Payload) : bool :=
  (Axios.status r =? 200)%N
  && Axios.truthy (Axios.body r)
  && match Axios.body r with
     | Axios.Buffer p => (1000 <? byteLength p)%N
     | _ => false
     end
  && negb (Download.declaresHtml (Axios.contentType r)).

Lemma printCondition_spec (r : Axios.response Payload) :
  printCondition r = true <-> printAccepted r.
Proof.
  unfold printCondition, printAccepted. split.
  - intros H. repeat (apply andb_true_iff in H as [H ?]).
    apply N.eqb_eq in H. split; [exact H|]. split.
    + destruct (Axios.body r) as [| | |p]; try discriminate.
      exists p. split; [reflexivity | now apply N.ltb_lt].
    + now apply negb_true_iff.
  - intros (Hs & (p & Hb & Hp) & Hh).
    rewrite Hs, Hb, Hh. apply N.ltb_lt in Hp. now rewrite Hp.
Qed.

(** The filename both sub-attempts use. *)
Definition pdfFilename (fileName : string) : string :=
  getProperFilename fileName "application/pdf" (Some "pdf").

Lemma viewOnlyPdf_print (w w1 : World) (fileId fileName : string)
  (rp : Axios.response Payload) :
  transport w (printUrl fileId) printOptions = (Axios.Answer rp, w1) ->
  printAccepted rp ->
  Response.isHeaderValue (pdfFilename fileName) = true ->
  Download.viewOnlyPdf byteLength transport fileId fileName w
  = (Axios.Value
       (Some (Download.attachment (Axios.body rp) "application/pdf"
                (pdfFilename fileName))), w1).
Proof.
  intros H Ha Hn. apply printCondition_spec in Ha.
  unfold Download.viewOnlyPdf.
  rewrite (bind_value _ _ w w1 rp) by now apply get_answer.
  fold (printCondition rp). rewrite Ha.
  exact (deliver_value (Axios.body rp) "application/pdf" _ w1 eq_refl Hn).
Qed.

(** An accepted print response under a name the header cannot carry:
    the constructor throws, out of the block. *)
Lemma viewOnlyPdf_print_refused (w w1 : World) (fileId fileName : string)
  (rp : Axios.response Payload) :
  transport w (printUrl fileId) printOptions = (Axios.Answer rp, w1) ->
  printAccepted rp ->
  Response.isHeaderValue (pdfFilename fileName) = false ->
  exists e,
    Download.viewOnlyPdf byteLength transport fileId fileName w
    = (Axios.Thrown e, w1).
Proof.
  intros H Ha Hn. apply printCondition_spec in Ha.
  unfold Download.viewOnlyPdf.
  rewrite (bind_value _ _ w w1 rp) by now apply get_answer.
  fold (printCondition rp). rewrite Ha.
  apply (deliver_refused (Axios.body rp) "application/pdf"
           (pdfFilename fileName)).
  rewrite Hn. apply andb_false_r.
Qed.

Lemma viewOnlyPdf_embed (w w1 w2 : World) (fileId fileName : string)
  (rp re : Axios.response Payload) :
  transport w (printUrl fileId) printOptions = (Axios.Answer rp, w1) ->
  ~ printAccepted rp ->
  transport w1 (embedUrl fileId) embedOptions = (Axios.Answer re, w2) ->
  Response.isHeaderValue (pdfFilename fileName) = true ->
  Download.viewOnlyPdf byteLength transport fileId fileName w
  = (Axios.Value
       (if (Axios.status re =? 200)%N
        then Some (Download.attachment (Axios.body re) "application/pdf"
                     (pdfFilename fileName))
        else None), w2).
Proof.
  intros H Ha He Hn.
  assert (Hc : printCondition rp = false).
  { destruct (printCondition rp) eqn:E; [|reflexivity].
    now apply printCondition_spec in E. }
  unfold Download.viewOnlyPdf.
  rewrite (bind_value _ _ w w1 rp) by now apply get_answer.
  fold (printCondition rp). rewrite Hc.
  rewrite (bind_value _ _ w1 w2 re) by now apply get_answer.
  destruct (Axios.status re =? 200)%N; [|reflexivity].
  exact (deliver_value (Axios.body re) "application/pdf" _ w2 eq_refl Hn).
Qed.

(** *** The export path *)

Lemma googleDocs_delivers (w w1 : World)
  (fileId fileName mimeType : string) (format : option string)
  (r : Axios.response Payload) :
  let exportFormat := Download.exportFormatOf format mimeType in
  transport w (exportUrl fileId exportFormat) exportOptions
  = (Axios.Answer r, w1) ->
  Axios.status r = 200%N ->
  Axios.truthy (Axios.body r) = true ->
  Response.isHeaderValue
    (getProperFilename fileName (exportContentType exportFormat)
       (Some exportFormat)) = true ->
  Download.googleDocs transport fileId fileName mimeType format w
  = (Axios.Value
       (Some (Download.attachment (Axios.body r)
                (exportContentType exportFormat)
                (getProperFilename fileName (exportContentType exportFormat)
                   (Some exportFormat)))), w1).
Proof.
  intros exportFormat H Hs Hb Hn. unfold Download.googleDocs.
  rewrite (bind_value _ _ w w1 r)
    by (apply get_answer; [exact H | now rewrite Hs]).
  rewrite Hs, Hb. cbn [N.eqb Pos.eqb andb].
  destruct (exportContentType_stored exportFormat) as [Hstored Hvalue].
  rewrite <- Hstored at 1.
  apply deliver_value; [now rewrite Hstored | exact Hn].
Qed.

(** A status other than 200 on the export call is thrown. *)
Lemma googleDocs_throws (w w1 : World)
  (fileId fileName mimeType : string) (format : option string)
  (r : Axios.response Payload) :
  transport w
    (exportUrl fileId (Download.exportFormatOf format mimeType))
    exportOptions = (Axios.Answer r, w1) ->
  Axios.status r <> 200%N ->
  Download.googleDocs transport fileId fileName mimeType format w
  = (Axios.Thrown (Axios.StatusError (Axios.status r)), w1).
Proof.
  intros H Hs. unfold Download.googleDocs.
  apply bind_thrown. apply get_refused; [exact H | now apply N.eqb_neq].
Qed.

(** *** Sequencing the attempts *)

Lemma orThen_some (a : Axios.M World (option (Response.t Payload)))
  (rest : Axios.M World (Response.t Payload)) (w w' : World)
  (r : Response.t Payload) :
  a w = (Axios.Value (Some r), w') ->
  Download.orThen a rest w = (Axios.Value r, w').
Proof.
  intros H. unfold Download.orThen. now rewrite (bind_value _ _ _ _ _ H).
Qed.

Lemma orThen_none (a : Axios.M World (option (Response.t Payload)))
  (rest : Axios.M World (Response.t Payload)) (w w' : World) :
  a w = (Axios.Value None, w') ->
  Download.orThen a rest w = rest w'.
Proof.
  intros H. unfold Download.orThen. now rewrite (bind_value _ _ _ _ _ H).
Qed.

Lemma orThen_thrown (a : Axios.M World (option (Response.t Payload)))
  (rest : Axios.M World (Response.t Payload)) (w w' : World)
  (e : Axios.exn) :
  a w = (Axios.Thrown e, w') ->
  Download.orThen a rest w = (Axios.Thrown e, w').
Proof. intros H. unfold Download.orThen. now apply bind_thrown. Qed.

(** The handler with a file identifier runs the attempts under the
    outer try block. *)
Lemma GET_attempts (q : Download.query) (fileId : string) (w w' : World)
  (r : Response.t Payload) :
  given (Download.fileId q) = Some fileId ->
  Download.attempts byteLength transport fileId (Download.format q)
    (Download.isTrue (Download.forcePdf q))
    (Download.isTrue (Download.viewOnly q)) w = (Axios.Value r, w') ->
  Download.GET byteLength transport q w = (Axios.Value r, w').
Proof.
  intros Hid H. unfold Download.GET. rewrite Hid.
  now apply tryCatch_value.
Qed.

(** The entries of the format table are not empty. *)
Lemma contentTypeMap_truthy (fmt ct : string) :
  lookup contentTypeMap fmt = Some ct -> JsString.truthy ct = true.
Proof.
  intros H. apply Resolver.lookup_In in H.
  assert (Hall : Forall (fun v => JsString.truthy v = true)
                   (map snd contentTypeMap)) by (repeat constructor).
  exact (proj1 (Forall_forall _ _) Hall _ H).
Qed.

Lemma exportContentType_own (fmt ct : string) :
  lookup contentTypeMap fmt = Some ct -> exportContentType fmt = ct.
Proof.
  intros H. unfold exportContentType. rewrite (Resolver.get_own _ _ _ H).
  cbn [orText]. now rewrite (contentTypeMap_truthy _ _ H).
Qed.

Lemma exportContentType_unknown (fmt : string) :
  get contentTypeMap fmt = Undefined ->
  exportContentType fmt = "application/octet-stream".
Proof. intros H. unfold exportContentType. now rewrite H. Qed.

Lemma exportContentType_inherited (fmt text : string) :
  get contentTypeMap fmt = Inherited text -> exportContentType fmt = text.
Proof. intros H. unfold exportContentType. now rewrite H. Qed.

(** On a successful native-app export the outbound content type is a
    function of the export format alone; the content type the export
    endpoint declared plays no part. *)
Lemma googleDocs_content_type (w w1 : World)
  (fileId fileName mimeType : string) (format : option string)
  (r : Axios.response Payload) :
  transport w
    (exportUrl fileId (Download.exportFormatOf format mimeType))
    exportOptions = (Axios.Answer r, w1) ->
  Axios.status r = 200%N ->
  Axios.truthy (Axios.body r) = true ->
  Response.isHeaderValue
    (getProperFilename fileName
       (exportContentType (Download.exportFormatOf format mimeType))
       (Some (Download.exportFormatOf format mimeType))) = true ->
  exists response,
    Download.googleDocs transport fileId fileName mimeType format w
    = (Axios.Value (Some response), w1)
    /\ Response.content response = Response.Bytes (Axios.body r)
    /\ Response.header response "Content-Type"
       = Some (exportContentType (Download.exportFormatOf format mimeType)).
Proof.
  intros H Hs Hb Hn.
  eexists. split; [exact (googleDocs_delivers _ _ _ _ _ _ _ H Hs Hb Hn)|].
  split; reflexivity.
Qed.

(** For a native spreadsheet requested without a format the handler
    answers with the spreadsheet interchange MIME type and a filename
    that ends in [.xlsx]. *)
Lemma GET_spreadsheet_export (w w1 w2 : World) (q : Download.query)
  (fileId : string) (rm re : Axios.response Payload)
  (file : Axios.driveFile) :
  given (Download.fileId q) = Some fileId ->
  given (Download.format q) = None ->
  Download.isTrue (Download.forcePdf q) = false ->
  transport w (metadataUrl fileId) metadataOptions = (Axios.Answer rm, w1) ->
  Axios.status rm = 200%N ->
  Axios.body rm = Axios.Object file ->
  Axios.mimeType file = Some "application/vnd.google-apps.spreadsheet" ->
  transport w1 (exportUrl fileId "xlsx") exportOptions
  = (Axios.Answer re, w2) ->
  Axios.status re = 200%N ->
  Axios.truthy (Axios.body re) = true ->
  Response.isHeaderValue
    (getProperFilename
       (JsString.orElse (Axios.name file) ("file_" ++ fileId))
       (exportContentType "xlsx") (Some "xlsx")) = true ->
  exists response filename,
    Download.GET byteLength transport q w = (Axios.Value response, w2)
    /\ Response.status response = 200%N
    /\ Response.content response = Response.Bytes (Axios.body re)
    /\ Response.header response "Content-Type"
       = Some "application/vnd.openxmlformats-officedocument.spreadsheetml.sheet"
    /\ Response.header response "Content-Disposition"
       = Some (disposition filename)
    /\ JsString.endsWith filename ".xlsx" = true.
Proof.
  intros Hid Hfmt Hforce Hm Hms Hmb Hmt He Hes Heb Hn.
  assert (Hx : Download.exportFormatOf (Download.format q)
                 "application/vnd.google-apps.spreadsheet" = "xlsx").
  { unfold Download.exportFormatOf. now rewrite Hfmt. }
  exists (Download.attachment (Axios.body re)
            (exportContentType "xlsx")
            (getProperFilename
               (JsString.orElse (Axios.name file) ("file_" ++ fileId))
               (exportContentType "xlsx") (Some "xlsx"))).
  eexists. split; [|repeat split].
  - apply (GET_attempts q fileId); [exact Hid|].
    unfold Download.attempts.
    rewrite (bind_value _ _ w w1 _ (metadata_found _ _ _ _ _ Hm Hms Hmb)).
    cbn [fst snd]. rewrite Hmt, Hforce.
    rewrite (orThen_none _ _ w1 w1).
    + apply orThen_some.
      change (JsString.startsWith _ _) with true. cbv iota.
      pose proof (googleDocs_delivers w1 w2 fileId
                    (JsString.orElse (Axios.name file) ("file_" ++ fileId))
                    "application/vnd.google-apps.spreadsheet"
                    (Download.format q) re) as Hg.
      cbv zeta in Hg. rewrite Hx in Hg.
      exact (Hg He Hes Heb Hn).
    + rewrite orb_false_r.
      now destruct (Download.isTrue (Download.viewOnly q)).
  - exact (requested_extension _ _ "xlsx" eq_refl).
Qed.


(** A suspect page is delivered all the same: when the standard download
    answers 200 with an HTML content type and fewer than 1,000,000 bytes,
    and the alternative address does not answer 200, the handler sends
    the first answer (under a content type and a name that headers can
    carry). *)
Lemma standardDownload_suspect_delivered (w w1 w2 : World)
  (fileId fileName mimeType : string) (r ra : Axios.response Payload)
  (p : Payload) :
  transport w (downloadUrl fileId) browserOptions = (Axios.Answer r, w1) ->
  Axios.status r = 200%N ->
  Axios.body r = Axios.Buffer p ->
  (byteLength p < 1000000)%N ->
  JsString.includes (JsString.orElse (Axios.contentType r) mimeType)
    "text/html" = true ->
  transport w1 (alternativeUrl fileId) browserOptions
  = (Axios.Answer ra, w2) ->
  Axios.status ra <> 200%N ->
  Response.isHeaderValue
    (Response.normalize (JsString.orElse (Axios.contentType r) mimeType))
  = true ->
  Response.isHeaderValue
    (getProperFilename fileName
       (JsString.orElse (Axios.contentType r) mimeType) None) = true ->
  Download.standardDownload byteLength transport fileId fileName mimeType w
  = (Axios.Value
       (Some (Download.attachment (Axios.body r)
                (Response.normalize
                   (JsString.orElse (Axios.contentType r) mimeType))
                (getProperFilename fileName
                   (JsString.orElse (Axios.contentType r) mimeType) None))),
     w2).
Proof.
  intros H Hs Hb Hp Hh Ha Has Hc Hn. unfold Download.standardDownload.
  rewrite (bind_value _ _ w w1 r)
    by (apply get_answer; [exact H | now rewrite Hs]).
  rewrite Hs, Hb, Hh. cbn [N.eqb Pos.eqb Axios.truthy andb].
  apply N.ltb_lt in Hp.
  rewrite (bind_value _ _ w1 w1 true)
    by (unfold Axios.bind, Axios.byteLengthOf, Axios.ret, Axios.below;
        now rewrite Hp).
  rewrite (bind_value _ _ w1 w2 ra) by now apply get_answer.
  apply N.eqb_neq in Has. rewrite Has.
  now apply deliver_value.
Qed.

(** A status the standard download does not accept is thrown out of the
    attempts: nothing after it runs. *)
Lemma standardDownload_throws (w w1 : World)
  (fileId fileName mimeType : string) (r : Axios.response Payload) :
  transport w (downloadUrl fileId) browserOptions = (Axios.Answer r, w1) ->
  Axios.status r <> 200%N -> Axios.status r <> 303%N ->
  Axios.status r <> 302%N ->
  Download.standardDownload byteLength transport fileId fileName mimeType w
  = (Axios.Thrown (Axios.StatusError (Axios.status r)), w1).
Proof.
  intros H H1 H2 H3. unfold Download.standardDownload.
  apply bind_thrown. apply get_refused; [exact H|].
  apply N.eqb_neq in H1, H2, H3. now rewrite H1, H2, H3.
Qed.

(** The answer of the outer catch block. *)
Definition internalError (error : Axios.exn) : Response.t Payload :=
  {| Response.status := 500;
     Response.headers := [("Content-Type", "application/json")];
     Response.content :=
       Response.Error "Failed to download file"
         (Some (Axios.message error)) None |}.

Lemma GET_thrown (q : Download.query) (fileId : string) (w w' : World)
  (e : Axios.exn) :
  given (Download.fileId q) = Some fileId ->
  Download.attempts byteLength transport fileId (Download.format q)
    (Download.isTrue (Download.forcePdf q))
    (Download.isTrue (Download.viewOnly q)) w = (Axios.Thrown e, w') ->
  Download.GET byteLength transport q w
  = (Axios.Value (internalError e), w').
Proof.
  intros Hid H. unfold Download.GET. rewrite Hid.
  now rewrite (tryCatch_thrown _ _ _ _ _ H).
Qed.

(** For a native-app file outside the forced-PDF path, an export answer
    of any status but 200 ends the request with the 500 error; no later
    strategy runs. *)
Lemma GET_export_refused (w w1 w2 : World) (q : Download.query)
  (fileId : string) (rm re : Axios.response Payload)
  (file : Axios.driveFile) (mimeType : string) :
  given (Download.fileId q) = Some fileId ->
  Download.isTrue (Download.forcePdf q) = false ->
  transport w (metadataUrl fileId) metadataOptions = (Axios.Answer rm, w1) ->
  Axios.status rm = 200%N ->
  Axios.body rm = Axios.Object file ->
  Axios.mimeType file = Some mimeType ->
  JsString.startsWith mimeType "application/vnd.google-apps" = true ->
  JsString.includes mimeType "pdf" = false ->
  transport w1
    (exportUrl fileId (Download.exportFormatOf (Download.format q) mimeType))
    exportOptions = (Axios.Answer re, w2) ->
  Axios.status re <> 200%N ->
  Download.GET byteLength transport q w
  = (Axios.Value (internalError (Axios.StatusError (Axios.status re))), w2).
Proof.
  intros Hid Hforce Hm Hms Hmb Hmt Happs Hpdf He Hes.
  assert (Hmime : JsString.orElse (Some mimeType) "application/octet-stream"
                  = mimeType).
  { unfold JsString.orElse. destruct mimeType; [discriminate | reflexivity]. }
  apply (GET_thrown q fileId); [exact Hid|].
  unfold Download.attempts.
  rewrite (bind_value _ _ w w1 _ (metadata_found _ _ _ _ _ Hm Hms Hmb)).
  cbn [fst snd]. rewrite Hmt, Hmime, Hforce, Hpdf, Happs.
  rewrite (orThen_none _ _ w1 w1)
    by now destruct (Download.isTrue (Download.viewOnly q)).
  apply orThen_thrown. now apply googleDocs_throws.
Qed.

(** For a file the metadata API does not describe, outside the forced-PDF
    path, a download answer of any status but 200, 302 and 303 ends the
    request with the 500 error; the redirect to the viewer is not
    reached. *)
Lemma GET_download_refused (w w1 w2 : World) (q : Download.query)
  (fileId : string) (rm r : Axios.response Payload) :
  given (Download.fileId q) = Some fileId ->
  Download.isTrue (Download.forcePdf q) = false ->
  transport w (metadataUrl fileId) metadataOptions = (Axios.Answer rm, w1) ->
  Axios.status rm <> 200%N ->
  transport w1 (downloadUrl fileId) browserOptions = (Axios.Answer r, w2) ->
  Axios.status r <> 200%N -> Axios.status r <> 303%N ->
  Axios.status r <> 302%N ->
  Download.GET byteLength transport q w
  = (Axios.Value (internalError (Axios.StatusError (Axios.status r))), w2).
Proof.
  intros Hid Hforce Hm Hms Hd H1 H2 H3.
  apply (GET_thrown q fileId); [exact Hid|].
  unfold Download.attempts.
  rewrite (bind_value _ _ w w1 _ (metadata_default _ _ _ _ Hm Hms)).
  cbn [fst snd]. rewrite Hforce.
  change (JsString.includes "application/octet-stream" "pdf") with false.
  change (JsString.startsWith "application/octet-stream"
            "application/vnd.google-apps") with false.
  rewrite (orThen_none _ _ w1 w1)
    by now destruct (Download.isTrue (Download.viewOnly q)).
  rewrite (orThen_none _ _ w1 w1) by reflexivity.
  apply orThen_thrown. now apply standardDownload_throws.
Qed.

(** The handler never throws: every run ends in a response. *)
Lemma GET_returns (q : Download.query) (w : World) :
  exists r w', Download.GET byteLength transport q w = (Axios.Value r, w').
Proof.
  unfold Download.GET.
  destruct (given (Download.fileId q)) as [fileId|];
    [|eexists; eexists; reflexivity].
  unfold Axios.tryCatch.
  destruct (Download.attempts _ _ _ _ _ _ w) as [[r|e] w'];
    eexists; eexists; reflexivity.
Qed.

End Facts.

(** *** The default export format *)

(** C3, as the claim states it, fails: without a requested format an
    editor document is exported as docx, not as pdf. *)
Lemma document_default_is_not_pdf :
  Download.exportFormatOf None "application/vnd.google-apps.document"
  <> "pdf".
Proof. discriminate. Qed.

(** C3, as the code has it. Without a requested format (none, or an empty
    one) the export format is docx for an editor document, xlsx for a
    spreadsheet, pptx for a presentation and pdf for any other type; a
    requested format that is not empty is the export format. *)
Theorem exportFormatOf_defaults :
  (forall format,
      format = None \/ format = Some EmptyString ->
      Download.exportFormatOf format "application/vnd.google-apps.document"
      = "docx"
      /\ Download.exportFormatOf format
           "application/vnd.google-apps.spreadsheet" = "xlsx"
      /\ Download.exportFormatOf format
           "application/vnd.google-apps.presentation" = "pptx"
      /\ (forall mimeType,
            mimeType <> "application/vnd.google-apps.document" ->
            mimeType <> "application/vnd.google-apps.spreadsheet" ->
            mimeType <> "application/vnd.google-apps.presentation" ->
            Download.exportFormatOf format mimeType = "pdf"))
  /\ (forall requested mimeType,
        requested <> EmptyString ->
        Download.exportFormatOf (Some requested) mimeType = requested).
Proof.
  split.
  - intros format Hf.
    assert (Hg : given format = None /\ JsString.orElse format "pdf" = "pdf")
      by (destruct Hf as [-> | ->]; split; reflexivity).
    destruct Hg as [Hg Ho].
    unfold Download.exportFormatOf. rewrite Hg, Ho.
    repeat split.
    intros mimeType Hd Hs Hp.
    apply String.eqb_neq in Hd, Hs, Hp. now rewrite Hd, Hs, Hp.
  - intros requested mimeType Hr.
    unfold Download.exportFormatOf, given, JsString.orElse.
    apply truthy_nonempty in Hr. now rewrite Hr.
Qed.

Lemma exportFormatOf_defaults_witness :
  Download.exportFormatOf None "application/vnd.google-apps.drawing" = "pdf"
  /\ Download.exportFormatOf (Some "csv")
       "application/vnd.google-apps.spreadsheet" = "csv".
Proof.
  split.
  - apply (proj1 exportFormatOf_defaults None (or_introl eq_refl));
      discriminate.
  - apply (proj2 exportFormatOf_defaults "csv"); discriminate.
Defined.

End DownloadFacts.

(** ** Runs against scripted sites *)

Module Scenario.
Import DownloadFacts.

(** A payload known by its size. *)
Definition blob : Type := N.
Definition size (b : blob) : N := b.

(** The world: the addresses requested so far.  A site answers each
    address the same way every time. *)
Definition log : Type := list string.

Definition serve (site : string -> Axios.reply blob) (w : log)
  (url : string) (o : Axios.options) : Axios.reply blob * log :=
  (site url, (w ++ [url])%list).

Definition answer (status : N) (contentType : option string)
  (body : Axios.data blob) : Axios.reply blob :=
  Axios.Answer {| Axios.status := status; Axios.contentType := contentType;
                  Axios.body := body |}.

Definition notFound : Axios.reply blob :=
  answer 404 (Some "text/html; charset=utf-8") (Axios.Buffer 1600%N).

Definition describes (name mimeType : string) : Axios.reply blob :=
  answer 200 (Some "application/json; charset=UTF-8")
    (Axios.Object {| Axios.name := Some name;
                     Axios.mimeType := Some mimeType;
                     Axios.size := None; Axios.canDownload := None |}).

(** A request for the file [abc] with no other parameter. *)
Definition plain : Download.query :=
  {| Download.fileId := Some "abc"; Download.format := None;
     Download.forcePdf := None; Download.viewOnly := None |}.

(** The same with viewOnly=true. *)
Definition viewing : Download.query :=
  {| Download.fileId := Some "abc"; Download.format := None;
     Download.forcePdf := None; Download.viewOnly := Some "true" |}.

(** Both download addresses answer 200 with a 500-byte HTML page; the
    file is unknown to the metadata API. *)
Definition interstitialSite (url : string) : Axios.reply blob :=
  if String.eqb url (downloadUrl "abc")
  then answer 200 (Some "text/html; charset=utf-8") (Axios.Buffer 500%N)
  else if String.eqb url (alternativeUrl "abc")
  then answer 200 (Some "text/html; charset=utf-8") (Axios.Buffer 500%N)
  else notFound.

(** The download address answers 200 with 2,000,000 bytes declared as
    HTML. *)
Definition largePageSite (url : string) : Axios.reply blob :=
  if String.eqb url (downloadUrl "abc")
  then answer 200 (Some "text/html; charset=utf-8") (Axios.Buffer 2000000%N)
  else notFound.

(** A view-only PDF whose print and preview addresses both answer 200
    with a 50-byte HTML stub. *)
Definition stubPreviewSite (url : string) : Axios.reply blob :=
  if String.eqb url (metadataUrl "abc")
  then describes "paper.pdf" "application/pdf"
  else if String.eqb url (printUrl "abc")
  then answer 200 (Some "text/html") (Axios.Buffer 50%N)
  else if String.eqb url (embedUrl "abc")
  then answer 200 (Some "text/html") (Axios.Buffer 50%N)
  else notFound.

(** A view-only PDF whose print address answers 200 with 50 bytes and
    whose preview address answers 200 with 40,000 bytes. *)
Definition previewSite (url : string) : Axios.reply blob :=
  if String.eqb url (metadataUrl "abc")
  then describes "paper" "application/pdf"
  else if String.eqb url (printUrl "abc")
  then answer 200 (Some "text/html") (Axios.Buffer 50%N)
  else if String.eqb url (embedUrl "abc")
  then answer 200 (Some "application/pdf") (Axios.Buffer 40000%N)
  else notFound.

(** A native spreadsheet whose export answers 200 and declares
    text/plain. *)
Definition sheetSite (url : string) : Axios.reply blob :=
  if String.eqb url (metadataUrl "abc")
  then describes "Budget" "application/vnd.google-apps.spreadsheet"
  else if String.eqb url (exportUrl "abc" "xlsx")
  then answer 200 (Some "text/plain") (Axios.Buffer 9000%N)
  else notFound.

(** A native spreadsheet whose export answers 403, while the standard
    download address would answer 200 with the file. *)
Definition forbiddenExportSite (url : string) : Axios.reply blob :=
  if String.eqb url (metadataUrl "abc")
  then describes "Budget" "application/vnd.google-apps.spreadsheet"
  else if String.eqb url (exportUrl "abc" "xlsx")
  then answer 403 (Some "text/html") (Axios.Buffer 1200%N)
  else if String.eqb url (downloadUrl "abc")
  then answer 200 (Some "application/octet-stream") (Axios.Buffer 9000%N)
  else notFound.

(** A file no address serves: every request is answered 404. *)
Definition nothingSite (url : string) : Axios.reply blob := notFound.

Definition failure (status : N) (details : string) : Response.t blob :=
  {| Response.status := status;
     Response.headers := [("Content-Type", "application/json")];
     Response.content :=
       Response.Error "Failed to download file" (Some details) None |}.

(** The three addresses of the direct-download path, in request order. *)
Definition metadataThenDownload : log :=
  [metadataUrl "abc"; downloadUrl "abc"].

(** C1. On the direct-download path a 200 response declared as HTML with
    500 bytes is delivered when the alternative address answers with the
    same page: the handler asks the alternative address and then sends the
    first response with status 200.  A 200 response declared as HTML with
    2,000,000 bytes is delivered without a second request. *)
Theorem interstitial_page_delivered :
  Download.GET size (serve interstitialSite) plain []
  = (Axios.Value
       (Download.attachment (Axios.Buffer 500%N) "text/html; charset=utf-8"
          "file_abc.bin"),
     [metadataUrl "abc"; downloadUrl "abc"; alternativeUrl "abc"])
  /\ Download.GET size (serve largePageSite) plain []
     = (Axios.Value
          (Download.attachment (Axios.Buffer 2000000%N)
             "text/html; charset=utf-8" "file_abc.bin"),
        metadataThenDownload).
Proof. split; vm_compute; reflexivity. Qed.


(** A view-only PDF whose print address answers 200 with 40,000 bytes
    of application/pdf. *)
Definition printedSite (url : string) : Axios.reply blob :=
  if String.eqb url (printUrl "abc")
  then answer 200 (Some "application/pdf") (Axios.Buffer 40000%N)
  else notFound.

Definition stubPage : Axios.response blob :=
  {| Axios.status := 200; Axios.contentType := Some "text/html";
     Axios.body := Axios.Buffer 50%N |}.

Definition pdfPage : Axios.response blob :=
  {| Axios.status := 200; Axios.contentType := Some "application/pdf";
     Axios.body := Axios.Buffer 40000%N |}.

Definition paperFile : Axios.driveFile :=
  {| Axios.name := Some "paper"; Axios.mimeType := Some "application/pdf";
     Axios.size := None; Axios.canDownload := None |}.

(** A name with a line feed in it. *)
Definition brokenName : string := String "a" (String "010" "b").


(** The same spreadsheet asked for in the format [toString], which the
    format table does not have; the export answers 200. *)
Definition memberSite (url : string) : Axios.reply blob :=
  if String.eqb url (metadataUrl "abc")
  then describes "Budget" "application/vnd.google-apps.spreadsheet"
  else if String.eqb url (exportUrl "abc" "toString")
  then answer 200 (Some "text/plain") (Axios.Buffer 9000%N)
  else notFound.

Definition asToString : Download.query :=
  {| Download.fileId := Some "abc"; Download.format := Some "toString";
     Download.forcePdf := None; Download.viewOnly := None |}.

(** C4. For a native spreadsheet with no requested format the export is
    sent with the spreadsheet interchange MIME type of the format table,
    not the text/plain the endpoint declared, under a name that ends in
    [.xlsx].  For the format [toString], which the table does not have,
    the content type sent is not application/octet-stream: the lookup
    finds the [toString] every object inherits, which is truthy, and its
    text becomes the content type. *)
Theorem export_content_type_inherited_member :
  Download.GET size (serve sheetSite) plain []
  = (Axios.Value
       (Download.attachment (Axios.Buffer 9000%N)
          "application/vnd.openxmlformats-officedocument.spreadsheetml.sheet"
          "Budget.xlsx"),
     [metadataUrl "abc"; exportUrl "abc" "xlsx"])
  /\ lookup contentTypeMap "toString" = None
  /\ Download.GET size (serve memberSite) asToString []
     = (Axios.Value
          (Download.attachment (Axios.Buffer 9000%N)
             "function toString() { [native code] }" "Budget.toString"),
        [metadataUrl "abc"; exportUrl "abc" "toString"])
  /\ "function toString() { [native code] }" <> "application/octet-stream".
Proof.
  split; [vm_compute; reflexivity|]. split; [reflexivity|].
  split; [vm_compute; reflexivity | discriminate].
Qed.

(** C5. A status failure of the export attempt is not caught at the
    attempt: for a native spreadsheet whose export answers 403 the handler
    answers 500 with the message of the thrown error, and the standard
    download, which would have answered 200, is never requested. *)
Theorem export_status_failure_ends_chain :
  Download.GET size (serve forbiddenExportSite) plain []
  = (Axios.Value (failure 500 "Request failed with status code 403"),
     [metadataUrl "abc"; exportUrl "abc" "xlsx"]).
Proof. vm_compute; reflexivity. Qed.

(** C6. When every address answers 404 the outcome is the 500 error of
    the outer catch block, after the first download request; it is not
    the 302 redirect to the viewer page. *)
Theorem exhausted_chain_is_error :
  Download.GET size (serve nothingSite) plain []
  = (Axios.Value (failure 500 "Request failed with status code 404"),
     metadataThenDownload)
  /\ failure 500 "Request failed with status code 404"
     <> Download.viewerRedirect "abc".
Proof. split; [vm_compute; reflexivity | discriminate]. Qed.

End Scenario.

(** ** The file-info route *)

Module FileInfoFacts.
Import AxiosFacts.

Definition infoUrl (fileId : string) : string :=
  "https://www.googleapis.com/drive/v3/files/" ++ fileId
  ++ "?fields=name,mimeType,size,capabilities,permissions".
Definition infoOptions : Axios.options :=
  {| Axios.kind := Axios.json; Axios.headers := [];
     Axios.maxRedirects := None |}.

Definition viewUrl (fileId : string) : string :=
  "https://drive.google.com/file/d/" ++ fileId ++ "/view".
Definition viewOptions : Axios.options :=
  {| Axios.kind := Axios.json; Axios.headers := [];
     Axios.maxRedirects := Some 5 |}.

(** The view page is a string that shows a marker of the PDF viewer. *)
Definition pdfMarker {Payload} (d : Axios.data Payload) : bool :=
  match FileInfo.page d with
  | Some html =>
      JsString.includes html "pdf.js" || JsString.includes html "PDF viewer"
  | None => false
  end.

(** The record in a response, when it carries one. *)
Definition infoOf {Payload} (r : Response.t Payload)
  : option Response.fileInfo :=
  match Response.content r with
  | Response.Info m => Some m
  | _ => None
  end.

Section Facts.
Context {Payload World : Type}.
Variable transport :
  World -> string -> Axios.options -> Axios.reply Payload * World.

(** The record built from a 200 answer lists export options only for a
    Google Apps file. *)
Lemma describe_invariant (fileId : string) (data : Axios.driveFile)
  (m : Response.fileInfo) :
  infoOf (FileInfo.describe (Payload := Payload) fileId data) = Some m ->
  Response.exportOptions m <> [] ->
  Response.isGoogleApps m = Some true.
Proof.
  unfold FileInfo.describe, infoOf. cbn [FileInfo.jsonResponse
    Response.content].
  intros H. injection H as <-. cbn [Response.exportOptions
    Response.isGoogleApps].
  destruct (option_map _ (Axios.mimeType data)) as [[|]|];
    [reflexivity | congruence | congruence].
Qed.

(** The degraded record of the fallback. *)
Lemma fallback_answer (w w' : World) (fileId : string)
  (rv : Axios.response Payload) :
  transport w (viewUrl fileId) viewOptions = (Axios.Answer rv, w') ->
  exists m,
    FileInfo.fallback transport fileId w
    = (Axios.Value (FileInfo.jsonResponse 200 (Response.Info m)), w')
    /\ Response.isGoogleApps m = Some false
    /\ Response.canDownload m = false
    /\ Response.exportOptions m
       = (if pdfMarker (Axios.body rv) then ["pdf"] else []).
Proof.
  intros H. unfold FileInfo.fallback.
  rewrite (bind_value _ _ w w' rv) by now apply get_answer.
  eexists. split; [reflexivity|]. repeat split.
Qed.

(** C8, as the code has it. A record built from a 200 answer of the
    metadata API has export options only when isGoogleApps is true.  The
    degraded record, built from the view page after any other status,
    has isGoogleApps false, and its export options are [pdf] when the
    page shows a marker of the PDF viewer and empty otherwise. *)
Theorem exportOptions_invariant :
  (forall (w w1 w' : World) (fileId : option string) (id : string)
          (r : Axios.response Payload) (response : Response.t Payload)
          (m : Response.fileInfo),
      given fileId = Some id ->
      transport w (infoUrl id) infoOptions = (Axios.Answer r, w1) ->
      Axios.status r = 200%N ->
      FileInfo.GET transport fileId w = (Axios.Value response, w') ->
      infoOf response = Some m ->
      Response.exportOptions m <> [] ->
      Response.isGoogleApps m = Some true)
  /\ (forall (w w1 w2 : World) (fileId : option string) (id : string)
             (r rv : Axios.response Payload),
        given fileId = Some id ->
        transport w (infoUrl id) infoOptions = (Axios.Answer r, w1) ->
        Axios.status r <> 200%N ->
        transport w1 (viewUrl id) viewOptions = (Axios.Answer rv, w2) ->
        exists m,
          FileInfo.GET transport fileId w
          = (Axios.Value (FileInfo.jsonResponse 200 (Response.Info m)), w2)
          /\ Response.isGoogleApps m = Some false
          /\ Response.exportOptions m
             = (if pdfMarker (Axios.body rv) then ["pdf"] else [])).
Proof.
  split.
  - intros w w1 w' fileId id r response m Hid H Hs Hget Hm Hopts.
    unfold FileInfo.GET in Hget. rewrite Hid in Hget.
    unfold Axios.tryCatch in Hget.
    rewrite (bind_value _ _ w w1 r) in Hget by now apply get_answer.
    rewrite Hs in Hget. cbn [N.eqb Pos.eqb negb] in Hget.
    unfold Axios.bind, Axios.fileOf in Hget.
    destruct (Axios.body r); cbn in Hget; injection Hget as <- <-;
      try discriminate;
      exact (describe_invariant _ _ _ Hm Hopts).
  - intros w w1 w2 fileId id r rv Hid H Hs Hv.
    destruct (fallback_answer w1 w2 id rv Hv) as (m & Hf & Hg & _ & Ho).
    exists m. split; [|split; trivial].
    unfold FileInfo.GET. rewrite Hid.
    apply tryCatch_value.
    rewrite (bind_value _ _ w w1 r) by now apply get_answer.
    apply N.eqb_neq in Hs. rewrite Hs. cbn [negb].
    now apply tryCatch_value.
Qed.

End Facts.

(** A file the metadata API answers 403 for, whose view page loads the
    PDF viewer. *)
Definition viewOnlyPdfSite (url : string) : Axios.reply Scenario.blob :=
  if String.eqb url (infoUrl "abc")
  then Scenario.answer 403 (Some "application/json") Axios.Absent
  else if String.eqb url (viewUrl "abc")
  then Scenario.answer 200 (Some "text/html")
         (Axios.Text
            "<html><head><title>paper.pdf - Google Drive</title></head><script src=pdf.js></script></html>")
  else Scenario.notFound.

(** C8, as the claim states it, fails: the degraded record of a probable
    PDF has isGoogleApps false and a non-empty list of export options. *)
Lemma degraded_record_offers_pdf :
  exists m,
    FileInfo.GET (Scenario.serve viewOnlyPdfSite) (Some "abc") []
    = (Axios.Value (FileInfo.jsonResponse 200 (Response.Info m)),
       [infoUrl "abc"; viewUrl "abc"])
    /\ Response.name m = Some "paper.pdf"
    /\ Response.isGoogleApps m = Some false
    /\ Response.exportOptions m = ["pdf"]
    /\ Response.exportOptions m <> [].
Proof. eexists. vm_compute. repeat split. discriminate. Qed.

(** A native document the metadata API describes. *)
Definition documentSite (url : string) : Axios.reply Scenario.blob :=
  if String.eqb url (infoUrl "abc")
  then Scenario.describes "Notes" "application/vnd.google-apps.document"
  else Scenario.notFound.

Definition viewPage : Axios.response Scenario.blob :=
  {| Axios.status := 200; Axios.contentType := Some "text/html";
     Axios.body :=
       Axios.Text
         "<html><head><title>paper.pdf - Google Drive</title></head><script src=pdf.js></script></html>" |}.

Lemma exportOptions_invariant_witness :
  (exists m,
      infoOf (FileInfo.describe (Payload := Scenario.blob) "abc"
                {| Axios.name := Some "Notes";
                   Axios.mimeType :=
                     Some "application/vnd.google-apps.document";
                   Axios.size := None; Axios.canDownload := None |})
      = Some m
      /\ Response.exportOptions m = ["pdf"; "docx"; "txt"; "rtf"]
      /\ Response.isGoogleApps m = Some true)
  /\ exists m,
       FileInfo.GET (Scenario.serve viewOnlyPdfSite) (Some "abc") []
       = (Axios.Value (FileInfo.jsonResponse 200 (Response.Info m)),
          [infoUrl "abc"; viewUrl "abc"])
       /\ Response.isGoogleApps m = Some false
       /\ Response.exportOptions m = ["pdf"].
Proof.
  split.
  - eexists. split; [reflexivity|]. split; [reflexivity|].
    refine (proj1 (exportOptions_invariant (Scenario.serve documentSite))
              [] [infoUrl "abc"] [infoUrl "abc"] (Some "abc") "abc"
              {| Axios.status := 200;
                 Axios.contentType := Some "application/json; charset=UTF-8";
                 Axios.body :=
                   Axios.Object
                     {| Axios.name := Some "Notes";
                        Axios.mimeType :=
                          Some "application/vnd.google-apps.document";
                        Axios.size := None; Axios.canDownload := None |} |}
              _ _ eq_refl eq_refl eq_refl eq_refl eq_refl _).
    discriminate.
  - apply (proj2 (exportOptions_invariant (Scenario.serve viewOnlyPdfSite))
             [] [infoUrl "abc"] [infoUrl "abc"; viewUrl "abc"]
             (Some "abc") "abc"
             {| Axios.status := 403;
                Axios.contentType := Some "application/json";
                Axios.body := Axios.Absent |}
             viewPage);
      try reflexivity.
    discriminate.
Defined.

End FileInfoFacts.

(* ===================================================================== *)
(** * Further properties of the code                                      *)
(* ===================================================================== *)

(** ** The filename resolver, beyond names that already fit *)

Module ResolverMore.
Import StringFacts RegexFacts Resolver.

(** A match found by [search] starts at its index: the input splits there
    into what comes before and the text [run] matched on. *)
Lemma search_split (r : regex) (s : string) (i : nat) (m : result) :
  search r i s = Some m ->
  exists pre s',
    s = pre ++ s' /\ index m = String.length pre + i
    /\ run r s' None s' = Some (group1 m, rest m).
Proof.
  revert i. induction s as [|x s IH]; intros i; simpl.
  - destruct (run r EmptyString None EmptyString) as [[cap y]|] eqn:E;
      [|discriminate].
    intros H. injection H as <-. exists EmptyString, EmptyString. auto.
  - destruct (run r (String x s) None (String x s)) as [[cap y]|] eqn:E.
    + intros H. injection H as <-. exists EmptyString, (String x s). auto.
    + intros H. destruct (IH _ H) as (pre & s' & -> & Hi & Hr).
      exists (String x pre), s'. simpl. split; [reflexivity|].
      split; [lia | exact Hr].
Qed.

Lemma toLowerCase_app (a b : string) :
  JsString.toLowerCase (a ++ b)
  = JsString.toLowerCase a ++ JsString.toLowerCase b.
Proof. induction a as [|x a IH]; simpl; [reflexivity | now rewrite IH]. Qed.

(** Where /\.([^.]+)$/ matches, the input is a dot and the captured
    dot-free extension, up to the end. *)
Lemma run_ext_shape (s o : string) (c cap : option string) (y : string) :
  run re_ext o c s = Some (cap, y) ->
  exists g, s = "." ++ g /\ cap = Some g /\ y = EmptyString
            /\ JsString.truthy g = true
            /\ JsString.all (mem (NoneOf ".")) g = true.
Proof.
  unfold re_ext. cbn [run].
  destruct (dropPrefix "." s) as [s1|] eqn:E; [|discriminate].
  apply dropPrefix_inv in E. subst s.
  destruct s1 as [|x s1]; [discriminate|].
  destruct (mem (NoneOf ".") x) eqn:Hx; [|discriminate].
  intros H. apply greedy_inv in H as (xs & z & -> & Hxs & Hz).
  destruct z; [|discriminate]. injection Hz as <- <-.
  exists (String x (xs ++ EmptyString)).
  rewrite between_nil. repeat split.
  cbn [JsString.all]. now rewrite Hx, all_app, Hxs.
Qed.

(** The extension the resolver reads is the text after the last dot. *)
Lemma extensionOf_inv (baseName ext : string) :
  extensionOf baseName = Some ext ->
  exists stem,
    baseName = stem ++ "." ++ ext
    /\ JsString.truthy ext = true
    /\ JsString.all (mem (NoneOf ".")) ext = true.
Proof.
  unfold extensionOf, jsMatch, captured.
  destruct (search re_ext 0 baseName) as [m|] eqn:E; [|discriminate].
  destruct (search_split _ _ _ _ E) as (pre & s' & -> & _ & Hr).
  apply run_ext_shape in Hr as (g & -> & Hg & _ & Ht & Hd).
  rewrite Hg, Ht. intros H. injection H as <-. now exists pre.
Qed.

(** A plain extension: not empty, without slash and dot. *)
Definition plainName (e : string) : Prop :=
  JsString.truthy e = true /\ JsString.all (mem (NoneOf "/.")) e = true.

Lemma plainName_dotfree (e : string) :
  plainName e -> JsString.all (mem (NoneOf ".")) e = true.
Proof.
  intros [_ H]. revert H. apply all_impl. intros c. simpl.
  destruct (Ascii.eqb c "/"), (Ascii.eqb c "."); simpl; congruence.
Qed.

(** /\.[^/.]+$/ at a dot followed by a plain extension up to the end. *)
Lemma run_strip (e o : string) (c : option string) :
  plainName e ->
  run re_strip_ext o c ("." ++ e) = Some (c, EmptyString).
Proof.
  intros [Ht He]. unfold re_strip_ext. rewrite run_Lit. cbn [run].
  destruct e as [|x e]; [discriminate|].
  cbn [JsString.all] in He. apply andb_true_iff in He as [Hx He].
  rewrite Hx. rewrite <- (app_nil_r e).
  now rewrite (greedy_run _ _ e EmptyString (c, EmptyString)).
Qed.

Lemma run_strip_inv (s o : string) (c cap : option string) (y : string) :
  run re_strip_ext o c s = Some (cap, y) ->
  exists g, s = "." ++ g /\ JsString.all (mem (NoneOf "/.")) g = true.
Proof.
  unfold re_strip_ext. cbn [run].
  destruct (dropPrefix "." s) as [s1|] eqn:E; [|discriminate].
  apply dropPrefix_inv in E. subst s.
  destruct s1 as [|x s1]; [discriminate|].
  destruct (mem (NoneOf "/.") x) eqn:Hx; [|discriminate].
  intros H. apply greedy_inv in H as (xs & z & -> & Hxs & Hz).
  destruct z; [|discriminate].
  exists (String x (xs ++ EmptyString)). split; [reflexivity|].
  cbn [JsString.all]. now rewrite Hx, all_app, Hxs.
Qed.

Lemma strip_fails_through (stem e : string) :
  failsThrough re_strip_ext stem ("." ++ e).
Proof.
  induction stem as [|x stem IH]; cbn [failsThrough]; [exact I|].
  split; [|exact IH].
  destruct (run re_strip_ext _ None _) as [[cap y]|] eqn:E; [|reflexivity].
  exfalso. apply run_strip_inv in E as (g & Hg & Hd).
  injection Hg as _ <-.
  rewrite all_app in Hd. simpl in Hd. now rewrite andb_false_r in Hd.
Qed.

(** Stripping removes a plain extension with its dot. *)
Lemma strip_app (stem e : string) :
  plainName e ->
  replace (stem ++ "." ++ e) re_strip_ext EmptyString = stem.
Proof.
  intros He. unfold replace, jsMatch.
  rewrite (search_skip _ _ _ _ (strip_fails_through stem e)).
  rewrite (search_here _ _ _ _ _ (run_strip e _ None He)).
  cbn [index rest]. rewrite Nat.add_0_r, take_app. apply app_nil_r.
Qed.

(** Stripping leaves a name without a dot alone. *)
Lemma strip_dotfree (baseName : string) :
  JsString.all (mem (NoneOf ".")) baseName = true ->
  replace baseName re_strip_ext EmptyString = baseName.
Proof.
  intros H. unfold replace, jsMatch.
  assert (Hn : forall i, search re_strip_ext i baseName = None).
  { induction baseName as [|x b IH]; intros i; [reflexivity|].
    cbn [JsString.all] in H. apply andb_true_iff in H as [Hx Hb].
    rewrite search_next; [now apply IH|].
    unfold re_strip_ext. cbn [run dropPrefix].
    simpl in Hx. rewrite orb_false_r in Hx. apply negb_true_iff in Hx.
    rewrite Ascii.eqb_sym in Hx. now rewrite Hx. }
  now rewrite Hn.
Qed.

(** The texts of the inherited members are plain. *)
Lemma prototype_texts_plain : Forall plainName (map snd objectPrototype).
Proof. repeat constructor. Qed.

Lemma get_inherited (t : table) (k text : string) :
  get t k = Inherited text ->
  lookup t k = None /\ plainName text.
Proof.
  unfold get. destruct (lookup t k); [discriminate|].
  destruct (lookup objectPrototype k) as [x|] eqn:E; [|discriminate].
  intros H. injection H as <-. split; [reflexivity|].
  apply lookup_In in E.
  exact (proj1 (Forall_forall _ _) prototype_texts_plain _ E).
Qed.

Lemma get_own_inv (t : table) (k v : string) :
  get t k = Own v -> lookup t k = Some v.
Proof.
  unfold get. destruct (lookup t k); [congruence|].
  destruct (lookup objectPrototype k); discriminate.
Qed.

Lemma get_undefined (t : table) (k : string) :
  get t k = Undefined -> lookup t k = None.
Proof.
  unfold get. destruct (lookup t k); [discriminate | reflexivity].
Qed.

(** The extension the resolver appends is not empty and has no dot: an
    entry of the table, the text of an inherited member, or [bin]. *)
Lemma chosen_extension_plain (contentType : string) :
  JsString.truthy (orText (get mimeToExtension contentType) "bin") = true
  /\ JsString.all (mem (NoneOf "."))
       (orText (get mimeToExtension contentType) "bin") = true.
Proof.
  destruct (get mimeToExtension contentType) as [e|text|] eqn:E.
  - apply get_own_inv in E.
    pose proof (expected_plain _ _ E) as (Hl & Ht & Hd).
    cbn [orText]. now rewrite Ht.
  - apply get_inherited in E as (_ & Hp).
    split; [exact (proj1 Hp) | now apply plainName_dotfree].
  - now split.
Qed.

(** A name that ends in a dot and the extension the table gives for the
    content type is kept. *)
Lemma keeps_expected (stem contentType e : string) :
  lookup mimeToExtension contentType = Some e ->
  getProperFilename (stem ++ "." ++ e) contentType None = stem ++ "." ++ e.
Proof.
  intros H. destruct (expected_plain _ _ H) as (Hl & Ht & Hd).
  unfold getProperFilename. cbn [given].
  fold (extensionOf (stem ++ "." ++ e)).
  rewrite (extensionOf_app stem e Ht Hd), (get_own _ _ _ H).
  now rewrite Ht, Hl, String.eqb_refl.
Qed.

(** A name that ends in a dot and the text of the inherited member the
    content type names is kept as well: the text is substituted for
    itself. *)
Lemma keeps_inherited (stem contentType text : string) :
  get mimeToExtension contentType = Inherited text ->
  getProperFilename (stem ++ "." ++ text) contentType None
  = stem ++ "." ++ text.
Proof.
  intros H. destruct (get_inherited _ _ _ H) as (_ & Hp).
  unfold getProperFilename. cbn [given].
  fold (extensionOf (stem ++ "." ++ text)).
  rewrite (extensionOf_app stem text (proj1 Hp) (plainName_dotfree _ Hp)), H.
  now rewrite strip_app.
Qed.

(** The five ways the resolver ends when no format is requested. *)
Inductive resolved (baseName contentType : string) : string -> Prop :=
| Kept_matching (ext e : string) :
    extensionOf baseName = Some ext ->
    lookup mimeToExtension contentType = Some e ->
    JsString.toLowerCase ext = e ->
    resolved baseName contentType baseName
| Replaced (ext e : string) :
    extensionOf baseName = Some ext ->
    lookup mimeToExtension contentType = Some e ->
    JsString.toLowerCase ext <> e ->
    resolved baseName contentType
      (replace baseName re_strip_ext EmptyString ++ "." ++ e)
| Substituted (ext text : string) :
    extensionOf baseName = Some ext ->
    get mimeToExtension contentType = Inherited text ->
    resolved baseName contentType
      (replace baseName re_strip_ext EmptyString ++ "." ++ text)
| Kept_unknown (ext : string) :
    extensionOf baseName = Some ext ->
    get mimeToExtension contentType = Undefined ->
    resolved baseName contentType baseName
| Appended :
    extensionOf baseName = None ->
    resolved baseName contentType
      (baseName ++ "." ++ orText (get mimeToExtension contentType) "bin").

Lemma getProperFilename_resolved (baseName contentType : string) :
  resolved baseName contentType
    (getProperFilename baseName contentType None).
Proof.
  unfold getProperFilename. cbn [given]. fold (extensionOf baseName).
  destruct (extensionOf baseName) as [ext|] eqn:Hext.
  - destruct (get mimeToExtension contentType) as [e|text|] eqn:He.
    + apply get_own_inv in He.
      rewrite (proj1 (proj2 (expected_plain _ _ He))).
      destruct (String.eqb (JsString.toLowerCase ext) e) eqn:Heq.
      * apply String.eqb_eq in Heq. now apply (Kept_matching _ _ ext e).
      * apply String.eqb_neq in Heq. now apply (Replaced _ _ ext e).
    + now apply (Substituted _ _ ext text).
    + now apply (Kept_unknown _ _ ext).
  - now apply Appended.
Qed.

(** A resolved name is resolved to itself. *)
Lemma resolved_fixed (baseName contentType n : string) :
  resolved baseName contentType n ->
  getProperFilename n contentType None = n.
Proof.
  intros [ext e Hext He Hlow | ext e Hext He Hlow | ext text Hext He
         | ext Hext He | Hext].
  - unfold getProperFilename. cbn [given]. fold (extensionOf baseName).
    rewrite Hext, (get_own _ _ _ He).
    rewrite (proj1 (proj2 (expected_plain _ _ He))).
    apply String.eqb_eq in Hlow. now rewrite Hlow.
  - now apply keeps_expected.
  - now apply keeps_inherited.
  - unfold getProperFilename. cbn [given]. fold (extensionOf baseName).
    now rewrite Hext, He.
  - destruct (get mimeToExtension contentType) as [e|text|] eqn:He.
    + apply get_own_inv in He as Hl. cbn [orText].
      rewrite (proj1 (proj2 (expected_plain _ _ Hl))).
      now apply keeps_expected.
    + cbn [orText]. now apply keeps_inherited.
    + unfold getProperFilename. cbn [given orText].
      fold (extensionOf (baseName ++ "." ++ "bin")).
      rewrite (extensionOf_app baseName "bin" eq_refl eq_refl).
      now rewrite He.
Qed.

(** X1. Without a requested format the resolver is idempotent: resolving
    its own result against the same content type changes nothing, for
    every base name and every content type: a key of the table, the name
    of a member every object inherits (whose text is then the extension),
    or neither. *)
Theorem getProperFilename_idempotent (baseName contentType : string) :
  getProperFilename (getProperFilename baseName contentType None)
    contentType None
  = getProperFilename baseName contentType None.
Proof.
  exact (resolved_fixed _ _ _ (getProperFilename_resolved _ _)).
Qed.

(** X2. For a content type the table knows, the resolved name always
    carries the table's extension: it ends in a dot and that extension,
    compared without regard to case; and it ends in exactly that when the
    base name had no extension or a different one. *)
Theorem getProperFilename_extension_fits (baseName contentType e : string) :
  lookup mimeToExtension contentType = Some e ->
  JsString.endsWith
    (JsString.toLowerCase (getProperFilename baseName contentType None))
    ("." ++ e) = true
  /\ (getProperFilename baseName contentType None <> baseName ->
      JsString.endsWith (getProperFilename baseName contentType None)
        ("." ++ e) = true).
Proof.
  intros He. destruct (expected_plain _ _ He) as (Hl & Ht & Hd).
  pose proof (get_own _ _ _ He) as Hg.
  destruct (getProperFilename_resolved baseName contentType)
    as [ext e' Hext He' Hlow | ext e' Hext He' Hlow | ext text Hext He'
       | ext Hext He' | Hext].
  - assert (Hee : e' = e) by congruence. rewrite Hee in Hlow.
    split; [|congruence].
    apply extensionOf_inv in Hext as (stem & -> & _).
    rewrite !toLowerCase_app, Hlow. apply endsWith_app.
  - assert (Hee : e' = e) by congruence. rewrite Hee. split.
    + rewrite !toLowerCase_app, Hl. apply endsWith_app.
    + intros _. apply endsWith_app.
  - congruence.
  - congruence.
  - rewrite Hg. cbn [orText]. rewrite Ht. split.
    + rewrite !toLowerCase_app, Hl. apply endsWith_app.
    + intros _. apply endsWith_app.
Qed.

Lemma getProperFilename_extension_fits_witness :
  JsString.endsWith
    (JsString.toLowerCase (getProperFilename "SCAN.PDF" "application/pdf"
                             None)) ".pdf" = true
  /\ JsString.endsWith (getProperFilename "photo.jpeg" "image/png" None)
       ".png" = true.
Proof.
  split.
  - exact (proj1 (getProperFilename_extension_fits
                    "SCAN.PDF" "application/pdf" "pdf" eq_refl)).
  - apply (proj2 (getProperFilename_extension_fits
                    "photo.jpeg" "image/png" "png" eq_refl)).
    discriminate.
Defined.

(** X3. A requested format always wins over the content type and the
    existing extension: it replaces a plain extension (no slash, no dot)
    of the base name, it is appended to a base name without a dot, and
    resolving the result again with the same plain format changes
    nothing. *)
Theorem getProperFilename_requested_format
  (contentType contentType' fmt : string) :
  JsString.truthy fmt = true ->
  (forall stem old,
      plainName old ->
      getProperFilename (stem ++ "." ++ old) contentType (Some fmt)
      = stem ++ "." ++ fmt)
  /\ (forall baseName,
        JsString.all (mem (NoneOf ".")) baseName = true ->
        getProperFilename baseName contentType (Some fmt)
        = baseName ++ "." ++ fmt)
  /\ (forall baseName,
        plainName fmt ->
        getProperFilename
          (getProperFilename baseName contentType (Some fmt))
          contentType' (Some fmt)
        = getProperFilename baseName contentType (Some fmt)).
Proof.
  intros Ht.
  assert (Hf : forall b ct,
             getProperFilename b ct (Some fmt)
             = replace b re_strip_ext EmptyString ++ "." ++ fmt).
  { intros b ct. unfold getProperFilename, given. now rewrite Ht. }
  repeat split.
  - intros stem old Hold. now rewrite Hf, strip_app.
  - intros baseName Hb. now rewrite Hf, strip_dotfree.
  - intros baseName Hfmt. rewrite !Hf. now rewrite strip_app.
Qed.

Lemma getProperFilename_requested_format_witness :
  getProperFilename "Report.final.pdf" "application/pdf" (Some "xlsx")
  = "Report.final.xlsx"
  /\ getProperFilename "data" "text/csv" (Some "pdf") = "data.pdf"
  /\ getProperFilename
       (getProperFilename "a.b/c.txt" "text/plain" (Some "docx"))
       "application/pdf" (Some "docx")
     = getProperFilename "a.b/c.txt" "text/plain" (Some "docx").
Proof.
  split; [|split].
  - apply (proj1 (getProperFilename_requested_format
                    "application/pdf" "application/pdf" "xlsx" eq_refl)
             "Report.final" "pdf").
    split; reflexivity.
  - apply (proj1 (proj2 (getProperFilename_requested_format
                           "text/csv" "text/csv" "pdf" eq_refl))).
    reflexivity.
  - apply (proj2 (proj2 (getProperFilename_requested_format
                           "text/plain" "application/pdf" "docx" eq_refl))).
    split; reflexivity.
Defined.

(** A requested format with a dot of its own is appended anew each
    time. *)
Example requested_format_with_dot :
  getProperFilename (getProperFilename "a" "application/gzip" (Some "tar.gz"))
    "application/gzip" (Some "tar.gz") = "a.tar.tar.gz".
Proof. reflexivity. Qed.

End ResolverMore.

(* ===================================================================== *)
(** ** utils.ts and the link helper: the functions beside the extractors  *)
(* ===================================================================== *)

Module Utils.

(** Determine file type from URL *)
Definition getFileType (url : string) : string :=
  if JsString.includes url "/document/" then "Google Doc"
  else if JsString.includes url "/spreadsheets/" then "Google Sheet"
  else if JsString.includes url "/presentation/" then "Google Slides"
  else if JsString.includes url "/folders/" then "Google Drive Folder"
  else if JsString.includes url "/file/" then "Google Drive File"
  else if JsString.includes url "docs.google.com" then "Google Document"
  else "Unknown Google Drive File".

(** Get export formats based on file type *)
Definition getExportFormats (fileType : string) : list string :=
  if String.eqb fileType "Google Doc"
  then ["pdf"; "docx"; "odt"; "rtf"; "txt"; "html"; "epub"]
  else if String.eqb fileType "Google Sheet"
  then ["pdf"; "xlsx"; "ods"; "csv"; "tsv"]
  else if String.eqb fileType "Google Slides"
  then ["pdf"; "pptx"; "odp"; "txt"]
  else if String.eqb fileType "Google Document"
  then ["pdf"; "docx"; "odt"; "rtf"; "txt"]
  else [].

(** Generate the correct viewer URL based on file type *)
Definition getViewerUrl (fileId fileType originalUrl : string) : string :=
  (* Use the original URL format if possible to maintain permissions *)
  if JsString.truthy originalUrl && JsString.includes originalUrl "/edit"
  then originalUrl
  else if String.eqb fileType "Google Doc"
  then "https://docs.google.com/document/d/" ++ fileId ++ "/view"
  else if String.eqb fileType "Google Sheet"
  then "https://docs.google.com/spreadsheets/d/" ++ fileId ++ "/view"
  else if String.eqb fileType "Google Slides"
  then "https://docs.google.com/presentation/d/" ++ fileId ++ "/view"
  else if String.eqb fileType "Google Drive Folder"
  then "https://drive.google.com/drive/folders/" ++ fileId
  else if String.eqb fileType "Google Document"
  then
    (* Try to determine the specific type from the URL *)
    if JsString.truthy originalUrl
       && JsString.includes originalUrl "/document/"
    then "https://docs.google.com/document/d/" ++ fileId ++ "/view"
    else if JsString.truthy originalUrl
            && JsString.includes originalUrl "/spreadsheets/"
    then "https://docs.google.com/spreadsheets/d/" ++ fileId ++ "/view"
    else if JsString.truthy originalUrl
            && JsString.includes originalUrl "/presentation/"
    then "https://docs.google.com/presentation/d/" ++ fileId ++ "/view"
    else
      (* Default to standard file viewer *)
      "https://drive.google.com/file/d/" ++ fileId ++ "/view"
  else
    (* For standard files use the file viewer *)
    "https://drive.google.com/file/d/" ++ fileId ++ "/view".

End Utils.

(** The two lines of the page component that decide which export formats
    it offers for a processed link:
    [const isGoogleApps = ['Google Doc', 'Google Sheet', 'Google Slides',
       'Google Document'].includes(fileType);
     const exportFormats = isGoogleApps ? getExportFormats(fileType) : [];] *)
Module Page.

Definition isGoogleApps (fileType : string) : bool :=
  existsb (String.eqb fileType)
    ["Google Doc"; "Google Sheet"; "Google Slides"; "Google Document"].

Definition exportFormats (fileType : string) : list string :=
  if isGoogleApps fileType then Utils.getExportFormats fileType else [].

End Page.

(** googleDriveHelper, beside [extractGoogleDriveFileId]. *)
Module Helper.

(** Generate direct download URL for Google Drive files *)
Definition generateDownloadUrl (fileId : string) : string :=
  "https://drive.google.com/uc?export=download&id=" ++ fileId.

(** Generate direct download URL for large Google Drive files (using
    confirm param) *)
Definition generateLargeFileDownloadUrl (fileId : string) : string :=
  "https://drive.google.com/uc?export=download&id=" ++ fileId
  ++ "&confirm=t".

(** Check if the URL is a valid Google Drive link *)
Definition isGoogleDriveLink (url : string) : bool :=
  JsString.includes url "drive.google.com"
  || JsString.includes url "docs.google.com".

End Helper.

(** ** Substrings *)

Module IncludesFacts.
Import StringFacts RegexFacts.

Lemma prefix_nil (s : string) : String.prefix EmptyString s = true.
Proof. destruct s; reflexivity. Qed.

Lemma prefix_cons (a b : ascii) (p s : string) :
  String.prefix (String a p) (String b s)
  = Ascii.eqb a b && String.prefix p s.
Proof.
  simpl. destruct (ascii_dec a b) as [->|N].
  - now rewrite Ascii.eqb_refl.
  - apply Ascii.eqb_neq in N. now rewrite N.
Qed.

(** [s.includes(p)] holds as soon as [p] starts some tail of [s]. *)
Lemma includes_tail (pre s p : string) :
  String.prefix p s = true -> JsString.includes (pre ++ s) p = true.
Proof.
  intros H. induction pre as [|x pre IH].
  - destruct s; simpl in *; now rewrite H.
  - cbn [append JsString.includes]. rewrite IH.
    now destruct (String.prefix p (String x (pre ++ s))).
Qed.

Lemma includes_cons (x : ascii) (s p : string) :
  JsString.includes (String x s) p
  = String.prefix p (String x s) || JsString.includes s p.
Proof. cbn [JsString.includes]. now destruct (String.prefix _ _). Qed.

(** [p] starts at no position inside [pre]. *)
Fixpoint missesThrough (p pre s : string) : Prop :=
  match pre with
  | EmptyString => True
  | String x pre' =>
      String.prefix p (String x (pre' ++ s)) = false
      /\ missesThrough p pre' s
  end.

Lemma includes_skip (p pre s : string) :
  missesThrough p pre s ->
  JsString.includes (pre ++ s) p = JsString.includes s p.
Proof.
  induction pre as [|x pre IH]; intros H; [reflexivity|].
  destruct H as [Hx Hpre].
  change (String x pre ++ s) with (String x (pre ++ s)).
  now rewrite includes_cons, Hx, IH.
Qed.

(** A needle that starts with a slash starts nowhere in slash-free
    text. *)
Lemma includes_slash_free (t xs sfx : string) :
  JsString.all noSlash xs = true ->
  JsString.includes (xs ++ sfx) (String "/" t)
  = JsString.includes sfx (String "/" t).
Proof.
  intros H. induction xs as [|x xs IH]; [reflexivity|].
  cbn [JsString.all] in H. apply andb_true_iff in H as [Hx Hxs].
  change (String x xs ++ sfx) with (String x (xs ++ sfx)).
  rewrite includes_cons, prefix_cons, (IH Hxs).
  unfold noSlash in Hx. apply negb_true_iff in Hx.
  rewrite Ascii.eqb_sym in Hx. now rewrite Hx.
Qed.

(** Slash-free words that are followed by a slash at the same place are
    the same word. *)
Lemma prefix_word (w t id rest : string) :
  JsString.all noSlash w = true ->
  JsString.all noSlash id = true ->
  String.prefix (w ++ String "/" t) (id ++ rest) = true ->
  (id = w \/ exists more, w = id ++ more /\ more <> EmptyString).
Proof.
  revert id. induction w as [|a w IH]; intros id Hw Hid H.
  - destruct id as [|x id]; [now left|].
    cbn [append] in H. rewrite prefix_cons in H.
    cbn [JsString.all] in Hid. apply andb_true_iff in Hid as [Hx _].
    unfold noSlash in Hx. apply negb_true_iff in Hx.
    rewrite Ascii.eqb_sym in Hx. now rewrite Hx in H.
  - destruct id as [|x id].
    + right. exists (String a w). split; [reflexivity | discriminate].
    + cbn [append] in H. rewrite prefix_cons in H.
      apply andb_true_iff in H as [Hax H].
      apply Ascii.eqb_eq in Hax. subst x.
      cbn [JsString.all] in Hw, Hid.
      apply andb_true_iff in Hw as [_ Hw].
      apply andb_true_iff in Hid as [_ Hid].
      destruct (IH id Hw Hid H) as [-> | (more & -> & Hm)].
      * now left.
      * right. exists more. now split.
Qed.

(** A slash-free word that goes on after the identifier cannot be
    followed where the identifier is followed by a slash. *)
Lemma prefix_longer (id more t rest : string) :
  more <> EmptyString ->
  JsString.all noSlash (id ++ more) = true ->
  String.prefix ((id ++ more) ++ String "/" t) (id ++ String "/" rest)
  = false.
Proof.
  intros Hm. induction id as [|x id IH]; intros Hw.
  - destruct more as [|m more]; [congruence|].
    cbn [append] in *. rewrite prefix_cons.
    cbn [JsString.all] in Hw. apply andb_true_iff in Hw as [Hx _].
    unfold noSlash in Hx. apply negb_true_iff in Hx. now rewrite Hx.
  - cbn [append JsString.all] in *. apply andb_true_iff in Hw as [_ Hw].
    rewrite prefix_cons, (IH Hw). apply andb_false_r.
Qed.

(** A path word between slashes does not start at the slash before an
    identifier that is another word and is followed by a slash. *)
Lemma no_word_at_slash (w t id rest : string) :
  JsString.all noSlash w = true ->
  JsString.all noSlash id = true ->
  id <> w ->
  String.prefix (String "/" (w ++ String "/" t))
    (String "/" (id ++ String "/" rest)) = false.
Proof.
  intros Hw Hid Hne.
  rewrite prefix_cons. cbn [Ascii.eqb Bool.eqb andb].
  destruct (String.prefix _ _) eqn:E; [|reflexivity].
  exfalso. pose proof E as E'.
  apply prefix_word in E as [-> | (more & -> & Hm)]; trivial;
    [congruence|].
  now rewrite prefix_longer in E'.
Qed.

End IncludesFacts.

(** ** File types, export formats and viewer links *)

Module UtilsFacts.
Import StringFacts RegexFacts IncludesFacts Extractor.

(** X4. The page offers export formats exactly for the four Google Apps
    file types: [getExportFormats] is non-empty exactly on them, so the
    guard of the page changes nothing, and the first format offered, the
    one the page preselects, is always pdf. *)
Theorem export_formats_offered (fileType : string) :
  (Utils.getExportFormats fileType <> [] <->
   Page.isGoogleApps fileType = true)
  /\ (Utils.getExportFormats fileType <> [] ->
      hd_error (Utils.getExportFormats fileType) = Some "pdf")
  /\ Page.exportFormats fileType = Utils.getExportFormats fileType.
Proof.
  unfold Page.exportFormats, Page.isGoogleApps, Utils.getExportFormats.
  cbn [existsb].
  destruct (String.eqb fileType "Google Doc");
    [repeat split; intros; (reflexivity || discriminate)|].
  destruct (String.eqb fileType "Google Sheet");
    [repeat split; intros; (reflexivity || discriminate)|].
  destruct (String.eqb fileType "Google Slides");
    [repeat split; intros; (reflexivity || discriminate)|].
  destruct (String.eqb fileType "Google Document");
    repeat split; intros; try reflexivity; try discriminate; congruence.
Qed.

Lemma export_formats_offered_witness :
  Page.isGoogleApps "Google Sheet" = true
  /\ hd_error (Utils.getExportFormats "Google Sheet") = Some "pdf".
Proof.
  assert (H : Utils.getExportFormats "Google Sheet" <> []) by discriminate.
  split.
  - exact (proj1 (proj1 (export_formats_offered "Google Sheet")) H).
  - exact (proj1 (proj2 (export_formats_offered "Google Sheet")) H).
Defined.

Lemma includes_empty (p : string) :
  p <> EmptyString -> JsString.includes EmptyString p = false.
Proof. destruct p; [congruence | reflexivity]. Qed.

(** [originalUrl && originalUrl.includes(p)] is [originalUrl.includes(p)]
    for a needle that is not empty. *)
Lemma truthy_includes (url p : string) :
  p <> EmptyString ->
  JsString.truthy url && JsString.includes url p = JsString.includes url p.
Proof.
  intros Hp. destruct url; [|reflexivity].
  now rewrite includes_empty.
Qed.

(** X5. For a link the page classifies as a generic Google Document (a
    docs.google.com link without a known path), the viewer link is the
    link itself when it contains /edit and the Drive file viewer
    otherwise: the three type-specific branches for a Google Document are
    never taken when the type was read off the same link. *)
Theorem getViewerUrl_generic_document (fileId url : string) :
  Utils.getFileType url = "Google Document" ->
  Utils.getViewerUrl fileId (Utils.getFileType url) url
  = if JsString.includes url "/edit" then url
    else "https://drive.google.com/file/d/" ++ fileId ++ "/view".
Proof.
  intros H. rewrite H. unfold Utils.getFileType in H.
  destruct (JsString.includes url "/document/") eqn:Hd; [discriminate|].
  destruct (JsString.includes url "/spreadsheets/") eqn:Hs; [discriminate|].
  destruct (JsString.includes url "/presentation/") eqn:Hp; [discriminate|].
  unfold Utils.getViewerUrl.
  rewrite !truthy_includes by discriminate.
  rewrite Hd, Hs, Hp.
  now destruct (JsString.includes url "/edit").
Qed.

Lemma getViewerUrl_generic_document_witness :
  Utils.getViewerUrl "1AbC"
    (Utils.getFileType "https://docs.google.com/forms/d/1AbC/viewform")
    "https://docs.google.com/forms/d/1AbC/viewform"
  = "https://drive.google.com/file/d/1AbC/view".
Proof.
  exact (getViewerUrl_generic_document "1AbC"
           "https://docs.google.com/forms/d/1AbC/viewform" eq_refl).
Defined.

(** *** Viewer links are links the extractor reads *)

(** An editor link of any kind, with any ending the capture stops at. *)
Lemma extract_docs_link (kind id sfx : string) :
  failsThrough pat_file ("https://docs.google.com/" ++ kind ++ "/d/")
    (id ++ sfx) ->
  failsThrough pat_open ("https://docs.google.com/" ++ kind ++ "/d/")
    (id ++ sfx) ->
  failsThrough pat_docs "https://"
    ("docs.google.com/" ++ kind ++ "/d/" ++ id ++ sfx) ->
  alignments "drive.google.com/file/d/" sfx = false ->
  alignments "drive.google.com/open?id=" sfx = false ->
  (forall j, search pat_file j sfx = None) ->
  (forall j, search pat_open j sfx = None) ->
  kind <> EmptyString ->
  JsString.all (mem Word) kind = true ->
  stops (NoneOf "/?") sfx = true ->
  isId id ->
  extractFileId (("https://docs.google.com/" ++ kind ++ "/d/") ++ id ++ sfx)
  = Some id.
Proof.
  intros F1 F2 F3 A1 A2 S1 S2 Hk Hw Hs [Hne Hid].
  unfold extractFileId. cbn [firstCapture].
  rewrite (no_match "drive.google.com/file/d/" _ _ id sfx F1 Hid A1 S1
           : captured (jsMatch _ pat_file) = None).
  rewrite (no_match "drive.google.com/open?id=" _ _ id sfx F2 Hid A2 S2
           : captured (jsMatch _ pat_open) = None).
  assert (H3 : captured
                 (jsMatch ("https://"
                           ++ "docs.google.com/" ++ kind ++ "/d/"
                           ++ id ++ sfx) pat_docs) = Some id).
  { apply (first_match pat_docs "https://" _ id sfx F3); [|exact Hne].
    apply run_docs; trivial. path_id Hid. }
  cbn [append] in H3. cbn [append]. rewrite !app_assoc in *.
  cbn [append] in *. now rewrite H3.
Qed.

Ltac fails_through' :=
  cbn [failsThrough append]; repeat split; reflexivity.

Lemma extract_editor_view (kind id : string) :
  kind = "document" \/ kind = "spreadsheets" \/ kind = "presentation" ->
  isId id ->
  extractFileId ("https://docs.google.com/" ++ kind ++ "/d/" ++ id ++ "/view")
  = Some id.
Proof.
  intros Hk Hid.
  pose proof (extract_docs_link kind id "/view") as H.
  rewrite !app_assoc in H. cbn [append] in H. cbn [append].
  destruct Hk as [-> | [-> | ->]];
    (apply H;
     [ fails_through' | fails_through' | fails_through'
     | reflexivity | reflexivity | intros; reflexivity | intros; reflexivity
     | discriminate | reflexivity | reflexivity | exact Hid ]).
Qed.

Lemma extract_folder (id : string) :
  isId id ->
  extractFileId ("https://drive.google.com/drive/folders/" ++ id) = None.
Proof.
  intros [Hne Hid]. apply firstCapture_none.
  repeat constructor;
    match goal with
    | |- jsMatch _ ?p = None =>
        assert (Hc : captured
                       (jsMatch ("https://drive.google.com/drive/folders/"
                                 ++ id) p) = None)
          by (apply (no_match_end _ _
                       "https://drive.google.com/drive/folders/" id);
              [fails_through | exact Hid | reflexivity])
    end;
    first [exact (docs_capturing _ Hc) | exact (link_capturing _ _ _ Hc)].
Qed.

(** X6. A viewer link built for an identifier is read back by
    [extractFileId] as that identifier, for every file type but a Drive
    folder and every original link without /edit; the viewer link of a
    folder is a link the extractor does not read. *)
Theorem getViewerUrl_round_trip (id fileType originalUrl : string) :
  isId id ->
  JsString.includes originalUrl "/edit" = false ->
  (fileType <> "Google Drive Folder" ->
   extractFileId (Utils.getViewerUrl id fileType originalUrl) = Some id)
  /\ (fileType = "Google Drive Folder" ->
      extractFileId (Utils.getViewerUrl id fileType originalUrl) = None).
Proof.
  intros Hid Hedit. unfold Utils.getViewerUrl.
  rewrite Hedit, andb_false_r.
  assert (Hd := extract_editor_view "document" id (or_introl eq_refl) Hid).
  assert (Hs := extract_editor_view "spreadsheets" id
                  (or_intror (or_introl eq_refl)) Hid).
  assert (Hp := extract_editor_view "presentation" id
                  (or_intror (or_intror eq_refl)) Hid).
  assert (Hf := extract_fileLink id Hid). unfold fileLink in Hf.
  cbn [append] in Hd, Hs, Hp.
  split.
  - intros Hfolder. apply String.eqb_neq in Hfolder. rewrite Hfolder.
    repeat match goal with
           | |- context [if ?b then _ else _] => destruct b
           end; assumption.
  - intros ->. cbn. now apply extract_folder.
Qed.

Lemma getViewerUrl_round_trip_witness :
  extractFileId
    (Utils.getViewerUrl "1AbC_d-9" "Google Sheet"
       "https://docs.google.com/spreadsheets/d/1AbC_d-9/view")
  = Some "1AbC_d-9"
  /\ extractFileId
       (Utils.getViewerUrl "1AbC_d-9" "Google Drive Folder"
          "https://drive.google.com/drive/folders/1AbC_d-9") = None.
Proof.
  assert (Hid : isId "1AbC_d-9") by (split; [discriminate | reflexivity]).
  split.
  - apply (proj1 (getViewerUrl_round_trip "1AbC_d-9" "Google Sheet"
                    "https://docs.google.com/spreadsheets/d/1AbC_d-9/view"
                    Hid eq_refl)).
    discriminate.
  - exact (proj2 (getViewerUrl_round_trip "1AbC_d-9" "Google Drive Folder"
                    "https://drive.google.com/drive/folders/1AbC_d-9"
                    Hid eq_refl) eq_refl).
Defined.

(** *** The file type of a link *)

Ltac misses_through :=
  cbn [missesThrough append]; repeat split; reflexivity.

(** A path word between slashes does not occur in a link where another
    slash-free identifier stands between the last slash of the fixed
    start and the ending. *)
Lemma no_path_word (w pre id rest : string) :
  missesThrough (String "/" (w ++ "/")) pre
    (String "/" (id ++ String "/" rest)) ->
  JsString.all noSlash w = true ->
  JsString.all idChar id = true ->
  id <> w ->
  JsString.includes (String "/" rest) (String "/" (w ++ "/")) = false ->
  JsString.includes (pre ++ String "/" (id ++ String "/" rest))
    (String "/" (w ++ "/")) = false.
Proof.
  intros Hpre Hw Hid Hne Hrest.
  pose proof (all_impl _ _ _ idChar_noSlash Hid) as Hid'.
  rewrite (includes_skip _ _ _ Hpre), includes_cons.
  rewrite (no_word_at_slash w EmptyString id rest Hw Hid' Hne).
  now rewrite (includes_slash_free _ id _ Hid').
Qed.

(** A needle with a slash does not occur in a link that ends with a
    slash-free identifier after a fixed start without the needle. *)
Lemma no_slash_needle (t pre id : string) :
  missesThrough (String "/" t) pre id ->
  JsString.all idChar id = true ->
  JsString.includes (pre ++ id) (String "/" t) = false.
Proof.
  intros Hpre Hid.
  rewrite (includes_skip _ _ _ Hpre), <- (app_nil_r id).
  now rewrite (includes_slash_free _ id _
                 (all_impl _ _ _ idChar_noSlash Hid)).
Qed.

(** Settle the test of the link in the goal for the needle [nd]. *)
Ltac settle nd val proof :=
  match goal with
  | |- context [JsString.includes ?u nd] =>
      let H := fresh in
      assert (H : JsString.includes u nd = val) by (exact proof);
      rewrite H; clear H
  end.

(** X7. [getFileType] gives each link shape its type: an editor link is
    a Google Doc, Sheet or Slides, a file link a Google Drive File, an
    open or uc link an unknown file, provided the identifier is not
    itself one of the path words tested earlier (document, spreadsheets,
    presentation, folders) and, for open and uc links, does not contain
    docs.google.com. *)
Theorem getFileType_link_shapes (id : string) :
  isId id ->
  Utils.getFileType (documentLink id) = "Google Doc"
  /\ (id <> "document" ->
      Utils.getFileType (spreadsheetLink id) = "Google Sheet")
  /\ (id <> "document" -> id <> "spreadsheets" ->
      Utils.getFileType (presentationLink id) = "Google Slides")
  /\ (id <> "document" -> id <> "spreadsheets" -> id <> "presentation" ->
      id <> "folders" ->
      Utils.getFileType (fileLink id) = "Google Drive File")
  /\ (JsString.includes id "docs.google.com" = false ->
      Utils.getFileType (openLink id) = "Unknown Google Drive File"
      /\ Utils.getFileType (ucLink id) = "Unknown Google Drive File").
Proof.
  intros [Hne Hid].
  assert (Hword : forall w pre rest,
             missesThrough (String "/" (w ++ "/")) pre
               (String "/" (id ++ String "/" rest)) ->
             JsString.all noSlash w = true ->
             id <> w ->
             JsString.includes (String "/" rest) (String "/" (w ++ "/"))
             = false ->
             JsString.includes (pre ++ String "/" (id ++ String "/" rest))
               (String "/" (w ++ "/")) = false).
  { intros. now apply no_path_word. }
  assert (Hq : forall pre t,
             missesThrough (String "/" t) pre id ->
             JsString.includes (pre ++ id) (String "/" t) = false).
  { intros pre t Hm. now apply no_slash_needle. }
  split; [|split; [|split; [|split]]].
  - unfold Utils.getFileType, documentLink.
    settle "/document/" true
      (includes_tail "https://docs.google.com"
         ("/document/d/" ++ id ++ "/edit") "/document/" eq_refl).
    reflexivity.
  - intros H1. unfold Utils.getFileType, spreadsheetLink.
    settle "/document/" false
      (Hword "document" "https://docs.google.com/spreadsheets/d"
         "edit" ltac:(misses_through) eq_refl H1 eq_refl).
    settle "/spreadsheets/" true
      (includes_tail "https://docs.google.com"
         ("/spreadsheets/d/" ++ id ++ "/edit") "/spreadsheets/" eq_refl).
    reflexivity.
  - intros H1 H2. unfold Utils.getFileType, presentationLink.
    settle "/document/" false
      (Hword "document" "https://docs.google.com/presentation/d"
         "edit" ltac:(misses_through) eq_refl H1 eq_refl).
    settle "/spreadsheets/" false
      (Hword "spreadsheets" "https://docs.google.com/presentation/d"
         "edit" ltac:(misses_through) eq_refl H2 eq_refl).
    settle "/presentation/" true
      (includes_tail "https://docs.google.com"
         ("/presentation/d/" ++ id ++ "/edit") "/presentation/" eq_refl).
    reflexivity.
  - intros H1 H2 H3 H4. unfold Utils.getFileType, fileLink.
    settle "/document/" false
      (Hword "document" "https://drive.google.com/file/d"
         "view" ltac:(misses_through) eq_refl H1 eq_refl).
    settle "/spreadsheets/" false
      (Hword "spreadsheets" "https://drive.google.com/file/d"
         "view" ltac:(misses_through) eq_refl H2 eq_refl).
    settle "/presentation/" false
      (Hword "presentation" "https://drive.google.com/file/d"
         "view" ltac:(misses_through) eq_refl H3 eq_refl).
    settle "/folders/" false
      (Hword "folders" "https://drive.google.com/file/d"
         "view" ltac:(misses_through) eq_refl H4 eq_refl).
    settle "/file/" true
      (includes_tail "https://drive.google.com"
         ("/file/d/" ++ id ++ "/view") "/file/" eq_refl).
    reflexivity.
  - intros Hdocs. split.
    + unfold Utils.getFileType, openLink.
      settle "/document/" false
        (Hq "https://drive.google.com/open?id=" "document/"
           ltac:(misses_through)).
      settle "/spreadsheets/" false
        (Hq "https://drive.google.com/open?id=" "spreadsheets/"
           ltac:(misses_through)).
      settle "/presentation/" false
        (Hq "https://drive.google.com/open?id=" "presentation/"
           ltac:(misses_through)).
      settle "/folders/" false
        (Hq "https://drive.google.com/open?id=" "folders/"
           ltac:(misses_through)).
      settle "/file/" false
        (Hq "https://drive.google.com/open?id=" "file/"
           ltac:(misses_through)).
      rewrite (includes_skip "docs.google.com"
                 "https://drive.google.com/open?id=" id
                 ltac:(misses_through)).
      now rewrite Hdocs.
    + unfold Utils.getFileType, ucLink.
      settle "/document/" false
        (Hq "https://drive.google.com/uc?id=" "document/"
           ltac:(misses_through)).
      settle "/spreadsheets/" false
        (Hq "https://drive.google.com/uc?id=" "spreadsheets/"
           ltac:(misses_through)).
      settle "/presentation/" false
        (Hq "https://drive.google.com/uc?id=" "presentation/"
           ltac:(misses_through)).
      settle "/folders/" false
        (Hq "https://drive.google.com/uc?id=" "folders/"
           ltac:(misses_through)).
      settle "/file/" false
        (Hq "https://drive.google.com/uc?id=" "file/"
           ltac:(misses_through)).
      rewrite (includes_skip "docs.google.com"
                 "https://drive.google.com/uc?id=" id
                 ltac:(misses_through)).
      now rewrite Hdocs.
Qed.

Lemma getFileType_link_shapes_witness :
  Utils.getFileType (spreadsheetLink "1AbC_d-9") = "Google Sheet"
  /\ Utils.getFileType (presentationLink "1AbC_d-9") = "Google Slides"
  /\ Utils.getFileType (fileLink "1AbC_d-9") = "Google Drive File"
  /\ Utils.getFileType (openLink "1AbC_d-9") = "Unknown Google Drive File".
Proof.
  assert (Hid : isId "1AbC_d-9") by (split; [discriminate | reflexivity]).
  destruct (getFileType_link_shapes "1AbC_d-9" Hid)
    as (_ & Hs & Hp & Hf & Ho).
  split; [|split; [|split]].
  - apply Hs. discriminate.
  - apply Hp; discriminate.
  - apply Hf; discriminate.
  - apply Ho. reflexivity.
Defined.

(** A file whose identifier is a path word takes the type of that
    word. *)
Example file_named_document :
  Utils.getFileType (fileLink "document") = "Google Doc".
Proof. reflexivity. Qed.

End UtilsFacts.

(** ** The link helper *)

Module HelperFacts.
Import StringFacts RegexFacts IncludesFacts Extractor.

(** Every match of the pattern starts at one of the two Google hosts. *)
Definition hosted (p : regex) : Prop :=
  forall s o c r,
    run p o c s = Some r ->
    String.prefix "drive.google.com" s = true
    \/ String.prefix "docs.google.com" s = true.

Lemma hosted_Lit (l : string) (r : regex) :
  (forall s, String.prefix "drive.google.com" (l ++ s) = true)
  \/ (forall s, String.prefix "docs.google.com" (l ++ s) = true) ->
  hosted (Lit l :: r).
Proof.
  intros H s o c res. cbn [run].
  destruct (dropPrefix l s) as [s1|] eqn:E; [|discriminate].
  apply dropPrefix_inv in E. subst s. intros _.
  destruct H as [H | H]; [left | right]; apply H.
Qed.

Lemma patterns_hosted : Forall hosted patterns.
Proof.
  unfold patterns.
  repeat (apply Forall_cons;
          [ apply hosted_Lit;
            first [left; intros s; reflexivity
                  | right; intros s; reflexivity] |]).
  apply Forall_nil.
Qed.

(** An identifier the loop returns was captured by one of the
    patterns. *)
Lemma firstCapture_some (ps : list regex) (url id : string) :
  firstCapture ps url = Some id ->
  exists p, In p ps /\ captured (jsMatch url p) = Some id.
Proof.
  induction ps as [|p ps IH]; simpl; [discriminate|].
  destruct (captured (jsMatch url p)) as [i|] eqn:E.
  - intros H. injection H as ->. exists p. auto.
  - intros H. destruct (IH H) as (q & Hq & Hc). exists q. auto.
Qed.

Lemma hosted_link (ps : list regex) (url id : string) :
  Forall hosted ps ->
  firstCapture ps url = Some id ->
  Helper.isGoogleDriveLink url = true.
Proof.
  intros Hps H. apply firstCapture_some in H as (p & Hp & Hc).
  pose proof (proj1 (Forall_forall _ _) Hps p Hp) as Hh.
  unfold jsMatch, captured in Hc.
  destruct (search p 0 url) as [m|] eqn:E; [|discriminate].
  destruct (ResolverMore.search_split _ _ _ _ E) as (pre & s' & -> & _ & Hr).
  unfold Helper.isGoogleDriveLink.
  destruct (Hh _ _ _ _ Hr) as [H | H];
    rewrite (includes_tail pre s' _ H); [reflexivity | apply orb_true_r].
Qed.

(** X8. [isGoogleDriveLink] accepts every link an extractor reads: when
    [extractGoogleDriveFileId] or [extractFileId] returns an identifier
    for a string, the string is a Google Drive link. *)
Theorem extracted_links_are_drive_links (url id : string) :
  (extractGoogleDriveFileId url = Some id ->
   Helper.isGoogleDriveLink url = true)
  /\ (extractFileId url = Some id -> Helper.isGoogleDriveLink url = true).
Proof.
  pose proof patterns_hosted as H. unfold patterns in H.
  split; apply hosted_link.
  - inversion H as [|? ? Ha Hr1]. inversion Hr1 as [|? ? Hb Hr2].
    inversion Hr2 as [|? ? Hc Hr3]. inversion Hr3 as [|? ? Hd _].
    repeat (apply Forall_cons; [assumption|]). apply Forall_nil.
  - exact H.
Qed.

Lemma extracted_links_are_drive_links_witness :
  Helper.isGoogleDriveLink
    "see https://docs.google.com/forms/d/1AbC/viewform" = true.
Proof.
  apply (proj1 (extracted_links_are_drive_links
                  "see https://docs.google.com/forms/d/1AbC/viewform"
                  "1AbC")).
  reflexivity.
Defined.

(** X9. The direct-download links the helper generates are Google Drive
    links for [isGoogleDriveLink], yet no pattern of the extractors reads
    an identifier back from them: the identifier follows
    [uc?export=download&id=], not [uc?id=]. *)
Theorem generated_links_are_not_read_back (id : string) :
  isId id ->
  Helper.isGoogleDriveLink (Helper.generateDownloadUrl id) = true
  /\ Helper.isGoogleDriveLink (Helper.generateLargeFileDownloadUrl id) = true
  /\ extractGoogleDriveFileId (Helper.generateDownloadUrl id) = None
  /\ extractGoogleDriveFileId (Helper.generateLargeFileDownloadUrl id) = None
  /\ extractFileId (Helper.generateDownloadUrl id) = None
  /\ extractFileId (Helper.generateLargeFileDownloadUrl id) = None.
Proof.
  intros [Hne Hid].
  assert (Hplain : forall l r,
             failsThrough (Lit l :: r)
               "https://drive.google.com/uc?export=download&id=" id ->
             alignments l EmptyString = false ->
             captured (jsMatch (Helper.generateDownloadUrl id) (Lit l :: r))
             = None).
  { intros l r F A. now apply no_match_end. }
  assert (Hlarge : forall l r,
             failsThrough (Lit l :: r)
               "https://drive.google.com/uc?export=download&id="
               (id ++ "&confirm=t") ->
             alignments l "&confirm=t" = false ->
             (forall j, search (Lit l :: r) j "&confirm=t" = None) ->
             captured
               (jsMatch (Helper.generateLargeFileDownloadUrl id) (Lit l :: r))
             = None).
  { intros l r F A S. now apply no_match. }
  assert (H1 : firstCapture patterns (Helper.generateDownloadUrl id) = None).
  { unfold patterns, pat_file, pat_open, pat_docs, pat_uc, pat_sheets,
      pat_slides. cbn [firstCapture].
    rewrite !Hplain; first [reflexivity | fails_through]. }
  assert (H2 : firstCapture patterns (Helper.generateLargeFileDownloadUrl id)
               = None).
  { unfold patterns, pat_file, pat_open, pat_docs, pat_uc, pat_sheets,
      pat_slides. cbn [firstCapture].
    rewrite !Hlarge;
      first [reflexivity | fails_through | intros; reflexivity]. }
  assert (H3 : forall url,
             firstCapture patterns url = None ->
             extractGoogleDriveFileId url = None).
  { intros url H. unfold patterns in H.
    unfold extractGoogleDriveFileId. cbn [firstCapture] in *.
    destruct (captured (jsMatch url pat_file)); [discriminate|].
    destruct (captured (jsMatch url pat_open)); [discriminate|].
    destruct (captured (jsMatch url pat_docs)); [discriminate|].
    now destruct (captured (jsMatch url pat_uc)). }
  split; [|split; [|split; [|split; [|split]]]].
  - reflexivity.
  - reflexivity.
  - now apply H3.
  - now apply H3.
  - exact H1.
  - exact H2.
Qed.

Lemma generated_links_are_not_read_back_witness :
  extractGoogleDriveFileId (Helper.generateDownloadUrl "1AbC_d-9") = None
  /\ extractGoogleDriveFileId
       (Helper.generateLargeFileDownloadUrl "1AbC_d-9") = None.
Proof.
  assert (Hid : isId "1AbC_d-9") by (split; [discriminate | reflexivity]).
  destruct (generated_links_are_not_read_back "1AbC_d-9" Hid)
    as (_ & _ & H1 & H2 & _).
  now split.
Defined.

End HelperFacts.

(** ** The download route on every world *)

Module DownloadMore.
Import StringFacts AxiosFacts DownloadFacts.

Section Always.
Context {World : Type}.

(** Whenever the computation yields a value, the value satisfies [P]. *)
Definition always {A} (P : A -> Prop) (m : Axios.M World A) : Prop :=
  forall w,
    match fst (m w) with
    | Axios.Value a => P a
    | Axios.Thrown _ => True
    end.

Lemma always_ret {A} (P : A -> Prop) (a : A) : P a -> always P (Axios.ret a).
Proof. intros H w. exact H. Qed.

Lemma always_bind {A B} (Q : A -> Prop) (P : B -> Prop)
  (m : Axios.M World A) (f : A -> Axios.M World B) :
  always Q m -> (forall a, Q a -> always P (f a)) ->
  always P (Axios.bind m f).
Proof.
  intros Hm Hf w. unfold Axios.bind. specialize (Hm w).
  destruct (m w) as [[a|e] w']; cbn [fst] in *; [|exact I].
  exact (Hf a Hm w').
Qed.

Lemma always_tryCatch {A} (P : A -> Prop) (m : Axios.M World A)
  (h : Axios.exn -> Axios.M World A) :
  always P m -> (forall e, always P (h e)) ->
  always P (Axios.tryCatch m h).
Proof.
  intros Hm Hh w. unfold Axios.tryCatch. specialize (Hm w).
  destruct (m w) as [[a|e] w']; cbn [fst] in *; [exact Hm|].
  exact (Hh e w').
Qed.

Lemma always_weaken {A} (P Q : A -> Prop) (m : Axios.M World A) :
  (forall a, P a -> Q a) -> always P m -> always Q m.
Proof.
  intros H Hm w. specialize (Hm w).
  destruct (fst (m w)); [now apply H | exact I].
Qed.

(** A computation that never yields a value ends in the handler of the
    enclosing try block. *)
Lemma never_caught {A} (m : Axios.M World A)
  (h : Axios.exn -> Axios.M World A) (w : World) :
  always (fun _ => False) m ->
  exists e w', m w = (Axios.Thrown e, w') /\ Axios.tryCatch m h w = h e w'.
Proof.
  intros Hm. specialize (Hm w). unfold Axios.tryCatch.
  destruct (m w) as [[a|e] w']; cbn [fst] in *; [contradiction|].
  now exists e, w'.
Qed.

End Always.

Section Outcomes.
Context {Payload World : Type}.
Variable byteLength : Payload -> N.
Variable transport :
  World -> string -> Axios.options -> Axios.reply Payload * World.

(** The answer to a request without a file identifier. *)
Definition badRequest : Response.t Payload :=
  {| Response.status := 400;
     Response.headers := [("Content-Type", "application/json")];
     Response.content := Response.Error "File ID is required" None None |}.

(** A delivery: status 200, the two headers, the data of an upstream
    answer. *)
Definition delivered (r : Response.t Payload) : Prop :=
  exists d contentType filename,
    r = Download.attachment d contentType filename.

(** What a strategy block leaves: nothing, or a delivery. *)
Definition deliveredOrNone (o : option (Response.t Payload)) : Prop :=
  match o with
  | Some r => delivered r
  | None => True
  end.

Lemma always_get (url : string) (o : Axios.options) (v : N -> bool) :
  always (fun _ => True) (Axios.get transport url o v).
Proof.
  intros w. unfold Axios.get.
  destruct (transport w url o) as [[r|m] w']; [|exact I].
  now destruct (v (Axios.status r)).
Qed.

Lemma deliver_outcome (d : Axios.data Payload) (ct fn : string) :
  always deliveredOrNone
    (Download.deliver (World := World) (Download.attachment d ct fn)).
Proof.
  intros w.
  destruct (Download.deliver (Download.attachment d ct fn) w)
    as [[o|e] w'] eqn:E; [|exact I].
  apply deliver_inv in E as (_ & -> & _).
  now exists d, (Response.normalize ct), fn.
Qed.

(** The redirect is built as it is written, when it is built. *)
Lemma redirect_outcome (fileId : string) :
  always (fun r : Response.t Payload => r = Download.viewerRedirect fileId)
    (Response.construct (World := World) (Download.viewerRedirect fileId)).
Proof.
  intros w. unfold Response.construct.
  destruct (forallb _ _); [|exact I].
  cbn [fst Axios.ret]. unfold Download.viewerRedirect.
  cbn [Response.status Response.headers Response.content map fst snd].
  do 3 f_equal. f_equal.
  replace ("https://drive.google.com/file/d/" ++ fileId ++ "/view")
    with (String "h"
            (("ttps://drive.google.com/file/d/" ++ fileId ++ "/vie")
             ++ String "w" EmptyString)).
  - now apply ResponseFacts.normalize_framed.
  - cbn [append]. now rewrite !StringFacts.app_assoc.
Qed.

Lemma viewOnlyPdf_outcome (fileId fileName : string) :
  always deliveredOrNone
    (Download.viewOnlyPdf byteLength transport fileId fileName).
Proof.
  unfold Download.viewOnlyPdf.
  apply (always_bind (fun _ => True)); [apply always_get|].
  intros rp _.
  match goal with |- always _ (if ?b then _ else _) => destruct b end.
  - apply deliver_outcome.
  - apply (always_bind (fun _ => True)); [apply always_get|].
    intros re _. destruct (Axios.status re =? 200)%N;
      [apply deliver_outcome | now apply always_ret].
Qed.

Lemma googleDocs_outcome (fileId fileName mimeType : string)
  (format : option string) :
  always deliveredOrNone
    (Download.googleDocs transport fileId fileName mimeType format).
Proof.
  unfold Download.googleDocs.
  apply (always_bind (fun _ => True)); [apply always_get|].
  intros r _.
  match goal with |- always _ (if ?b then _ else _) => destruct b end;
    [apply deliver_outcome | now apply always_ret].
Qed.

Lemma standardDownload_outcome (fileId fileName mimeType : string) :
  always deliveredOrNone
    (Download.standardDownload byteLength transport fileId fileName
       mimeType).
Proof.
  unfold Download.standardDownload.
  apply (always_bind (fun _ => True)); [apply always_get|].
  intros r _.
  match goal with |- always _ (if ?b then _ else _) => destruct b end;
    [|apply always_ret; exact I].
  apply (always_bind (fun _ => True)).
  { intros w. now destruct (fst _). }
  intros suspect _. destruct suspect; [|apply deliver_outcome].
  apply (always_bind (fun _ => True)); [apply always_get|].
  intros ra _. destruct (Axios.status ra =? 200)%N;
    [|apply deliver_outcome].
  apply (always_bind (fun _ => True)).
  { intros w. now destruct (fst _). }
  intros genuine _. destruct genuine; apply deliver_outcome.
Qed.

Lemma lastResort_outcome (fileId fileName mimeType : string) :
  always deliveredOrNone
    (Download.lastResort transport fileId fileName mimeType).
Proof.
  unfold Download.lastResort.
  apply (always_bind (fun _ => True)); [apply always_get|].
  intros r _.
  match goal with |- always _ (if ?b then _ else _) => destruct b end;
    [apply deliver_outcome | now apply always_ret].
Qed.

Lemma orThen_outcome (P : Response.t Payload -> Prop)
  (a : Axios.M World (option (Response.t Payload)))
  (rest : Axios.M World (Response.t Payload)) :
  always deliveredOrNone a ->
  (forall r, delivered r -> P r) ->
  always P rest ->
  always P (Download.orThen a rest).
Proof.
  intros Ha HP Hrest. unfold Download.orThen.
  apply (always_bind deliveredOrNone); [exact Ha|].
  intros [r|] Hr; [apply always_ret, HP, Hr | exact Hrest].
Qed.

(** What the attempts leave when they do not throw. *)
Definition settled (fileId : string) (r : Response.t Payload) : Prop :=
  delivered r \/ r = Download.viewerRedirect fileId.

Lemma attempts_outcome (fileId : string) (format : option string)
  (forcePdf viewOnly : bool) :
  always (settled fileId)
    (Download.attempts byteLength transport fileId format forcePdf
       viewOnly).
Proof.
  unfold Download.attempts.
  apply (always_bind (fun _ => True)).
  { intros w. now destruct (fst _). }
  intros meta _.
  apply orThen_outcome; [|now left|].
  { match goal with |- always _ (if ?b then _ else _) => destruct b end;
      [|apply always_ret; exact I].
    apply always_tryCatch; [apply viewOnlyPdf_outcome|].
    intros e. apply always_ret. exact I. }
  apply orThen_outcome; [|now left|].
  { match goal with |- always _ (if ?b then _ else _) => destruct b end;
      [apply googleDocs_outcome | apply always_ret; exact I]. }
  apply orThen_outcome; [apply standardDownload_outcome | now left |].
  apply orThen_outcome; [apply lastResort_outcome | now left |].
  apply (always_weaken
           (fun r : Response.t Payload => r = Download.viewerRedirect fileId));
    [intros r Hr; now right | apply redirect_outcome].
Qed.

(** X10. Every run of the download handler ends in one of four
    responses: without a file identifier the 400 error, sent before any
    upstream request; otherwise a delivery (status 200 with Content-Type
    and Content-Disposition and the data of an upstream answer), the 302
    redirect to the viewer page of the file, or the 500 error built from
    a thrown error.  It never throws and never answers 403 or 404. *)
Theorem GET_outcomes (q : Download.query) (w : World) :
  exists r w',
    Download.GET byteLength transport q w = (Axios.Value r, w')
    /\ ((given (Download.fileId q) = None /\ r = badRequest /\ w' = w)
        \/ (exists fileId,
              given (Download.fileId q) = Some fileId
              /\ (delivered r
                  \/ r = Download.viewerRedirect fileId
                  \/ exists e, r = internalError e))).
Proof.
  unfold Download.GET.
  destruct (given (Download.fileId q)) as [fileId|] eqn:Hid.
  - pose proof (attempts_outcome fileId (Download.format q)
                  (Download.isTrue (Download.forcePdf q))
                  (Download.isTrue (Download.viewOnly q)) w) as H.
    unfold Axios.tryCatch.
    destruct (Download.attempts _ _ _ _ _ _ w) as [[r|e] w'];
      cbn [fst] in H.
    + exists r, w'. split; [reflexivity|]. right. exists fileId.
      split; [reflexivity|]. destruct H as [H | H]; auto.
    + eexists; eexists. split; [reflexivity|]. right. exists fileId.
      split; [reflexivity|]. right. right. now exists e.
  - exists badRequest, w. split; [reflexivity|]. now left.
Qed.

(** *** A world without a 200 answer *)

Section NoSuccess.
Hypothesis no200 :
  forall w url o r w',
    transport w url o = (Axios.Answer r, w') -> Axios.status r <> 200%N.

Lemma get_no200 (url : string) (o : Axios.options) (v : N -> bool) :
  always (fun r => Axios.status r <> 200%N /\ v (Axios.status r) = true)
    (Axios.get transport url o v).
Proof.
  intros w. unfold Axios.get.
  destruct (transport w url o) as [[r|m] w'] eqn:E; [|exact I].
  destruct (v (Axios.status r)) eqn:Hv; cbn [fst]; [|exact I].
  split; [exact (no200 _ _ _ _ _ E) | exact Hv].
Qed.

Lemma viewOnlyPdf_no200 (fileId fileName : string) :
  always (fun o => o = None)
    (Download.viewOnlyPdf byteLength transport fileId fileName).
Proof.
  unfold Download.viewOnlyPdf.
  eapply always_bind; [apply get_no200|].
  intros rp [Hp _]. apply N.eqb_neq in Hp. rewrite Hp. cbn [andb].
  eapply always_bind; [apply get_no200|].
  intros re [He _]. apply N.eqb_neq in He. rewrite He.
  now apply always_ret.
Qed.

Lemma googleDocs_no200 (fileId fileName mimeType : string)
  (format : option string) :
  always (fun _ => False)
    (Download.googleDocs transport fileId fileName mimeType format).
Proof.
  unfold Download.googleDocs.
  eapply always_bind; [apply get_no200|].
  intros r [Hr Hv]. apply N.eqb_eq in Hv. contradiction.
Qed.

Lemma standardDownload_no200 (fileId fileName mimeType : string) :
  always (fun o => o = None)
    (Download.standardDownload byteLength transport fileId fileName
       mimeType).
Proof.
  unfold Download.standardDownload.
  eapply always_bind; [apply get_no200|].
  intros r [Hr _]. apply N.eqb_neq in Hr. rewrite Hr.
  now apply always_ret.
Qed.

Lemma lastResort_no200 (fileId fileName mimeType : string) :
  always (fun _ => False)
    (Download.lastResort transport fileId fileName mimeType).
Proof.
  unfold Download.lastResort.
  eapply always_bind; [apply get_no200|].
  intros r [Hr Hv]. apply N.eqb_eq in Hv. contradiction.
Qed.

Lemma orThen_skipped (P : Response.t Payload -> Prop)
  (a : Axios.M World (option (Response.t Payload)))
  (rest : Axios.M World (Response.t Payload)) :
  always (fun o => o = None) a ->
  always P rest ->
  always P (Download.orThen a rest).
Proof.
  intros Ha Hrest. unfold Download.orThen.
  eapply always_bind; [exact Ha|].
  now intros o ->.
Qed.

Lemma orThen_stopped (P : Response.t Payload -> Prop)
  (a : Axios.M World (option (Response.t Payload)))
  (rest : Axios.M World (Response.t Payload)) :
  always (fun _ => False) a ->
  always P (Download.orThen a rest).
Proof.
  intros Ha. unfold Download.orThen.
  eapply always_bind; [exact Ha|]. contradiction.
Qed.

Lemma attempts_no200 (fileId : string) (format : option string)
  (forcePdf viewOnly : bool) :
  always (fun _ => False)
    (Download.attempts byteLength transport fileId format forcePdf
       viewOnly).
Proof.
  unfold Download.attempts.
  apply (always_bind (fun _ => True)).
  { intros w. now destruct (fst _). }
  intros meta _.
  apply orThen_skipped.
  { match goal with |- always _ (if ?b then _ else _) => destruct b end;
      [|now apply always_ret].
    apply always_tryCatch; [apply viewOnlyPdf_no200|].
    intros e. now apply always_ret. }
  match goal with
  | |- always _ (Download.orThen (if ?b then _ else _) _) => destruct b
  end; [apply orThen_stopped, googleDocs_no200|].
  apply orThen_skipped; [now apply always_ret|].
  apply orThen_skipped; [apply standardDownload_no200|].
  apply orThen_stopped, lastResort_no200.
Qed.

(** X11. Where no upstream request is answered with status 200, a
    request with a file identifier always ends in the 500 error: nothing
    is delivered, and the redirect to the viewer page is not reached
    either, whatever the statuses and failures are. *)
Theorem GET_without_success (q : Download.query) (fileId : string)
  (w : World) :
  given (Download.fileId q) = Some fileId ->
  exists e w',
    Download.GET byteLength transport q w
    = (Axios.Value (internalError e), w').
Proof.
  intros Hid. unfold Download.GET. rewrite Hid.
  destruct (never_caught
              (Download.attempts byteLength transport fileId
                 (Download.format q)
                 (Download.isTrue (Download.forcePdf q))
                 (Download.isTrue (Download.viewOnly q)))
              (fun error => Axios.ret (internalError error)) w
              (attempts_no200 _ _ _ _)) as (e & w' & _ & H).
  exists e, w'. exact H.
Qed.

End NoSuccess.

(** X12. The metadata step of the download handler never fails the
    request: it makes one request and yields the name and MIME type of a
    200 answer that is a JSON object, each replaced by its default
    ([file_] and the identifier, application/octet-stream) when missing
    or empty, and both defaults after any other answer, a 200 answer
    without an object, or a network failure. *)
Theorem metadata_never_fails (fileId : string) (w : World) :
  Download.metadata transport fileId w
  = (Axios.Value
       (match fst (transport w (metadataUrl fileId) metadataOptions) with
        | Axios.Answer r =>
            match Axios.body r with
            | Axios.Object file =>
                if (Axios.status r =? 200)%N
                then (JsString.orElse (Axios.name file) ("file_" ++ fileId),
                      JsString.orElse (Axios.mimeType file)
                        "application/octet-stream")
                else ("file_" ++ fileId, "application/octet-stream")
            | _ => ("file_" ++ fileId, "application/octet-stream")
            end
        | Axios.Failure _ => ("file_" ++ fileId, "application/octet-stream")
        end),
     snd (transport w (metadataUrl fileId) metadataOptions)).
Proof.
  unfold Download.metadata, Axios.tryCatch, Axios.bind, Axios.get.
  fold (metadataUrl fileId). fold metadataOptions.
  destruct (transport w (metadataUrl fileId) metadataOptions)
    as [[r|m] w']; cbn [fst snd]; [|reflexivity].
  destruct (Axios.status r <? 500)%N eqn:E5.
  - destruct (Axios.status r =? 200)%N eqn:E2;
      [|now destruct (Axios.body r)].
    now destruct (Axios.body r).
  - assert (E2 : (Axios.status r =? 200)%N = false).
    { apply N.eqb_neq. intros H. rewrite H in E5. discriminate. }
    rewrite E2. now destruct (Axios.body r).
Qed.

End Outcomes.

(** In the world where every address answers 404, no request is answered
    with status 200. *)
Lemma GET_without_success_witness :
  exists e w',
    Download.GET Scenario.size (Scenario.serve Scenario.nothingSite)
      Scenario.plain []
    = (Axios.Value (internalError e), w').
Proof.
  apply (GET_without_success Scenario.size
           (Scenario.serve Scenario.nothingSite)) with (fileId := "abc").
  - intros w url o r w' H. injection H as <- _. discriminate.
  - reflexivity.
Defined.

End DownloadMore.

(* ===================================================================== *)
(** ** The handlers of the pages router                                   *)
(* ===================================================================== *)

(** A request with [responseType: "stream"] and a [validateStatus] that
    accepts every status: the data of an answer is the stream itself, and
    the promise is rejected only when there is no answer. *)
Module Stream.

Record options := {
  headers : list (string * string);
  maxRedirects : option nat
}.

Record response (Payload : Type) := {
  status : N;
  contentType : option string;   (* headers["content-type"] *)
  data : Payload                 (* the stream *)
}.
Arguments status {Payload} r.
Arguments contentType {Payload} r.
Arguments data {Payload} r.

Inductive reply (Payload : Type) :=
| Opened (r : response Payload)
| Broken (message : string).
Arguments Opened {Payload} r.
Arguments Broken {Payload} message.

Section Get.
Context {Payload World : Type}.
Variable stream : World -> string -> options -> reply Payload * World.

Definition get (url : string) (o : options)
  : Axios.M World (response Payload) :=
  fun w =>
    match stream w url o with
    | (Opened r, w') => (Axios.Value r, w')
    | (Broken m, w') => (Axios.Thrown (Axios.NetworkError m), w')
    end.

End Get.

End Stream.

(** What a handler of the pages router leaves in [res]. *)
Module Res.

(** The record the file-info handler sends. *)
Record fileInfo := {
  id : string;
  name : option string;
  mimeType : option string;
  size : option string;
  canDownload : bool;
  isGoogleApps : option bool;    (* undefined when there is no mimeType *)
  isPublic : bool;
  exportOptions : option (list string)   (* null for other files *)
}.

Inductive content (Payload : Type) :=
| Piped (p : Payload)                      (* x.data.pipe(res) *)
| Error (error : string) (suggestion : option string) (status : option N)
| Info (m : fileInfo).
Arguments Piped {Payload} p.
Arguments Error {Payload} error suggestion status.
Arguments Info {Payload} m.

Record t (Payload : Type) := {
  status : N;
  headers : table;               (* those set with res.setHeader, in order *)
  body : content Payload
}.
Arguments status {Payload} t.
Arguments headers {Payload} t.
Arguments body {Payload} t.

Definition header {Payload} (r : t Payload) (h : string) : option string :=
  lookup (headers r) h.

(** [res.status(status).json(body)] *)
Definition json {Payload} (status : N) (body : content Payload)
  : t Payload :=
  {| status := status; headers := []; body := body |}.

(** [res] after the calls of [res.setHeader] and [x.data.pipe(res)]. *)
Definition piped {Payload} (headers : table) (p : Payload) : t Payload :=
  {| status := 200; headers := headers; body := Piped p |}.

(** A code unit [res.setHeader] accepts in a value: a tab, or anything
    from the space on but DEL. *)
Definition isValueChar (c : ascii) : bool :=
  let n := N_of_ascii c in
  ((n =? 9) || (32 <=? n) && negb (n =? 127))%N.

Definition isValue (v : string) : bool := JsString.all isValueChar v.

(** The calls of [res.setHeader], in order, and then
    [x.data.pipe(res)]: the first value with another code unit is
    refused with a TypeError (the text of its message is the runtime's;
    the one here stands for it), and nothing is piped.  A header set before the refusal is replaced by
    whatever the handler sends next. *)
Definition send {Payload World} (headers : table) (p : Payload)
  : Axios.M World (t Payload) :=
  if forallb (fun h => isValue (snd h)) headers
  then Axios.ret (piped headers p)
  else Axios.throw (Axios.TypeError "Invalid character in header content").

End Res.

(** A value of [req.query]: absent, one string, or several. *)
Inductive queryValue :=
| Missing
| One (s : string)
| Many (l : list string).

(** [!v || typeof v !== "string"] does not hold: the string, then. *)
Definition required (v : queryValue) : option string :=
  match v with
  | One s => given (Some s)
  | _ => None
  end.

(** *** pages/api/download.ts *)

Module PagesDownload.

Record query := {
  fileId : queryValue;
  format : queryValue
}.

Definition userAgent : string :=
  "Mozilla/5.0 (Windows NT 10.0; Win64; x64) AppleWebKit/537.36 (KHTML, like Gecko) Chrome/91.0.4472.124 Safari/537.36".

Definition contentTypes : table :=
  [ ("pdf", "application/pdf");
    ("docx",
     "application/vnd.openxmlformats-officedocument.wordprocessingml.document");
    ("xlsx",
     "application/vnd.openxmlformats-officedocument.spreadsheetml.sheet");
    ("pptx",
     "application/vnd.openxmlformats-officedocument.presentationml.presentation")
  ].

Definition defaultFormats : table :=
  [ ("application/vnd.google-apps.document", "pdf");
    ("application/vnd.google-apps.spreadsheet", "xlsx");
    ("application/vnd.google-apps.presentation", "pptx") ].

(** Function to check if response is HTML *)
Definition isHtmlResponse (contentType : option string) : bool :=
  let contentType := JsString.orElse contentType EmptyString in
  JsString.includes contentType "text/html"
  || JsString.includes contentType "application/xhtml+xml".

(** [fileMetadata?.name] and [fileMetadata?.mimeType], where
    [fileMetadata] is undefined or the value assigned to it. *)
Definition nameOf {Payload} (fileMetadata : option (Axios.data Payload))
  : option string :=
  match fileMetadata with
  | Some (Axios.Object o) => Axios.name o
  | _ => None
  end.

Definition mimeTypeOf {Payload} (fileMetadata : option (Axios.data Payload))
  : option string :=
  match fileMetadata with
  | Some (Axios.Object o) => Axios.mimeType o
  | _ => None
  end.

(** [{ name: "unknown_file", mimeType: "" }] *)
Definition unknownFile {Payload} : Axios.data Payload :=
  Axios.Object
    {| Axios.name := Some "unknown_file";
       Axios.mimeType := Some EmptyString;
       Axios.size := None;
       Axios.canDownload := None |}.

(** [typeof format === "string" && isGoogleApps ? format : null] *)
Definition exportFormatOf (format : queryValue) (isGoogleApps : option bool)
  : option string :=
  match format, isGoogleApps with
  | One f, Some true => Some f
  | _, _ => None
  end.

(** An optional boolean used as a condition. *)
Definition holds (b : option bool) : bool :=
  match b with Some true => true | _ => false end.

Definition attachment (name : string) : string :=
  "attachment; filename=" ++ dquote ++ name ++ dquote.

Definition forbidden {Payload} : Res.t Payload :=
  Res.json 403
    (Res.Error "File is view-only or not publicly accessible"
       (Some ("Ask the owner to enable download permissions or share with "
              ++ dquote ++ "Anyone with the link" ++ dquote ++ " access"))
       None).

Section Handler.
Context {Payload World : Type}.
Variable transport :
  World -> string -> Axios.options -> Axios.reply Payload * World.
Variable stream :
  World -> string -> Stream.options -> Stream.reply Payload * World.

Local Open Scope js_scope.

(** [res.setHeader(...); ...; return x.data.pipe(res)] in a block. *)
Definition pipe (headers : table) (p : Payload)
  : Axios.M World (option (Res.t Payload)) :=
  response <- Res.send headers p ;;
  Axios.ret (Some response).

(** Get file metadata: [fileMetadata] after the inner try block. *)
Definition metadata (fileId : string)
  : Axios.M World (option (Axios.data Payload)) :=
  Axios.tryCatch
    (metadataResponse <-
       Axios.get transport
         ("https://www.googleapis.com/drive/v3/files/" ++ fileId
          ++ "?fields=name,mimeType,capabilities")
         {| Axios.kind := Axios.json; Axios.headers := [];
            Axios.maxRedirects := None |}
         (fun _ => true) ;;
     if (Axios.status metadataResponse =? 200)%N
     then Axios.ret (Some (Axios.body metadataResponse))
     else if (Axios.status metadataResponse =? 403)%N
             || (Axios.status metadataResponse =? 404)%N
     then
       (* File exists but might be view-only or restricted *)
       Axios.ret (Some unknownFile)
     else Axios.ret None)
    (fun _ => Axios.ret (Some unknownFile)).

(** Try direct download first if not a Google Apps file or no specific
    format. *)
Definition direct (fileId : string)
  (fileMetadata : option (Axios.data Payload))
  : Axios.M World (option (Res.t Payload)) :=
  fileResponse <-
    Stream.get stream
      ("https://drive.google.com/uc?export=download&id=" ++ fileId)
      {| Stream.headers := []; Stream.maxRedirects := Some 5 |} ;;
  if (Stream.status fileResponse =? 200)%N
     && negb (isHtmlResponse (Stream.contentType fileResponse))
  then
    pipe
      [("Content-Type",
        JsString.orElse (Stream.contentType fileResponse)
        "application/octet-stream");
       ("Content-Disposition",
        attachment (JsString.orElse (nameOf fileMetadata) "file"))]
      (Stream.data fileResponse)
  else Axios.ret None.

(** Handle Google Apps files or specified export format. *)
Definition export (fileId : string)
  (fileMetadata : option (Axios.data Payload))
  (exportFormat : option string)
  : Axios.M World (option (Res.t Payload)) :=
  let defaultFormat :=
    orText
      (get defaultFormats
         (JsString.orElse (mimeTypeOf fileMetadata) EmptyString))
      "pdf" in
  let finalFormat := JsString.orElse exportFormat defaultFormat in
  exportResponse <-
    Stream.get stream
      ("https://drive.google.com/uc?export=download&id=" ++ fileId
       ++ "&format=" ++ finalFormat)
      {| Stream.headers := []; Stream.maxRedirects := Some 5 |} ;;
  if (Stream.status exportResponse =? 200)%N
     && negb (isHtmlResponse (Stream.contentType exportResponse))
  then
    pipe
      [("Content-Type",
        orText (get contentTypes finalFormat)
        "application/octet-stream");
       ("Content-Disposition",
        attachment
        (JsString.orElse (nameOf fileMetadata) "document"
           ++ "." ++ finalFormat))]
      (Stream.data exportResponse)
  else Axios.ret None.

(** Try alternative download URL format with confirmation token. *)
Definition alternative (fileId : string)
  (fileMetadata : option (Axios.data Payload))
  : Axios.M World (option (Res.t Payload)) :=
  altResponse <-
    Stream.get stream
      ("https://drive.google.com/uc?export=download&confirm=t&id="
       ++ fileId)
      {| Stream.headers := []; Stream.maxRedirects := Some 5 |} ;;
  if (Stream.status altResponse =? 200)%N
     && negb (isHtmlResponse (Stream.contentType altResponse))
  then
    pipe
      [("Content-Type",
        JsString.orElse (Stream.contentType altResponse)
        "application/octet-stream");
       ("Content-Disposition",
        attachment (JsString.orElse (nameOf fileMetadata) "file"))]
      (Stream.data altResponse)
  else Axios.ret None.

(** The print version and the preview of a PDF: the bodies of the first
    two try blocks of the special handling, which differ in the address
    and the request headers. *)
Definition pdfVersion (url : string) (headers : list (string * string))
  (fileMetadata : option (Axios.data Payload))
  : Axios.M World (option (Res.t Payload)) :=
  pdfResponse <-
    Stream.get stream url
      {| Stream.headers := headers; Stream.maxRedirects := Some 5 |} ;;
  if (Stream.status pdfResponse =? 200)%N
     && negb (isHtmlResponse (Stream.contentType pdfResponse))
  then
    pipe
      [("Content-Type", "application/pdf");
       ("Content-Disposition",
        attachment
        (JsString.orElse (nameOf fileMetadata) "document"
           ++ ".pdf"))]
      (Stream.data pdfResponse)
  else Axios.ret None.

(** Last resort: try to get the embedded viewer URL content. *)
Definition embed (fileId : string)
  : Axios.M World (option (Res.t Payload)) :=
  embedResponse <-
    Stream.get stream
      ("https://drive.google.com/file/d/" ++ fileId ++ "/preview")
      {| Stream.headers := [("User-Agent", userAgent)];
         Stream.maxRedirects := Some 5 |} ;;
  if (Stream.status embedResponse =? 200)%N
  then
    (* Even if it's HTML, it might contain the PDF data or a redirect *)
    pipe
      [("Content-Type",
        JsString.orElse (Stream.contentType embedResponse)
        "text/html")]
      (Stream.data embedResponse)
  else Axios.ret None.

(** A block that returns from the handler or falls through to the next
    one. *)
Definition orElseTry (a b : Axios.M World (option (Res.t Payload)))
  : Axios.M World (option (Res.t Payload)) :=
  r <- a ;;
  match r with
  | Some response => Axios.ret (Some response)
  | None => b
  end.

Definition orThen (a : Axios.M World (option (Res.t Payload)))
  (rest : Axios.M World (Res.t Payload))
  : Axios.M World (Res.t Payload) :=
  r <- a ;;
  match r with
  | Some response => Axios.ret response
  | None => rest
  end.

(** Special handling for view-only PDFs. *)
Definition viewOnlyPdf (fileId : string)
  (fileMetadata : option (Axios.data Payload))
  : Axios.M World (option (Res.t Payload)) :=
  orElseTry
    (Axios.tryCatch
       (pdfVersion ("https://drive.google.com/print?id=" ++ fileId) []
          fileMetadata)
       (fun _ => Axios.ret None))
  (orElseTry
    (Axios.tryCatch
       (pdfVersion
          ("https://docs.google.com/uc?export=download&id=" ++ fileId)
          [("User-Agent", userAgent)] fileMetadata)
       (fun _ => Axios.ret None))
    (Axios.tryCatch (embed fileId) (fun _ => Axios.ret None))).

(** The body of the outer try block. *)
Definition attempts (fileId : string) (format : queryValue)
  : Axios.M World (Res.t Payload) :=
  fileMetadata <- metadata fileId ;;
  let isGoogleApps :=
    option_map
      (fun m => JsString.startsWith m "application/vnd.google-apps")
      (mimeTypeOf fileMetadata) in
  let isPdf :=
    match mimeTypeOf fileMetadata with
    | Some m => String.eqb m "application/pdf"
    | None => false
    end in
  let exportFormat := exportFormatOf format isGoogleApps in
  orThen
    (match given exportFormat with
     | None => direct fileId fileMetadata
     | Some _ => Axios.ret None
     end)
  (orThen
    (if holds isGoogleApps
        || match given exportFormat with Some _ => true | None => false end
     then export fileId fileMetadata exportFormat
     else Axios.ret None)
  (orThen (alternative fileId fileMetadata)
  (orThen
    (if isPdf
        || holds (option_map (fun m => JsString.includes m "pdf")
                    (mimeTypeOf fileMetadata))
     then viewOnlyPdf fileId fileMetadata
     else Axios.ret None)
  (* If all fails, return an error message *)
  (Axios.ret forbidden)))).

Definition handler (req : query) : Axios.M World (Res.t Payload) :=
  match required (fileId req) with
  | None =>
      Axios.ret (Res.json 400 (Res.Error "File ID is required" None None))
  | Some fileId =>
      Axios.tryCatch (attempts fileId (format req))
        (fun _ =>
           Axios.ret
             (Res.json 500 (Res.Error "Failed to download file" None None)))
  end.

End Handler.

End PagesDownload.

(* ===================================================================== *)
(** ** Facts about the download handler of the pages router               *)
(* ===================================================================== *)

Module PagesDownloadFacts.
Import StringFacts AxiosFacts.

Section Returns.
Context {World : Type}.

(** The computation yields, in every world, a value that satisfies [P]:
    it never throws. *)
Definition returns {A} (P : A -> Prop) (m : Axios.M World A) : Prop :=
  forall w, exists a w', m w = (Axios.Value a, w') /\ P a.

Lemma returns_ret {A} (P : A -> Prop) (a : A) :
  P a -> returns P (Axios.ret a).
Proof. intros H w. now exists a, w. Qed.

Lemma returns_bind {A B} (Q : A -> Prop) (P : B -> Prop)
  (m : Axios.M World A) (f : A -> Axios.M World B) :
  returns Q m -> (forall a, Q a -> returns P (f a)) ->
  returns P (Axios.bind m f).
Proof.
  intros Hm Hf w. destruct (Hm w) as (a & w1 & E & Ha).
  destruct (Hf a Ha w1) as (b & w2 & E' & Hb).
  exists b, w2. now rewrite (bind_value _ _ _ _ _ E).
Qed.

(** A try block whose handler returns: the value is the block's or the
    handler's. *)
Lemma returns_caught {A} (P : A -> Prop) (m : Axios.M World A)
  (h : Axios.exn -> Axios.M World A) :
  DownloadMore.always P m -> (forall e, returns P (h e)) ->
  returns P (Axios.tryCatch m h).
Proof.
  intros Hm Hh w. unfold Axios.tryCatch. specialize (Hm w).
  destruct (m w) as [[a|e] w1]; cbn [fst] in Hm; [now exists a, w1|].
  apply Hh.
Qed.

Lemma returns_always {A} (P : A -> Prop) (m : Axios.M World A) :
  returns P m -> DownloadMore.always P m.
Proof.
  intros H w. destruct (H w) as (a & w' & E & Ha). now rewrite E.
Qed.

Lemma always_any {A} (m : Axios.M World A) :
  DownloadMore.always (fun _ => True) m.
Proof. intros w. now destruct (fst (m w)). Qed.

End Returns.

(** *** Values [res.setHeader] accepts *)

Lemma isValue_app (a b : string) :
  Res.isValue (a ++ b) = Res.isValue a && Res.isValue b.
Proof. apply all_app. Qed.

Lemma orElse_value (o : option string) (d : string) :
  (forall c, o = Some c -> Res.isValue c = true) ->
  Res.isValue d = true ->
  Res.isValue (JsString.orElse o d) = true.
Proof.
  intros Ho Hd. unfold JsString.orElse.
  destruct o as [c|]; [|exact Hd].
  destruct (JsString.truthy c); [now apply Ho | exact Hd].
Qed.

Lemma attachment_value (name : string) :
  Res.isValue name = true ->
  Res.isValue (PagesDownload.attachment name) = true.
Proof.
  intros H. unfold PagesDownload.attachment.
  now rewrite !isValue_app, H.
Qed.

(** The content type of an export, and the default format, are an entry
    of a table, the text of an inherited member or a fixed word: none
    holds a control character. *)
Lemma label_value (finalFormat : string) :
  Res.isValue
    (orText (get PagesDownload.contentTypes finalFormat)
       "application/octet-stream") = true.
Proof.
  unfold get, PagesDownload.contentTypes, objectPrototype. cbn [lookup].
  repeat match goal with
         | |- context [String.eqb finalFormat ?k] =>
             destruct (String.eqb finalFormat k); [reflexivity|]
         end.
  reflexivity.
Qed.

Lemma default_value (mimeType : string) :
  Res.isValue
    (orText (get PagesDownload.defaultFormats mimeType) "pdf") = true.
Proof.
  unfold get, PagesDownload.defaultFormats, objectPrototype. cbn [lookup].
  repeat match goal with
         | |- context [String.eqb mimeType ?k] =>
             destruct (String.eqb mimeType k); [reflexivity|]
         end.
  reflexivity.
Qed.

Section Facts.
Context {Payload World : Type}.
Variable transport :
  World -> string -> Axios.options -> Axios.reply Payload * World.
Variable stream :
  World -> string -> Stream.options -> Stream.reply Payload * World.

Definition missingId : Res.t Payload :=
  Res.json 400 (Res.Error "File ID is required" None None).

Definition failed : Res.t Payload :=
  Res.json 500 (Res.Error "Failed to download file" None None).

(** A stream piped to the client: status 200 and a Content-Type. *)
Definition sent (r : Res.t Payload) : Prop :=
  Res.status r = 200%N
  /\ (exists p, Res.body r = Res.Piped p)
  /\ exists contentType, Res.header r "Content-Type" = Some contentType.

Definition sentOrNone (o : option (Res.t Payload)) : Prop :=
  match o with Some r => sent r | None => True end.

Lemma piped_sent (headers : table) (p : Payload) :
  (exists contentType, lookup headers "Content-Type" = Some contentType) ->
  sent (Res.piped headers p).
Proof. intros H. split; [reflexivity|]. split; [now exists p | exact H]. Qed.

Lemma pipe_sent (headers : table) (p : Payload) :
  (exists contentType, lookup headers "Content-Type" = Some contentType) ->
  DownloadMore.always sentOrNone
    (PagesDownload.pipe (World := World) headers p).
Proof.
  intros H w. unfold PagesDownload.pipe, Res.send, Axios.bind.
  destruct (forallb _ headers); cbn; [now apply piped_sent | exact I].
Qed.

Lemma pipe_returns (headers : table) (p : Payload) :
  forallb (fun h => Res.isValue (snd h)) headers = true ->
  (exists contentType, lookup headers "Content-Type" = Some contentType) ->
  returns sentOrNone (PagesDownload.pipe (World := World) headers p).
Proof.
  intros Hv H w. unfold PagesDownload.pipe, Res.send, Axios.bind.
  rewrite Hv. cbn. eexists _, _. split; [reflexivity|].
  now apply piped_sent.
Qed.

(** One stream request and the block that follows it. *)
Ltac block_sent :=
  eapply DownloadMore.always_bind; [apply always_any|];
  intros r _;
  match goal with
  | |- DownloadMore.always _ (if ?b then _ else _) => destruct b
  end;
  [apply pipe_sent; now eexists | now apply DownloadMore.always_ret].

Lemma direct_sent (fileId : string)
  (fileMetadata : option (Axios.data Payload)) :
  DownloadMore.always sentOrNone
    (PagesDownload.direct stream fileId fileMetadata).
Proof. unfold PagesDownload.direct. block_sent. Qed.

Lemma export_sent (fileId : string)
  (fileMetadata : option (Axios.data Payload))
  (exportFormat : option string) :
  DownloadMore.always sentOrNone
    (PagesDownload.export stream fileId fileMetadata exportFormat).
Proof. unfold PagesDownload.export. block_sent. Qed.

Lemma alternative_sent (fileId : string)
  (fileMetadata : option (Axios.data Payload)) :
  DownloadMore.always sentOrNone
    (PagesDownload.alternative stream fileId fileMetadata).
Proof. unfold PagesDownload.alternative. block_sent. Qed.

Lemma pdfVersion_sent (url : string) (headers : list (string * string))
  (fileMetadata : option (Axios.data Payload)) :
  DownloadMore.always sentOrNone
    (PagesDownload.pdfVersion stream url headers fileMetadata).
Proof. unfold PagesDownload.pdfVersion. block_sent. Qed.

Lemma embed_sent (fileId : string) :
  DownloadMore.always sentOrNone (PagesDownload.embed stream fileId).
Proof. unfold PagesDownload.embed. block_sent. Qed.

Lemma orElseTry_always (P : option (Res.t Payload) -> Prop)
  (a b : Axios.M World (option (Res.t Payload))) :
  DownloadMore.always P a -> DownloadMore.always P b ->
  DownloadMore.always P (PagesDownload.orElseTry a b).
Proof.
  intros Ha Hb. unfold PagesDownload.orElseTry.
  eapply DownloadMore.always_bind; [exact Ha|].
  intros [r|] Hr; [now apply DownloadMore.always_ret | exact Hb].
Qed.

Lemma pages_orThen_always (P : Res.t Payload -> Prop)
  (a : Axios.M World (option (Res.t Payload)))
  (rest : Axios.M World (Res.t Payload)) :
  DownloadMore.always
    (fun o => match o with Some r => P r | None => True end) a ->
  DownloadMore.always P rest ->
  DownloadMore.always P (PagesDownload.orThen a rest).
Proof.
  intros Ha Hrest. unfold PagesDownload.orThen.
  eapply DownloadMore.always_bind; [exact Ha|].
  intros [r|] Hr; [now apply DownloadMore.always_ret | exact Hrest].
Qed.

Lemma caught_sent (m : Axios.M World (option (Res.t Payload))) :
  DownloadMore.always sentOrNone m ->
  DownloadMore.always sentOrNone
    (Axios.tryCatch m (fun _ => Axios.ret None)).
Proof.
  intros H. apply DownloadMore.always_tryCatch; [exact H|].
  intros e. now apply DownloadMore.always_ret.
Qed.

Lemma viewOnlyPdf_sent (fileId : string)
  (fileMetadata : option (Axios.data Payload)) :
  DownloadMore.always sentOrNone
    (PagesDownload.viewOnlyPdf stream fileId fileMetadata).
Proof.
  unfold PagesDownload.viewOnlyPdf.
  repeat apply orElseTry_always; apply caught_sent;
    [apply pdfVersion_sent | apply pdfVersion_sent | apply embed_sent].
Qed.

Definition settled (r : Res.t Payload) : Prop :=
  sent r \/ r = PagesDownload.forbidden.

Definition settledOrNone (o : option (Res.t Payload)) : Prop :=
  match o with Some r => settled r | None => True end.

Lemma sentOrNone_settled (m : Axios.M World (option (Res.t Payload))) :
  DownloadMore.always sentOrNone m -> DownloadMore.always settledOrNone m.
Proof.
  apply DownloadMore.always_weaken. intros [r|] H; [now left | exact I].
Qed.

Lemma attempts_settled (fileId : string) (format : queryValue) :
  DownloadMore.always settled
    (PagesDownload.attempts transport stream fileId format).
Proof.
  unfold PagesDownload.attempts.
  eapply DownloadMore.always_bind; [apply always_any|].
  intros fileMetadata _.
  apply pages_orThen_always.
  { apply sentOrNone_settled.
    destruct (given _); [now apply DownloadMore.always_ret|].
    apply direct_sent. }
  apply pages_orThen_always.
  { apply sentOrNone_settled.
    match goal with |- DownloadMore.always _ (if ?b then _ else _) =>
      destruct b end;
      [apply export_sent | now apply DownloadMore.always_ret]. }
  apply pages_orThen_always.
  { apply sentOrNone_settled, alternative_sent. }
  apply pages_orThen_always.
  { apply sentOrNone_settled.
    match goal with |- DownloadMore.always _ (if ?b then _ else _) =>
      destruct b end;
      [apply viewOnlyPdf_sent | now apply DownloadMore.always_ret]. }
  apply DownloadMore.always_ret. now right.
Qed.

(** X13. Every run of the download handler of the pages router ends in
    one of four responses: the 400 error, sent before any upstream
    request, unless the file identifier is one non-empty string;
    otherwise a stream piped with status 200 and a Content-Type, the 403
    error with its suggestion, or the 500 error.  The handler never
    throws. *)
Theorem handler_outcomes (req : PagesDownload.query) (w : World) :
  exists r w',
    PagesDownload.handler transport stream req w = (Axios.Value r, w')
    /\ ((required (PagesDownload.fileId req) = None
         /\ r = missingId /\ w' = w)
        \/ (exists fileId,
              required (PagesDownload.fileId req) = Some fileId
              /\ (sent r \/ r = PagesDownload.forbidden \/ r = failed))).
Proof.
  unfold PagesDownload.handler.
  destruct (required (PagesDownload.fileId req)) as [fileId|].
  - pose proof (attempts_settled fileId (PagesDownload.format req) w) as H.
    unfold Axios.tryCatch.
    destruct (PagesDownload.attempts transport stream fileId
                (PagesDownload.format req) w) as [[r|e] w'];
      cbn [fst] in H.
    + exists r, w'. split; [reflexivity|]. right. exists fileId.
      split; [reflexivity|]. destruct H as [H|H]; [now left | right; now left].
    + exists failed, w'. split; [reflexivity|]. right. exists fileId.
      split; [reflexivity|]. right. now right.
  - exists missingId, w. split; [reflexivity|]. left. now repeat split.
Qed.

Lemma handler_returns (P : Res.t Payload -> Prop)
  (req : PagesDownload.query) (fileId : string) (w : World) :
  required (PagesDownload.fileId req) = Some fileId ->
  returns P
    (PagesDownload.attempts transport stream fileId
       (PagesDownload.format req)) ->
  exists r w',
    PagesDownload.handler transport stream req w = (Axios.Value r, w')
    /\ P r.
Proof.
  intros Hid H. unfold PagesDownload.handler. rewrite Hid.
  destruct (H w) as (r & w' & E & Hr).
  exists r, w'. split; [now apply tryCatch_value | exact Hr].
Qed.

Lemma orElseTry_returns (P : option (Res.t Payload) -> Prop)
  (a b : Axios.M World (option (Res.t Payload))) :
  returns (fun o => match o with Some _ => P o | None => True end) a ->
  returns P b ->
  returns P (PagesDownload.orElseTry a b).
Proof.
  intros Ha Hb. unfold PagesDownload.orElseTry.
  eapply returns_bind; [exact Ha|].
  intros [r|] Hr; [now apply returns_ret | exact Hb].
Qed.

Lemma pages_orThen_returns (P : Res.t Payload -> Prop)
  (a : Axios.M World (option (Res.t Payload)))
  (rest : Axios.M World (Res.t Payload)) :
  returns (fun o => match o with Some r => P r | None => True end) a ->
  returns P rest ->
  returns P (PagesDownload.orThen a rest).
Proof.
  intros Ha Hrest. unfold PagesDownload.orThen.
  eapply returns_bind; [exact Ha|].
  intros [r|] Hr; [now apply returns_ret | exact Hrest].
Qed.

Lemma caught_returns (P : option (Res.t Payload) -> Prop)
  (m : Axios.M World (option (Res.t Payload))) :
  P None -> DownloadMore.always P m ->
  returns P (Axios.tryCatch m (fun _ => Axios.ret None)).
Proof.
  intros Hn H. apply returns_caught; [exact H|].
  intros e. now apply returns_ret.
Qed.

Lemma metadata_unfailing (fileId : string) :
  returns (fun _ => True) (PagesDownload.metadata transport fileId).
Proof.
  unfold PagesDownload.metadata. apply returns_caught; [apply always_any|].
  intros e. now apply returns_ret.
Qed.

(** *** Worlds in which every stream request is answered *)

(** No name and no content type the network reports holds a control
    character. *)
Definition safeName (fileMetadata : option (Axios.data Payload)) : Prop :=
  forall name,
    PagesDownload.nameOf fileMetadata = Some name -> Res.isValue name = true.

Definition safeType (r : Stream.response Payload) : Prop :=
  forall contentType,
    Stream.contentType r = Some contentType ->
    Res.isValue contentType = true.

Section Answered.
Hypothesis answered :
  forall w url o, exists r w', stream w url o = (Stream.Opened r, w').
Hypothesis safeTypes :
  forall w url o r w', stream w url o = (Stream.Opened r, w') -> safeType r.
Hypothesis safeNames :
  forall w url o r w' file name,
    transport w url o = (Axios.Answer r, w') ->
    Axios.body r = Axios.Object file ->
    Axios.name file = Some name ->
    Res.isValue name = true.

Lemma stream_returns (url : string) (o : Stream.options) :
  returns safeType (Stream.get stream url o).
Proof.
  intros w. unfold Stream.get.
  destruct (answered w url o) as (r & w' & E). rewrite E.
  exists r, w'. split; [reflexivity|]. exact (safeTypes _ _ _ _ _ E).
Qed.

Lemma get_origin (url : string) (o : Axios.options) (v : N -> bool) :
  DownloadMore.always
    (fun r => exists w w', transport w url o = (Axios.Answer r, w'))
    (Axios.get transport url o v).
Proof.
  intros w. unfold Axios.get.
  destruct (transport w url o) as [[r|m] w'] eqn:E; [|exact I].
  destruct (v (Axios.status r)); cbn [fst]; [|exact I].
  now exists w, w'.
Qed.

Lemma metadata_returns (fileId : string) :
  returns safeName (PagesDownload.metadata transport fileId).
Proof.
  unfold PagesDownload.metadata. apply returns_caught.
  - eapply DownloadMore.always_bind; [apply get_origin|].
    intros r (w0 & w1 & Hr).
    repeat match goal with
           | |- DownloadMore.always _ (if ?b then _ else _) => destruct b
           end; apply DownloadMore.always_ret; intros name Hn.
    + unfold PagesDownload.nameOf in Hn.
      destruct (Axios.body r) as [| |file|] eqn:Hb; try discriminate Hn.
      exact (safeNames _ _ _ _ _ _ _ Hr Hb Hn).
    + injection Hn as <-. reflexivity.
    + discriminate Hn.
  - intros e. apply returns_ret. intros name Hn.
    injection Hn as <-. reflexivity.
Qed.

Lemma name_value (fileMetadata : option (Axios.data Payload))
  (d : string) :
  safeName fileMetadata -> Res.isValue d = true ->
  Res.isValue (JsString.orElse (PagesDownload.nameOf fileMetadata) d) = true.
Proof. intros H Hd. now apply orElse_value. Qed.

Lemma direct_returns (fileId : string)
  (fileMetadata : option (Axios.data Payload)) :
  safeName fileMetadata ->
  returns sentOrNone (PagesDownload.direct stream fileId fileMetadata).
Proof.
  intros Hn. unfold PagesDownload.direct.
  eapply returns_bind; [apply stream_returns|]. intros r Hr.
  match goal with |- returns _ (if ?b then _ else _) => destruct b end;
    [|now apply returns_ret].
  apply pipe_returns; [|now eexists].
  cbn [forallb snd]. rewrite orElse_value by (trivial; exact Hr).
  now rewrite attachment_value by now apply name_value.
Qed.

Lemma alternative_returns (fileId : string)
  (fileMetadata : option (Axios.data Payload)) :
  safeName fileMetadata ->
  returns sentOrNone (PagesDownload.alternative stream fileId fileMetadata).
Proof.
  intros Hn. unfold PagesDownload.alternative.
  eapply returns_bind; [apply stream_returns|]. intros r Hr.
  match goal with |- returns _ (if ?b then _ else _) => destruct b end;
    [|now apply returns_ret].
  apply pipe_returns; [|now eexists].
  cbn [forallb snd]. rewrite orElse_value by (trivial; exact Hr).
  now rewrite attachment_value by now apply name_value.
Qed.

Lemma export_returns (fileId : string)
  (fileMetadata : option (Axios.data Payload))
  (exportFormat : option string) :
  safeName fileMetadata ->
  (forall f, exportFormat = Some f -> Res.isValue f = true) ->
  returns sentOrNone
    (PagesDownload.export stream fileId fileMetadata exportFormat).
Proof.
  intros Hn Hf. unfold PagesDownload.export.
  eapply returns_bind; [apply stream_returns|]. intros r Hr.
  match goal with |- returns _ (if ?b then _ else _) => destruct b end;
    [|now apply returns_ret].
  apply pipe_returns; [|now eexists].
  cbn [forallb snd]. rewrite label_value.
  rewrite attachment_value; [reflexivity|].
  rewrite !isValue_app, name_value by trivial.
  now rewrite orElse_value by (trivial; apply default_value).
Qed.

Lemma viewOnlyPdf_returns (fileId : string)
  (fileMetadata : option (Axios.data Payload)) :
  returns sentOrNone (PagesDownload.viewOnlyPdf stream fileId fileMetadata).
Proof.
  unfold PagesDownload.viewOnlyPdf.
  assert (Hw : forall m : Axios.M World (option (Res.t Payload)),
             returns sentOrNone m ->
             returns
               (fun o => match o with
                         | Some _ => sentOrNone o
                         | None => True
                         end) m).
  { intros m Hm w. destruct (Hm w) as (o & w' & E & Ho).
    exists o, w'. split; [exact E|]. now destruct o. }
  repeat apply orElseTry_returns; try apply Hw;
    apply caught_returns; try exact I;
    [apply pdfVersion_sent | apply pdfVersion_sent | apply embed_sent].
Qed.

Lemma exportFormatOf_asked (format : queryValue)
  (isGoogleApps : option bool) (f : string) :
  PagesDownload.exportFormatOf format isGoogleApps = Some f ->
  format = One f.
Proof.
  unfold PagesDownload.exportFormatOf.
  destruct format as [|g|l]; try discriminate.
  destruct isGoogleApps as [[|]|]; try discriminate. congruence.
Qed.

Lemma sentOrNone_returns_settled
  (m : Axios.M World (option (Res.t Payload))) :
  returns sentOrNone m -> returns settledOrNone m.
Proof.
  intros Hm w. destruct (Hm w) as (o & w' & E & Ho).
  exists o, w'. split; [exact E|]. destruct o; [now left | exact I].
Qed.

Lemma attempts_returns (fileId : string) (format : queryValue) :
  (forall f, format = One f -> Res.isValue f = true) ->
  returns settled (PagesDownload.attempts transport stream fileId format).
Proof.
  intros Hformat. unfold PagesDownload.attempts.
  eapply returns_bind; [apply metadata_returns|].
  intros fileMetadata Hn.
  apply pages_orThen_returns.
  { apply sentOrNone_returns_settled.
    destruct (given _); [now apply returns_ret|].
    now apply direct_returns. }
  apply pages_orThen_returns.
  { apply sentOrNone_returns_settled.
    match goal with |- returns _ (if ?b then _ else _) => destruct b end;
      [|now apply returns_ret].
    apply export_returns; [exact Hn|].
    intros f Hf. apply Hformat. exact (exportFormatOf_asked _ _ _ Hf). }
  apply pages_orThen_returns.
  { apply sentOrNone_returns_settled. now apply alternative_returns. }
  apply pages_orThen_returns.
  { apply sentOrNone_returns_settled.
    match goal with |- returns _ (if ?b then _ else _) => destruct b end;
      [apply viewOnlyPdf_returns | now apply returns_ret]. }
  apply returns_ret. now right.
Qed.


End Answered.

(** *** Worlds in which no stream request succeeds *)

Section Refused.
Hypothesis refused :
  forall w url o,
    exists r w',
      stream w url o = (Stream.Opened r, w') /\ Stream.status r <> 200%N.

Lemma stream_refused (url : string) (o : Stream.options) :
  returns (fun r => (Stream.status r =? 200)%N = false)
    (Stream.get stream url o).
Proof.
  intros w. unfold Stream.get.
  destruct (refused w url o) as (r & w' & E & H). rewrite E.
  exists r, w'. split; [reflexivity | now apply N.eqb_neq].
Qed.

Ltac falls_through :=
  eapply returns_bind; [apply stream_refused|];
  intros r Hr; cbv beta; rewrite Hr; cbn [andb];
  now apply returns_ret.

Lemma orElseTry_none (a b : Axios.M World (option (Res.t Payload))) :
  returns (fun o => o = None) a ->
  returns (fun o => o = None) b ->
  returns (fun o => o = None) (PagesDownload.orElseTry a b).
Proof.
  intros Ha Hb. unfold PagesDownload.orElseTry.
  eapply returns_bind; [exact Ha|].
  now intros o ->.
Qed.

Lemma pages_orThen_none (P : Res.t Payload -> Prop)
  (a : Axios.M World (option (Res.t Payload)))
  (rest : Axios.M World (Res.t Payload)) :
  returns (fun o => o = None) a ->
  returns P rest ->
  returns P (PagesDownload.orThen a rest).
Proof.
  intros Ha Hrest. unfold PagesDownload.orThen.
  eapply returns_bind; [exact Ha|].
  now intros o ->.
Qed.

Lemma caught_none (m : Axios.M World (option (Res.t Payload))) :
  returns (fun o => o = None) m ->
  returns (fun o => o = None)
    (Axios.tryCatch m (fun _ => Axios.ret None)).
Proof.
  intros H. apply returns_caught; [now apply returns_always|].
  intros e. now apply returns_ret.
Qed.

Lemma attempts_refused (fileId : string) (format : queryValue) :
  returns (fun r => r = PagesDownload.forbidden)
    (PagesDownload.attempts transport stream fileId format).
Proof.
  unfold PagesDownload.attempts.
  eapply returns_bind; [apply metadata_unfailing|].
  intros fileMetadata _.
  apply pages_orThen_none.
  { destruct (given _); [now apply returns_ret|].
    unfold PagesDownload.direct. falls_through. }
  apply pages_orThen_none.
  { match goal with |- returns _ (if ?b then _ else _) => destruct b end;
      [|now apply returns_ret].
    unfold PagesDownload.export. falls_through. }
  apply pages_orThen_none.
  { unfold PagesDownload.alternative. falls_through. }
  apply pages_orThen_none; [|now apply returns_ret].
  match goal with |- returns _ (if ?b then _ else _) => destruct b end;
    [|now apply returns_ret].
  unfold PagesDownload.viewOnlyPdf.
  repeat apply orElseTry_none; apply caught_none.
  - unfold PagesDownload.pdfVersion. falls_through.
  - unfold PagesDownload.pdfVersion. falls_through.
  - unfold PagesDownload.embed. falls_through.
Qed.

(** X15. Where every stream request is answered with a status other than
    200, a request with a file identifier ends in the 403 error with its
    suggestion, whatever the metadata request gave and whatever format
    was asked for. *)
Theorem refused_requests_are_forbidden (req : PagesDownload.query)
  (fileId : string) (w : World) :
  required (PagesDownload.fileId req) = Some fileId ->
  exists w',
    PagesDownload.handler transport stream req w
    = (Axios.Value PagesDownload.forbidden, w').
Proof.
  intros Hid.
  destruct (handler_returns (fun r => r = PagesDownload.forbidden)
              req fileId w Hid (attempts_refused fileId _))
    as (r & w' & E & ->).
  now exists w'.
Qed.

End Refused.

Lemma exportFormatOf_other (format : queryValue)
  (isGoogleApps : option bool) :
  PagesDownload.holds isGoogleApps = false ->
  PagesDownload.exportFormatOf format isGoogleApps = None.
Proof.
  intros H. unfold PagesDownload.exportFormatOf.
  destruct format; try reflexivity.
  destruct isGoogleApps as [[|]|]; [discriminate H | reflexivity..].
Qed.

(** X16. The format parameter changes nothing unless the metadata says
    the file is a Google Apps file: when the MIME type read from the
    metadata does not start with application/vnd.google-apps (or there is
    none), the handler makes the same requests and gives the same
    response as without the parameter. *)
Theorem format_only_for_google_apps (req : PagesDownload.query)
  (fileId : string) (w : World) :
  required (PagesDownload.fileId req) = Some fileId ->
  (forall fileMetadata w',
      PagesDownload.metadata transport fileId w
      = (Axios.Value fileMetadata, w') ->
      PagesDownload.holds
        (option_map
           (fun m => JsString.startsWith m "application/vnd.google-apps")
           (PagesDownload.mimeTypeOf fileMetadata)) = false) ->
  PagesDownload.handler transport stream req w
  = PagesDownload.handler transport stream
      {| PagesDownload.fileId := PagesDownload.fileId req;
         PagesDownload.format := Missing |} w.
Proof.
  intros Hid H. unfold PagesDownload.handler.
  cbn [PagesDownload.fileId PagesDownload.format]. rewrite Hid.
  unfold Axios.tryCatch.
  replace (PagesDownload.attempts transport stream fileId
             (PagesDownload.format req) w)
    with (PagesDownload.attempts transport stream fileId Missing w);
    [reflexivity|].
  unfold PagesDownload.attempts, Axios.bind.
  destruct (PagesDownload.metadata transport fileId w)
    as [[fileMetadata|e] w'] eqn:E; [|reflexivity].
  specialize (H _ _ eq_refl). cbv zeta.
  now rewrite (exportFormatOf_other (PagesDownload.format req) _ H),
    (exportFormatOf_other Missing _ H).
Qed.

End Facts.

(** Two small worlds: the metadata request fails at the network; every
    stream request is answered 404, or answered 200 with a PDF. *)
Definition offline (w : unit) (url : string) (o : Axios.options)
  : Axios.reply unit * unit :=
  (Axios.Failure "offline", w).

Definition missing (w : unit) (url : string) (o : Stream.options)
  : Stream.reply unit * unit :=
  (Stream.Opened
     {| Stream.status := 404; Stream.contentType := None;
        Stream.data := tt |}, w).

Definition serving (w : unit) (url : string) (o : Stream.options)
  : Stream.reply unit * unit :=
  (Stream.Opened
     {| Stream.status := 200; Stream.contentType := Some "application/pdf";
        Stream.data := tt |}, w).

Definition ask (fileId : string) (format : queryValue)
  : PagesDownload.query :=
  {| PagesDownload.fileId := One fileId; PagesDownload.format := format |}.

(** The metadata request is answered with the name and the MIME type of
    a Google document. *)
Definition catalog (name : string) (w : unit) (url : string)
  (o : Axios.options) : Axios.reply unit * unit :=
  (Axios.Answer
     {| Axios.status := 200; Axios.contentType := Some "application/json";
        Axios.body :=
          Axios.Object
            {| Axios.name := Some name;
               Axios.mimeType := Some "application/vnd.google-apps.document";
               Axios.size := None;
               Axios.canDownload := None |} |}, w).


(** The same request for a file whose name holds a line feed: the export
    is answered 200, the Content-Disposition is refused, and the handler
    answers 500. *)
Example line_feed_name_fails :
  PagesDownload.handler (catalog (String "a" (String "010" "b"))) serving
    (ask "abc" (One "docx")) tt
  = (Axios.Value failed, tt).
Proof. vm_compute. reflexivity. Qed.

Lemma refused_requests_are_forbidden_witness :
  exists w',
    PagesDownload.handler offline missing (ask "abc" (One "pdf")) tt
    = (Axios.Value PagesDownload.forbidden, w').
Proof.
  apply (refused_requests_are_forbidden offline missing)
    with (fileId := "abc").
  - intros w url o. eexists _, _. split; [reflexivity|]. discriminate.
  - reflexivity.
Defined.

Lemma format_only_for_google_apps_witness :
  PagesDownload.handler offline serving (ask "abc" (One "docx")) tt
  = PagesDownload.handler offline serving (ask "abc" Missing) tt.
Proof.
  apply (format_only_for_google_apps offline serving (ask "abc" (One "docx"))
           "abc" tt).
  - reflexivity.
  - intros fileMetadata w' H. injection H as <- _. reflexivity.
Defined.

End PagesDownloadFacts.

(* ===================================================================== *)
(** ** More facts about the file-info route                               *)
(* ===================================================================== *)

Module FileInfoMore.
Import StringFacts RegexFacts IncludesFacts AxiosFacts FileInfoFacts.

(** A literal matches where it is a prefix. *)
Lemma dropPrefix_prefix (l s : string) :
  String.prefix l s = false -> dropPrefix l s = None.
Proof.
  revert s. induction l as [|a l IH]; intros s H.
  - now rewrite prefix_nil in H.
  - destruct s as [|b s]; [reflexivity|].
    rewrite prefix_cons in H. cbn [dropPrefix].
    destruct (Ascii.eqb a b); [apply IH; exact H | reflexivity].
Qed.

(** Whether [l] starts a string depends on no more than its first
    [length l] code units. *)
Lemma prefix_take (l x : string) (n : nat) :
  String.length l <= n ->
  String.prefix l x = String.prefix l (JsString.take n x).
Proof.
  revert x n. induction l as [|a l IH]; intros x n H.
  - now rewrite !prefix_nil.
  - destruct x as [|b x]; [now destruct n|].
    destruct n as [|n]; [cbn [String.length] in H; lia|].
    change (JsString.take (S n) (String b x))
      with (String b (JsString.take n x)).
    rewrite !prefix_cons. f_equal. apply IH.
    cbn [String.length] in H. lia.
Qed.

Lemma prefix_app_take (l s x : string) (n : nat) :
  String.length l <= String.length s + n ->
  String.prefix l (s ++ x) = String.prefix l (s ++ JsString.take n x).
Proof.
  revert s. induction l as [|a l IH]; intros s H.
  - now rewrite !prefix_nil.
  - destruct s as [|b s].
    + cbn [append]. apply prefix_take. exact H.
    + cbn [append]. rewrite !prefix_cons. f_equal. apply IH.
      cbn [String.length] in H. lia.
Qed.

(** Before the first occurrence of a literal, a pattern that starts with
    it matches nowhere. *)
Lemma lit_fails_through (l : string) (r : regex) (pre R : string) :
  JsString.includes
    (pre ++ JsString.take (String.length l - 1) (l ++ R)) l = false ->
  failsThrough (Lit l :: r) pre (l ++ R).
Proof.
  induction pre as [|x pre IH]; intros H; [exact I|].
  change (String x pre ++ ?y) with (String x (pre ++ y)) in H.
  rewrite includes_cons in H. apply orb_false_elim in H as [Hx Hpre].
  split; [|exact (IH Hpre)].
  cbn [run]. rewrite dropPrefix_prefix; [reflexivity|].
  change (String x (pre ++ l ++ R)) with (String x pre ++ l ++ R).
  rewrite (prefix_app_take l (String x pre) (l ++ R) (String.length l - 1)).
  - exact Hx.
  - cbn [String.length]. lia.
Qed.

(** A lazy repetition runs over text on which the rest of the pattern
    cannot start. *)
Lemma lazy_through {A} (k : cset) (q : ascii -> bool)
  (cont : string -> option A) (t s : string) :
  (forall c y, q c = true -> cont (String c y) = None) ->
  JsString.all (fun c => mem k c && q c) t = true ->
  lazy k cont (t ++ s) = lazy k cont s.
Proof.
  intros Hq. induction t as [|c t IH]; intros H; [reflexivity|].
  cbn [JsString.all] in H. apply andb_true_iff in H as [Hc Ht].
  apply andb_true_iff in Hc as [Hk Hc].
  cbn [append lazy]. now rewrite (Hq _ _ Hc), Hk, IH.
Qed.

Lemma lazy_here {A} (k : cset) (cont : string -> option A) (s : string)
  (r : A) :
  cont s = Some r -> lazy k cont s = Some r.
Proof. intros H. destruct s; cbn [lazy]; now rewrite H. Qed.

(** A code unit a title can hold: no line terminator and no [<]. *)
Definition titleChar (c : ascii) : bool :=
  mem Dot c && negb (Ascii.eqb c "<").

Definition suffix : string := " - Google Drive".

Lemma run_title (T post : string) (cap : option string) (o : string) :
  JsString.all titleChar T = true ->
  run FileInfo.re_title o cap ("<title>" ++ T ++ "</title>" ++ post)
  = Some (Some T, post).
Proof.
  intros HT. unfold FileInfo.re_title.
  cbn [run]. rewrite dropPrefix_app. cbn [run].
  rewrite (lazy_through Dot (fun c => negb (Ascii.eqb c "<")) _ T).
  - erewrite lazy_here; [reflexivity|].
    cbn [run]. rewrite dropPrefix_app. now rewrite between_app.
  - intros c y Hc. cbn [run dropPrefix].
    apply negb_true_iff in Hc. rewrite Ascii.eqb_sym in Hc.
    now rewrite Hc.
  - exact HT.
Qed.

Lemma search_title (pre T post : string) :
  JsString.includes (pre ++ "<title") "<title>" = false ->
  JsString.all titleChar T = true ->
  captured
    (jsMatch (pre ++ "<title>" ++ T ++ "</title>" ++ post) FileInfo.re_title)
  = given (Some T).
Proof.
  intros Hpre HT. unfold jsMatch, FileInfo.re_title.
  rewrite (search_skip _ pre ("<title>" ++ T ++ "</title>" ++ post)).
  - erewrite search_here; [|apply (run_title T post None _ HT)].
    reflexivity.
  - apply (lit_fails_through "<title>"). exact Hpre.
Qed.

Lemma remove_suffix (title : string) :
  JsString.includes (title ++ " - Google Driv") suffix = false ->
  replace (title ++ suffix) [Lit suffix] EmptyString = title.
Proof.
  intros H. unfold replace, jsMatch.
  rewrite (search_skip [Lit suffix] title suffix).
  - erewrite search_here; [|reflexivity].
    cbn [index rest]. rewrite Nat.add_0_r, take_app.
    now rewrite app_nil_r.
  - apply (lit_fails_through suffix [] title EmptyString). exact H.
Qed.

Section Facts.
Context {Payload World : Type}.
Variable transport :
  World -> string -> Axios.options -> Axios.reply Payload * World.

(** X17. When the metadata request is answered with a status other than
    200 and the view page is answered with a string whose first title
    element holds a title followed by [ - Google Drive], the route
    reports the file under that title: the text before the element and
    after it, the status of the page and the identifier do not matter.
    The title holds no line terminator and no [<], and the suffix does
    not occur earlier in it. *)
Theorem fallback_reads_title (w w1 w2 : World) (fileId : option string)
  (id pre title post : string) (r rv : Axios.response Payload) :
  given fileId = Some id ->
  transport w (infoUrl id) infoOptions = (Axios.Answer r, w1) ->
  Axios.status r <> 200%N ->
  transport w1 (viewUrl id) viewOptions = (Axios.Answer rv, w2) ->
  Axios.body rv
  = Axios.Text (pre ++ "<title>" ++ (title ++ " - Google Drive")
                ++ "</title>" ++ post) ->
  JsString.includes (pre ++ "<title") "<title>" = false ->
  JsString.all titleChar title = true ->
  JsString.includes (title ++ " - Google Driv") " - Google Drive" = false ->
  exists m,
    FileInfo.GET transport fileId w
    = (Axios.Value (FileInfo.jsonResponse 200 (Response.Info m)), w2)
    /\ Response.name m = Some title.
Proof.
  intros Hid H Hs Hv Hbody Hpre Htitle Hsuffix.
  unfold FileInfo.GET. rewrite Hid.
  eexists. split.
  - apply tryCatch_value.
    rewrite (bind_value _ _ w w1 r) by now apply get_answer.
    apply N.eqb_neq in Hs. rewrite Hs. cbn [negb].
    apply tryCatch_value. unfold FileInfo.fallback.
    rewrite (bind_value _ _ w1 w2 rv) by now apply get_answer.
    reflexivity.
  - cbn [Response.name]. f_equal. rewrite Hbody.
    cbn [FileInfo.page].
    match goal with
    | |- context [JsString.truthy ?html] =>
        replace (JsString.truthy html) with true by now destruct pre
    end.
    rewrite search_title; [|exact Hpre|].
    + cbn [given]. destruct title; [reflexivity|].
      cbn [append JsString.truthy]. now apply (remove_suffix (String _ _)).
    + rewrite all_app, Htitle. reflexivity.
Qed.

End Facts.

Lemma fallback_reads_title_witness :
  exists m,
    FileInfo.GET (Scenario.serve viewOnlyPdfSite) (Some "abc") []
    = (Axios.Value (FileInfo.jsonResponse 200 (Response.Info m)),
       [infoUrl "abc"; viewUrl "abc"])
    /\ Response.name m = Some "paper.pdf".
Proof.
  apply (fallback_reads_title (Scenario.serve viewOnlyPdfSite)
           [] [infoUrl "abc"] [infoUrl "abc"; viewUrl "abc"]
           (Some "abc") "abc" "<html><head>" "paper.pdf"
           "</head><script src=pdf.js></script></html>"
           {| Axios.status := 403;
              Axios.contentType := Some "application/json";
              Axios.body := Axios.Absent |}
           viewPage);
    try reflexivity.
  discriminate.
Defined.

End FileInfoMore.

(* ===================================================================== *)
(** ** The status of the file-info route                                  *)
(* ===================================================================== *)

Module FileInfoStatus.
Import AxiosFacts FileInfoFacts.

Section Facts.
Context {Payload World : Type}.
Variable transport :
  World -> string -> Axios.options -> Axios.reply Payload * World.

(** The status the route answers with, read off the answers to its one
    or two requests. *)
Definition statusAfter (id : string) (w : World) : N :=
  match transport w (infoUrl id) infoOptions with
  | (Axios.Failure _, _) => 500
  | (Axios.Answer r, w1) =>
      if (Axios.status r =? 200)%N
      then match Axios.body r with
           | Axios.Absent => 500
           | _ => 200
           end
      else match transport w1 (viewUrl id) viewOptions with
           | (Axios.Failure _, _) => 404
           | (Axios.Answer _, _) => 200
           end
  end.

(** X18. The file-info route never throws, and with a file identifier
    its status is 500 exactly when the metadata request fails at the
    network or is answered 200 without a body, 404 exactly when the
    metadata request is answered with another status and the request
    for the view page fails at the network, and 200 otherwise: whatever
    status the view page itself is answered with.  A 404 carries the
    status of the metadata answer, and every error its message. *)
Theorem GET_status (fileId : option string) (id : string) (w : World) :
  given fileId = Some id ->
  exists response w',
    FileInfo.GET transport fileId w = (Axios.Value response, w')
    /\ Response.status response = statusAfter id w
    /\ (Response.status response = 500%N ->
        Response.content response
        = Response.Error "Failed to get file information" None None)
    /\ (Response.status response = 404%N ->
        exists r w1,
          transport w (infoUrl id) infoOptions = (Axios.Answer r, w1)
          /\ Response.content response
             = Response.Error "File not found or not accessible" None
                 (Some (Axios.status r)))
    /\ (Response.status response = 200%N ->
        exists m, Response.content response = Response.Info m
                  /\ Response.id m = id).
Proof.
  intros Hid. unfold FileInfo.GET, statusAfter. rewrite Hid.
  fold (infoUrl id). fold infoOptions.
  unfold Axios.tryCatch at 1. unfold Axios.bind at 1. unfold Axios.get at 1.
  destruct (transport w (infoUrl id) infoOptions) as [[r|m] w1] eqn:E.
  - destruct (Axios.status r =? 200)%N eqn:Hs; cbn [negb].
    + unfold Axios.bind, Axios.fileOf.
      destruct (Axios.body r); cbn;
        (eexists _, _; split; [reflexivity|]; split; [reflexivity|]);
        cbn; (split; [|split]); intros H; try discriminate H;
        try reflexivity; eexists; split; reflexivity.
    + unfold Axios.tryCatch, FileInfo.fallback, Axios.bind, Axios.get.
      fold (viewUrl id). fold viewOptions.
      destruct (transport w1 (viewUrl id) viewOptions) as [[rv|mv] w2];
        cbn;
        (eexists _, _; split; [reflexivity|]; split; [reflexivity|]);
        cbn; (split; [|split]); intros H; try discriminate H.
      * eexists; split; reflexivity.
      * exists r, w1. split; reflexivity.
  - cbn. eexists _, _. split; [reflexivity|]. split; [reflexivity|].
    cbn. (split; [|split]); intros H; try discriminate H. reflexivity.
Qed.

End Facts.

Lemma GET_status_witness :
  exists response w',
    FileInfo.GET (Scenario.serve viewOnlyPdfSite) (Some "abc") []
    = (Axios.Value response, w')
    /\ Response.status response
       = statusAfter (Scenario.serve viewOnlyPdfSite) "abc" [].
Proof.
  destruct (GET_status (Scenario.serve viewOnlyPdfSite) (Some "abc") "abc" []
              eq_refl) as (response & w' & H & Hs & _).
  now exists response, w'.
Defined.

End FileInfoStatus.

(* ===================================================================== *)
(** ** pages/api/file-info.ts                                             *)
(* ===================================================================== *)

Module PagesInfo.

(** An entry of [data.permissions]. *)
Record permission := {
  role : option string;
  type : option string
}.

(** The fields the handler reads from the JSON object of the Drive API. *)
Record driveFile := {
  name : option string;
  mimeType : option string;
  size : option string;
  canDownload : option bool;               (* capabilities?.canDownload *)
  permissions : option (list permission)
}.

(** [response.data] *)
Inductive data :=
| Absent                         (* null or undefined *)
| Text (s : string)              (* a string body *)
| Object (o : driveFile).        (* a parsed JSON object *)

Record response := {
  status : N;
  body : data
}.

Inductive reply :=
| Answer (r : response)
| Failure (message : string).

(** The export options of the Google Apps types. *)
Definition exportTable : list (string * list string) :=
  [ ("application/vnd.google-apps.document", ["pdf"; "docx"]);
    ("application/vnd.google-apps.spreadsheet", ["pdf"; "xlsx"]);
    ("application/vnd.google-apps.presentation", ["pdf"; "pptx"]) ].

Fixpoint entry (t : list (string * list string)) (k : string)
  : option (list string) :=
  match t with
  | [] => None
  | (k', v) :: t' => if String.eqb k k' then Some v else entry t' k
  end.

(** [t[k]] where the key may be [undefined], which no entry has. *)
Definition entryOf (t : list (string * list string)) (k : option string)
  : option (list string) :=
  match k with
  | Some k' => entry t k'
  | None => None
  end.

(** [(p) => p.role !== "owner" && p.type === "anyone"] *)
Definition open (p : permission) : bool :=
  negb (match role p with Some r => String.eqb r "owner" | None => false end)
  && match type p with Some t => String.eqb t "anyone" | None => false end.

Section Handler.
Context {Payload World : Type}.
Variable transport : World -> string -> reply * World.

Local Open Scope js_scope.

(** [await axios.get(url, { headers: {}, validateStatus: () => true })] *)
Definition get (url : string) : Axios.M World response :=
  fun w =>
    match transport w url with
    | (Answer r, w') => (Axios.Value r, w')
    | (Failure m, w') => (Axios.Thrown (Axios.NetworkError m), w')
    end.

(** The fields of [data], read with [data.mimeType] first. *)
Definition fileOf (d : data) : Axios.M World driveFile :=
  match d with
  | Absent =>
      Axios.throw
        (Axios.TypeError
           "Cannot read properties of null (reading 'mimeType')")
  | Object o => Axios.ret o
  | Text _ =>
      Axios.ret {| name := None; mimeType := None; size := None;
                   canDownload := None; permissions := None |}
  end.

Definition describe (fileId : string) (data : driveFile) : Res.t Payload :=
  let isGoogleApps :=
    option_map
      (fun m => JsString.startsWith m "application/vnd.google-apps")
      (mimeType data) in
  let canDownload :=
    match canDownload data with Some b => b | None => false end in
  let isPublic :=
    match permissions data with
    | Some ps => existsb open ps
    | None => false
    end in
  {| Res.status := 200;
     Res.headers := [];
     Res.body :=
       Res.Info
         {| Res.id := fileId;
            Res.name := name data;
            Res.mimeType := mimeType data;
            Res.size := size data;
            Res.canDownload := canDownload;
            Res.isGoogleApps := isGoogleApps;
            Res.isPublic := isPublic;
            Res.exportOptions :=
              match isGoogleApps with
              | Some true =>
                  match entryOf exportTable (mimeType data) with
                  | Some options => Some options
                  | None => Some ["pdf"]
                  end
              | _ => None
              end |} |}.

Definition handler (fileId : queryValue) : Axios.M World (Res.t Payload) :=
  match required fileId with
  | None =>
      Axios.ret (Res.json 400 (Res.Error "File ID is required" None None))
  | Some fileId =>
      Axios.tryCatch
        ((* Try to get public file metadata using Google Drive API *)
         response <-
           get ("https://www.googleapis.com/drive/v3/files/" ++ fileId
                ++ "?fields=name,mimeType,size,capabilities,permissions") ;;
         if negb (status response =? 200)%N
         then
           Axios.ret
             (Res.json 404
                (Res.Error "File not found or not accessible" None
                   (Some (status response))))
         else
           data <- fileOf (body response) ;;
           Axios.ret (describe fileId data))
        (fun _ =>
           Axios.ret
             (Res.json 500
                (Res.Error "Failed to get file information" None None)))
  end.

End Handler.

End PagesInfo.

Module PagesInfoFacts.

Section Facts.
Context {Payload World : Type}.
Variable transport : World -> string -> PagesInfo.reply * World.

Definition infoUrl (fileId : string) : string :=
  "https://www.googleapis.com/drive/v3/files/" ++ fileId
  ++ "?fields=name,mimeType,size,capabilities,permissions".

Definition missingId : Res.t Payload :=
  Res.json 400 (Res.Error "File ID is required" None None).

Definition notFound (status : N) : Res.t Payload :=
  Res.json 404
    (Res.Error "File not found or not accessible" None (Some status)).

Definition failed : Res.t Payload :=
  Res.json 500 (Res.Error "Failed to get file information" None None).

(** X19. The file-info handler of the pages router never throws and
    makes exactly one upstream request when the file identifier is one
    non-empty string, none otherwise (the 400 error).  A network failure
    and a 200 answer without a body give the 500 error; an answer with
    any other status gives the 404 error carrying that status, with no
    second attempt on the view page; a 200 answer with a body gives a
    200 record for the identifier asked for. *)
Theorem info_handler_outcomes (fileId : queryValue) (w : World) :
  exists r w',
    PagesInfo.handler transport fileId w = (Axios.Value r, w')
    /\ ((required fileId = None /\ r = missingId /\ w' = w)
        \/ (exists id,
              required fileId = Some id
              /\ w' = snd (transport w (infoUrl id))
              /\ match fst (transport w (infoUrl id)) with
                 | PagesInfo.Failure _ => r = failed
                 | PagesInfo.Answer a =>
                     if (PagesInfo.status a =? 200)%N
                     then match PagesInfo.body a with
                          | PagesInfo.Absent => r = failed
                          | _ =>
                              Res.status r = 200%N
                              /\ exists m, Res.body r = Res.Info m
                                           /\ Res.id m = id
                          end
                     else r = notFound (PagesInfo.status a)
                 end)).
Proof.
  unfold PagesInfo.handler.
  destruct (required fileId) as [id|].
  - fold (infoUrl id).
    match goal with
    | |- exists r w', ?run = _ /\ _ =>
        assert (exists r w',
                   run = (Axios.Value r, w')
                   /\ w' = snd (transport w (infoUrl id))
                   /\ match fst (transport w (infoUrl id)) with
                      | PagesInfo.Failure _ => r = failed
                      | PagesInfo.Answer a =>
                          if (PagesInfo.status a =? 200)%N
                          then match PagesInfo.body a with
                               | PagesInfo.Absent => r = failed
                               | _ =>
                                   Res.status r = 200%N
                                   /\ exists m, Res.body r = Res.Info m
                                                /\ Res.id m = id
                               end
                          else r = notFound (PagesInfo.status a)
                      end) as (r & w' & H & Hw & Hr)
    end.
    { unfold Axios.tryCatch, Axios.bind, PagesInfo.get.
      destruct (transport w (infoUrl id)) as [[a|m] w1]; cbn [fst snd].
      - destruct (PagesInfo.status a =? 200)%N; cbn [negb].
        + destruct (PagesInfo.body a); cbn;
            (eexists _, _; split; [reflexivity|]; split; [reflexivity|]);
            try reflexivity; (split; [reflexivity|]); eexists;
            split; reflexivity.
        + cbn. eexists _, _. now repeat split.
      - cbn. eexists _, _. now repeat split. }
    exists r, w'. split; [exact H|]. right. exists id. now repeat split.
  - exists missingId, w. split; [reflexivity|]. left. now repeat split.
Qed.

Lemma describe_options (fileId : string) (data : PagesInfo.driveFile)
  (m : Res.fileInfo) :
  Res.body (PagesInfo.describe (Payload := Payload) fileId data)
  = Res.Info m ->
  (Res.exportOptions m = None <-> Res.isGoogleApps m <> Some true)
  /\ (forall options,
        Res.exportOptions m = Some options ->
        hd_error options = Some "pdf" /\ List.length options <= 2).
Proof.
  unfold PagesInfo.describe. cbn [Res.body]. intros H. injection H as <-.
  cbn [Res.exportOptions Res.isGoogleApps].
  destruct (option_map _ (PagesInfo.mimeType data)) as [[|]|].
  - split.
    + split; [|congruence].
      destruct (PagesInfo.entryOf _ _); discriminate.
    + intros options.
      destruct (PagesInfo.mimeType data) as [k|]; cbn.
      * repeat match goal with
               | |- context [String.eqb k ?x] => destruct (String.eqb k x)
               end; intros H; injection H as <-; cbn; split;
          (reflexivity || lia).
      * intros H; injection H as <-; cbn; split; (reflexivity || lia).
  - split; [split; [discriminate | reflexivity] | discriminate].
  - split; [split; [discriminate | reflexivity] | discriminate].
Qed.

(** X20. Every record the file-info handler of the pages router sends
    has export options exactly when it says the file is a Google Apps
    file, null otherwise; and the options, when there are some, start
    with pdf and are at most two. *)
Theorem info_handler_options (fileId : queryValue) (w w' : World)
  (r : Res.t Payload) (m : Res.fileInfo) :
  PagesInfo.handler transport fileId w = (Axios.Value r, w') ->
  Res.body r = Res.Info m ->
  (Res.exportOptions m = None <-> Res.isGoogleApps m <> Some true)
  /\ (forall options,
        Res.exportOptions m = Some options ->
        hd_error options = Some "pdf" /\ List.length options <= 2).
Proof.
  unfold PagesInfo.handler.
  destruct (required fileId) as [id|].
  - unfold Axios.tryCatch, Axios.bind, PagesInfo.get.
    destruct (transport w _) as [[a|msg] w1].
    + destruct (PagesInfo.status a =? 200)%N; cbn [negb].
      * destruct (PagesInfo.body a); cbn; intros H; injection H as <- _;
          try discriminate; apply describe_options.
      * cbn. intros H; injection H as <- _. discriminate.
    + cbn. intros H; injection H as <- _. discriminate.
  - cbn. intros H; injection H as <- _. discriminate.
Qed.

End Facts.

(** The Drive API describing a public spreadsheet. *)
Definition sheet : PagesInfo.driveFile :=
  {| PagesInfo.name := Some "Budget";
     PagesInfo.mimeType := Some "application/vnd.google-apps.spreadsheet";
     PagesInfo.size := None;
     PagesInfo.canDownload := Some true;
     PagesInfo.permissions :=
       Some [ {| PagesInfo.role := Some "owner";
                 PagesInfo.type := Some "user" |};
              {| PagesInfo.role := Some "reader";
                 PagesInfo.type := Some "anyone" |} ] |}.

Definition describing (w : unit) (url : string) : PagesInfo.reply * unit :=
  (PagesInfo.Answer
     {| PagesInfo.status := 200; PagesInfo.body := PagesInfo.Object sheet |},
   w).

Lemma info_handler_options_witness :
  exists m,
    Res.body (PagesInfo.describe (Payload := unit) "abc" sheet) = Res.Info m
    /\ Res.isPublic m = true
    /\ (Res.exportOptions m = None <-> Res.isGoogleApps m <> Some true)
    /\ (forall options,
          Res.exportOptions m = Some options ->
          hd_error options = Some "pdf" /\ List.length options <= 2).
Proof.
  eexists. split; [reflexivity|]. split; [reflexivity|].
  apply (info_handler_options (Payload := unit) describing (One "abc") tt tt
           (PagesInfo.describe "abc" sheet)); reflexivity.
Defined.

End PagesInfoFacts.

(* ===================================================================== *)
(** ** What the extractors return                                         *)
(* ===================================================================== *)

Module ExtractorMore.
Import StringFacts RegexFacts Extractor.

(** A repetition in front of a pattern that never fails takes the whole
    run. *)
Lemma greedy_max {A} (k : cset) (cont : string -> option A)
  (s : string) (r : A) :
  (forall y, cont y <> None) ->
  greedy k cont s = Some r ->
  exists xs y, s = xs ++ y /\ JsString.all (mem k) xs = true
               /\ stops k y = true /\ cont y = Some r.
Proof.
  intros Hc. induction s as [|c s IH]; cbn [greedy]; intros H.
  - exists EmptyString, EmptyString. auto.
  - destruct (mem k c) eqn:Hk.
    + destruct (greedy k cont s) as [r'|] eqn:E.
      * injection H as ->.
        destruct (IH eq_refl) as (xs & y & -> & Hxs & Hy & Hr).
        exists (String c xs), y. cbn [JsString.all append].
        rewrite Hk, Hxs. auto.
      * exfalso. exact (greedy_total k cont s Hc E).
    + exists EmptyString, (String c s). cbn [stops]. rewrite Hk. auto.
Qed.

(** The captured text runs up to a delimiter of [k] or the end. *)
Definition delimited (k : cset) (id post : string) : Prop :=
  JsString.all (mem k) id = true /\ stops k post = true.

Lemma run_link_max (l : string) (k : cset) (s o : string)
  (c cap : option string) (y : string) :
  run (linkPattern l k) o c s = Some (cap, y) ->
  exists id, cap = Some id /\ id <> EmptyString
             /\ s = l ++ id ++ y /\ delimited k id y.
Proof.
  unfold linkPattern. cbn [run].
  destruct (dropPrefix l s) as [s1|] eqn:E; [|discriminate].
  apply dropPrefix_inv in E. subst s.
  destruct s1 as [|x s1]; [discriminate|].
  destruct (mem k x) eqn:Hx; [|discriminate].
  intros H. apply greedy_max in H as (xs & z & -> & Hxs & Hst & Hz);
    [|discriminate].
  injection Hz as <- <-.
  exists (String x xs). rewrite between_cons_app.
  repeat split; [discriminate | | exact Hst].
  cbn [JsString.all]. now rewrite Hx, Hxs.
Qed.

(** Every match of the pattern captures a non-empty piece of the input
    that ends the match and runs up to a delimiter. *)
Definition delimiting (p : regex) : Prop :=
  forall s o c cap y,
    run p o c s = Some (cap, y) ->
    exists mid id,
      cap = Some id /\ id <> EmptyString /\ s = mid ++ id ++ y
      /\ (delimited (NoneOf "/?") id y \/ delimited (NoneOf "&") id y).

Lemma path_delimiting (l : string) :
  delimiting (linkPattern l (NoneOf "/?")).
Proof.
  intros s o c cap y H.
  apply run_link_max in H as (id & -> & Hne & -> & Hd).
  exists l, id. auto.
Qed.

Lemma query_delimiting (l : string) :
  delimiting (linkPattern l (NoneOf "&")).
Proof.
  intros s o c cap y H.
  apply run_link_max in H as (id & -> & Hne & -> & Hd).
  exists l, id. auto.
Qed.

Lemma docs_delimiting : delimiting pat_docs.
Proof.
  intros s o c cap y. unfold pat_docs. cbn [run].
  destruct (dropPrefix "docs.google.com/" s) as [s1|] eqn:E; [|discriminate].
  apply dropPrefix_inv in E. subst s.
  destruct s1 as [|x s1]; [discriminate|].
  destruct (mem Word x); [|discriminate].
  intros H. apply greedy_inv in H as (xs & z & -> & _ & Hz).
  apply (run_link_max "/d/" (NoneOf "/?") z o c cap y) in Hz
    as (id & -> & Hne & -> & Hd).
  exists ("docs.google.com/" ++ String x xs ++ "/d/"), id.
  repeat split; [exact Hne | | now left].
  now rewrite !app_assoc.
Qed.

Lemma patterns_delimiting : Forall delimiting patterns.
Proof.
  unfold patterns.
  repeat (apply Forall_cons;
          [ first [ exact docs_delimiting
                  | exact (path_delimiting _)
                  | exact (query_delimiting _) ] |]).
  apply Forall_nil.
Qed.

Lemma firstCapture_delimited (ps : list regex) (url id : string) :
  Forall delimiting ps ->
  firstCapture ps url = Some id ->
  id <> EmptyString
  /\ exists pre post,
       url = pre ++ id ++ post
       /\ (delimited (NoneOf "/?") id post \/ delimited (NoneOf "&") id post).
Proof.
  intros Hps H. apply HelperFacts.firstCapture_some in H as (p & Hp & Hc).
  pose proof (proj1 (Forall_forall _ _) Hps p Hp) as Hd.
  unfold jsMatch, captured in Hc.
  destruct (search p 0 url) as [m|] eqn:E; [|discriminate].
  destruct (ResolverMore.search_split _ _ _ _ E) as (pre & s' & -> & _ & Hr).
  destruct (Hd _ _ _ _ _ Hr) as (mid & id' & Hg & Hne & -> & Hk).
  rewrite Hg in Hc. destruct (JsString.truthy id'); [|discriminate].
  injection Hc as <-. split; [exact Hne|].
  exists (pre ++ mid), (rest m). split; [|exact Hk].
  now rewrite app_assoc.
Qed.

(** X21. What an extractor returns is a piece of the link: it is never
    empty, it occurs in the input, it holds no slash and no question mark
    (or, after [id=], no ampersand), and it runs up to the next such
    delimiter or the end of the input. *)
Theorem extracted_id_is_delimited (url id : string) :
  extractFileId url = Some id \/ extractGoogleDriveFileId url = Some id ->
  id <> EmptyString
  /\ exists pre post,
       url = pre ++ id ++ post
       /\ (delimited (NoneOf "/?") id post \/ delimited (NoneOf "&") id post).
Proof.
  intros [H | H].
  - exact (firstCapture_delimited _ _ _ patterns_delimiting H).
  - apply (firstCapture_delimited
             [pat_file; pat_open; pat_docs; pat_uc] url id); [|exact H].
    pose proof patterns_delimiting as Hps. unfold patterns in Hps.
    inversion Hps as [|p1 l1 Ha Hr1]; subst.
    inversion Hr1 as [|p2 l2 Hb Hr2]; subst.
    inversion Hr2 as [|p3 l3 Hc Hr3]; subst.
    inversion Hr3 as [|p4 l4 Hd Hr4]; subst.
    repeat (apply Forall_cons; [assumption|]). apply Forall_nil.
Qed.

Lemma extracted_id_is_delimited_witness :
  "abc" <> EmptyString
  /\ exists pre post,
       "https://drive.google.com/file/d/abc/view" = pre ++ "abc" ++ post
       /\ (delimited (NoneOf "/?") "abc" post
           \/ delimited (NoneOf "&") "abc" post).
Proof.
  apply (extracted_id_is_delimited
           "https://drive.google.com/file/d/abc/view" "abc").
  left. reflexivity.
Defined.

End ExtractorMore.

(* ===================================================================== *)
(** ** The resolver never leaves a name without an extension              *)
(* ===================================================================== *)

Module ResolverExtension.
Import StringFacts RegexFacts Resolver ResolverMore.

(** X22. Without a requested format, the name the resolver returns
    always has an extension: it ends in a dot and a non-empty text
    without a dot.  For a content type that names no member of the
    table, own or inherited from Object.prototype, that is the extension
    the base name had, or bin when it had none. *)
Theorem getProperFilename_has_extension (baseName contentType : string) :
  exists stem ext,
    getProperFilename baseName contentType None = stem ++ "." ++ ext
    /\ extensionOf (getProperFilename baseName contentType None) = Some ext
    /\ (get mimeToExtension contentType = Undefined ->
        match extensionOf baseName with
        | Some old => ext = old
        | None => ext = "bin"
        end).
Proof.
  destruct (getProperFilename_resolved baseName contentType)
    as [ext e Hext He Hlow | ext e Hext He Hlow | ext text Hext He
       | ext Hext He | Hext].
  - destruct (extensionOf_inv _ _ Hext) as (stem & Hb & _).
    exists stem, ext. rewrite Hext.
    split; [exact Hb|]. split; [reflexivity|]. intros H.
    apply get_undefined in H. congruence.
  - destruct (expected_plain _ _ He) as (_ & Ht & Hd).
    eexists _, e. split; [reflexivity|].
    split; [now apply extensionOf_app|]. intros H.
    apply get_undefined in H. congruence.
  - destruct (get_inherited _ _ _ He) as (_ & Hp).
    eexists _, text. split; [reflexivity|].
    split; [apply extensionOf_app;
            [exact (proj1 Hp) | now apply plainName_dotfree]|].
    intros H. congruence.
  - destruct (extensionOf_inv _ _ Hext) as (stem & Hb & _).
    exists stem, ext. rewrite Hext.
    split; [exact Hb|]. split; reflexivity.
  - destruct (chosen_extension_plain contentType) as (Ht & Hd).
    eexists _, _. split; [reflexivity|].
    split; [now apply extensionOf_app|].
    intros H. now rewrite Hext, H.
Qed.

(** An inherited member is no unknown content type: the name of a file
    with an extension is rewritten. *)
Example inherited_member_replaces_extension :
  get mimeToExtension "constructor"
  = Inherited "function Object() { [native code] }"
  /\ getProperFilename "notes.txt" "constructor" None
     = "notes.function Object() { [native code] }".
Proof. split; vm_compute; reflexivity. Qed.

End ResolverExtension.

(* ===================================================================== *)
(** ** How many upstream requests a handler makes                         *)
(* ===================================================================== *)

Module RequestBudget.

Section Counting.
Context {World : Type}.

(** The network with a counter of the requests made so far. *)
Definition counted {O R : Type} (transport : World -> string -> O -> R * World)
  (s : World * nat) (url : string) (o : O) : R * (World * nat) :=
  let (r, w') := transport (fst s) url o in (r, (w', S (snd s))).

(** The computation makes at least [lo] and at most [hi] requests,
    whether it yields a value or throws. *)
Definition spends {A} (lo hi : nat) (m : Axios.M (World * nat) A) : Prop :=
  forall s,
    lo + snd s <= snd (snd (m s)) /\ snd (snd (m s)) <= hi + snd s.

Lemma spends_ret {A} (a : A) : spends 0 0 (Axios.ret a).
Proof. intros s. cbn. lia. Qed.

Lemma spends_throw {A} (e : Axios.exn) : spends 0 0 (Axios.throw (A := A) e).
Proof. intros s. cbn. lia. Qed.

Lemma spends_weaken {A} (lo hi lo' hi' : nat) (m : Axios.M (World * nat) A) :
  lo' <= lo -> hi <= hi' -> spends lo hi m -> spends lo' hi' m.
Proof. intros Hlo Hhi H s. specialize (H s). lia. Qed.

Lemma spends_bind {A B} (lo1 hi1 hi2 : nat) (m : Axios.M (World * nat) A)
  (f : A -> Axios.M (World * nat) B) :
  spends lo1 hi1 m -> (forall a, spends 0 hi2 (f a)) ->
  spends lo1 (hi1 + hi2) (Axios.bind m f).
Proof.
  intros Hm Hf s. unfold Axios.bind. specialize (Hm s).
  destruct (m s) as [[a|e] s1]; cbn [snd] in *; [|lia].
  specialize (Hf a s1). lia.
Qed.

Lemma spends_tryCatch {A} (lo hi : nat) (m : Axios.M (World * nat) A)
  (h : Axios.exn -> Axios.M (World * nat) A) :
  spends lo hi m -> (forall e, spends 0 0 (h e)) ->
  spends lo hi (Axios.tryCatch m h).
Proof.
  intros Hm Hh s. unfold Axios.tryCatch. specialize (Hm s).
  destruct (m s) as [[a|e] s1]; cbn [snd] in *; [lia|].
  specialize (Hh e s1). lia.
Qed.

Lemma spends_get {Payload}
  (transport :
     World -> string -> Axios.options -> Axios.reply Payload * World)
  (url : string) (o : Axios.options) (v : N -> bool) :
  spends 1 1 (Axios.get (counted transport) url o v).
Proof.
  intros s. unfold Axios.get, counted.
  destruct (transport (fst s) url o) as [[r|m] w'].
  - destruct (v (Axios.status r)); cbn; lia.
  - cbn. lia.
Qed.

Lemma spends_stream {Payload}
  (stream :
     World -> string -> Stream.options -> Stream.reply Payload * World)
  (url : string) (o : Stream.options) :
  spends 1 1 (Stream.get (counted stream) url o).
Proof.
  intros s. unfold Stream.get, counted.
  destruct (stream (fst s) url o) as [[r|m] w']; cbn; lia.
Qed.

Lemma construct_spends {Payload} (init : Response.t Payload) :
  spends 0 0 (Response.construct init).
Proof.
  unfold Response.construct.
  destruct (forallb _ _); [apply spends_ret | apply spends_throw].
Qed.

Lemma deliver_spends {Payload} (init : Response.t Payload) :
  spends 0 0 (Download.deliver init).
Proof.
  unfold Download.deliver.
  apply (spends_bind 0 0 0); [apply construct_spends|].
  intros r. apply spends_ret.
Qed.

Lemma pipe_spends {Payload} (headers : table) (p : Payload) :
  spends 0 0 (PagesDownload.pipe headers p).
Proof.
  unfold PagesDownload.pipe, Res.send.
  apply (spends_bind 0 0 0); [|intros r; apply spends_ret].
  destruct (forallb _ _); [apply spends_ret | apply spends_throw].
Qed.

End Counting.

(** A step that makes no request. *)
Ltac quiet :=
  first [apply spends_ret | apply deliver_spends | apply construct_spends
        | apply pipe_spends].

(** One request, then a continuation that makes at most [n] more. *)
Ltac after_request n :=
  apply (spends_bind 1 1 n); [first [apply spends_get | apply spends_stream]|].

Ltac no_request := apply (spends_weaken 0 0); [lia | lia | quiet].

Section Download.
Context {Payload World : Type}.
Variable byteLength : Payload -> N.
Variable transport :
  World -> string -> Axios.options -> Axios.reply Payload * World.

Lemma byteLengthOf_spends (d : Axios.data Payload) :
  spends (World := World) 0 0 (Axios.byteLengthOf byteLength d).
Proof. destruct d; first [quiet | apply spends_throw]. Qed.

Lemma metadata_spends (fileId : string) :
  spends 1 1 (Download.metadata (counted transport) fileId).
Proof.
  unfold Download.metadata. apply spends_tryCatch; [|intros e; quiet].
  after_request 0. intros r.
  destruct (Axios.status r =? 200)%N; [|quiet].
  apply (spends_bind 0 0 0); [|intros a; quiet].
  destruct (Axios.body r); first [quiet | apply spends_throw].
Qed.

Lemma viewOnlyPdf_spends (fileId fileName : string) :
  spends 1 2
    (Download.viewOnlyPdf byteLength (counted transport) fileId fileName).
Proof.
  unfold Download.viewOnlyPdf. after_request 1. intros r.
  match goal with |- spends _ _ (if ?b then _ else _) => destruct b end;
    [no_request|].
  apply (spends_weaken 1 (1 + 0)); [lia | lia |].
  after_request 0. intros r'.
  destruct (Axios.status r' =? 200)%N; quiet.
Qed.

Lemma googleDocs_spends (fileId fileName mimeType : string)
  (format : option string) :
  spends 1 1
    (Download.googleDocs (counted transport) fileId fileName mimeType
       format).
Proof.
  unfold Download.googleDocs. after_request 0. intros r.
  match goal with |- spends _ _ (if ?b then _ else _) => destruct b end;
    quiet.
Qed.

Lemma lastResort_spends (fileId fileName mimeType : string) :
  spends 1 1
    (Download.lastResort (counted transport) fileId fileName mimeType).
Proof.
  unfold Download.lastResort. after_request 0. intros r.
  match goal with |- spends _ _ (if ?b then _ else _) => destruct b end;
    quiet.
Qed.

Lemma standardDownload_spends (fileId fileName mimeType : string) :
  spends 1 2
    (Download.standardDownload byteLength (counted transport) fileId
       fileName mimeType).
Proof.
  unfold Download.standardDownload. after_request 1. intros r.
  match goal with |- spends _ _ (if ?b then _ else _) => destruct b end;
    [|no_request].
  apply (spends_bind 0 0 1).
  { match goal with |- spends _ _ (if ?b then _ else _) => destruct b end;
      [|quiet].
    apply (spends_bind 0 0 0); [apply byteLengthOf_spends|].
    intros size. quiet. }
  intros [|]; [|no_request].
  apply (spends_weaken 1 (1 + 0)); [lia | lia |].
  after_request 0. intros r'.
  destruct (Axios.status r' =? 200)%N; [|quiet].
  apply (spends_bind 0 0 0).
  { match goal with |- spends _ _ (if ?b then _ else _) => destruct b end;
      [quiet|].
    apply (spends_bind 0 0 0); [apply byteLengthOf_spends|].
    intros size. quiet. }
  intros [|]; quiet.
Qed.

Lemma orThen_spends (lo hi more : nat)
  (a : Axios.M (World * nat) (option (Response.t Payload)))
  (rest : Axios.M (World * nat) (Response.t Payload)) :
  spends lo hi a -> spends 0 more rest ->
  spends lo (hi + more) (Download.orThen a rest).
Proof.
  intros Ha Hrest. unfold Download.orThen.
  apply (spends_bind lo hi more); [exact Ha|].
  intros [r|]; [no_request | exact Hrest].
Qed.

Lemma attempts_spends (fileId : string) (format : option string)
  (forcePdf viewOnly : bool) :
  spends 1 7
    (Download.attempts byteLength (counted transport) fileId format
       forcePdf viewOnly).
Proof.
  unfold Download.attempts.
  apply (spends_bind 1 1 6); [apply metadata_spends|].
  intros meta.
  apply (orThen_spends 0 2 4).
  { match goal with |- spends _ _ (if ?b then _ else _) => destruct b end;
      [|no_request].
    apply spends_tryCatch; [|intros e; quiet].
    apply (spends_weaken 1 2); [lia | lia | apply viewOnlyPdf_spends]. }
  apply (orThen_spends 0 1 3).
  { match goal with |- spends _ _ (if ?b then _ else _) => destruct b end;
      [|no_request].
    apply (spends_weaken 1 1); [lia | lia | apply googleDocs_spends]. }
  apply (orThen_spends 0 2 1).
  { apply (spends_weaken 1 2); [lia | lia | apply standardDownload_spends]. }
  apply (spends_weaken 0 (1 + 0)); [lia | lia |].
  apply (orThen_spends 0 1 0); [|quiet].
  apply (spends_weaken 1 1); [lia | lia | apply lastResort_spends].
Qed.

(** X23. A run of the download route makes no upstream request when the
    file identifier is missing, and otherwise at least one (the metadata
    request) and at most seven, whether it delivers, redirects or ends
    in an error, and whatever the network answers. *)
Theorem GET_request_budget (q : Download.query) (w : World) (n : nat) :
  let made :=
    snd (snd (Download.GET byteLength (counted transport) q (w, n))) - n in
  match given (Download.fileId q) with
  | None => made = 0
  | Some _ => 1 <= made <= 7
  end.
Proof.
  unfold Download.GET.
  destruct (given (Download.fileId q)) as [fileId|]; cbn zeta.
  - match goal with
    | |- context [Axios.tryCatch ?m ?h ?s] =>
        pose proof (spends_tryCatch 1 7 m h
                      (attempts_spends fileId (Download.format q)
                         (Download.isTrue (Download.forcePdf q))
                         (Download.isTrue (Download.viewOnly q)))
                      (fun e => spends_ret _) s) as H
    end.
    cbn [snd] in H. lia.
  - cbn. lia.
Qed.

End Download.

Section Pages.
Context {Payload World : Type}.
Variable transport :
  World -> string -> Axios.options -> Axios.reply Payload * World.
Variable stream :
  World -> string -> Stream.options -> Stream.reply Payload * World.

Ltac one_stream :=
  after_request 0; intros r;
  match goal with |- spends _ _ (if ?b then _ else _) => destruct b end;
  quiet.

Lemma pages_metadata_spends (fileId : string) :
  spends 1 1 (PagesDownload.metadata (counted transport) fileId).
Proof.
  unfold PagesDownload.metadata.
  apply spends_tryCatch; [|intros e; quiet].
  after_request 0. intros r.
  repeat match goal with
         | |- spends _ _ (if ?b then _ else _) => destruct b
         end; quiet.
Qed.

Lemma orElseTry_spends (lo hi more : nat)
  (a b : Axios.M (World * nat) (option (Res.t Payload))) :
  spends lo hi a -> spends 0 more b ->
  spends lo (hi + more) (PagesDownload.orElseTry a b).
Proof.
  intros Ha Hb. unfold PagesDownload.orElseTry.
  apply (spends_bind lo hi more); [exact Ha|].
  intros [r|]; [no_request | exact Hb].
Qed.

Lemma pages_orThen_spends (lo hi more : nat)
  (a : Axios.M (World * nat) (option (Res.t Payload)))
  (rest : Axios.M (World * nat) (Res.t Payload)) :
  spends lo hi a -> spends 0 more rest ->
  spends lo (hi + more) (PagesDownload.orThen a rest).
Proof.
  intros Ha Hrest. unfold PagesDownload.orThen.
  apply (spends_bind lo hi more); [exact Ha|].
  intros [r|]; [no_request | exact Hrest].
Qed.

Lemma pages_viewOnlyPdf_spends (fileId : string)
  (fileMetadata : option (Axios.data Payload)) :
  spends 1 3
    (PagesDownload.viewOnlyPdf (counted stream) fileId fileMetadata).
Proof.
  unfold PagesDownload.viewOnlyPdf.
  apply (orElseTry_spends 1 1 2).
  { apply spends_tryCatch; [|intros e; quiet].
    unfold PagesDownload.pdfVersion. one_stream. }
  apply (orElseTry_spends 0 1 1).
  { apply spends_tryCatch; [|intros e; quiet].
    apply (spends_weaken 1 1); [lia | lia |].
    unfold PagesDownload.pdfVersion. one_stream. }
  apply spends_tryCatch; [|intros e; quiet].
  apply (spends_weaken 1 1); [lia | lia |].
  unfold PagesDownload.embed. one_stream.
Qed.

Lemma pages_attempts_spends (fileId : string) (format : queryValue) :
  spends 1 7
    (PagesDownload.attempts (counted transport) (counted stream) fileId
       format).
Proof.
  unfold PagesDownload.attempts.
  apply (spends_bind 1 1 6); [apply pages_metadata_spends|].
  intros fileMetadata.
  apply (pages_orThen_spends 0 1 5).
  { destruct (given _); [apply spends_weaken with (lo := 0) (hi := 0);
                          [lia | lia | quiet]|].
    apply (spends_weaken 1 1); [lia | lia |].
    unfold PagesDownload.direct. one_stream. }
  apply (pages_orThen_spends 0 1 4).
  { match goal with |- spends _ _ (if ?b then _ else _) => destruct b end;
      [|no_request].
    apply (spends_weaken 1 1); [lia | lia |].
    unfold PagesDownload.export. one_stream. }
  apply (pages_orThen_spends 0 1 3).
  { apply (spends_weaken 1 1); [lia | lia |].
    unfold PagesDownload.alternative. one_stream. }
  apply (spends_weaken 0 (3 + 0)); [lia | lia |].
  apply (pages_orThen_spends 0 3 0); [|quiet].
  match goal with |- spends _ _ (if ?b then _ else _) => destruct b end;
    [|no_request].
  apply (spends_weaken 1 3); [lia | lia | apply pages_viewOnlyPdf_spends].
Qed.

(** X24. A run of the download handler of the pages router makes no
    upstream request unless the file identifier is one non-empty string,
    and otherwise at least one (the metadata request) and at most seven,
    whatever the network answers. *)
Theorem handler_request_budget (req : PagesDownload.query) (w : World)
  (n : nat) :
  let made :=
    snd (snd (PagesDownload.handler (counted transport) (counted stream)
                req (w, n))) - n in
  match required (PagesDownload.fileId req) with
  | None => made = 0
  | Some _ => 1 <= made <= 7
  end.
Proof.
  unfold PagesDownload.handler.
  destruct (required (PagesDownload.fileId req)) as [fileId|]; cbn zeta.
  - match goal with
    | |- context [Axios.tryCatch ?m ?h ?s] =>
        pose proof (spends_tryCatch 1 7 m h
                      (pages_attempts_spends fileId
                         (PagesDownload.format req))
                      (fun e => spends_ret _) s) as H
    end.
    cbn [snd] in H. lia.
  - cbn. lia.
Qed.

End Pages.

End RequestBudget.

(* ===================================================================== *)
(** ** The links the page opens                                           *)
(* ===================================================================== *)

Module PageLinks.
Import StringFacts RegexFacts Extractor.

(** [downloadFile] of the page: the address it opens in a new tab, if
    any.  [isGoogleApps] is [fileInfo?.isGoogleApps]. *)
Definition downloadFile (hasMounted : bool) (isGoogleApps : option bool)
  (fileId : string) (format : option string) : option string :=
  if negb hasMounted || negb (JsString.truthy fileId) then None
  else
    match given format, isGoogleApps with
    | Some f, Some true =>
        Some ("https://docs.google.com/export/download?id=" ++ fileId
              ++ "&exportFormat=" ++ f)
    | _, _ =>
        Some ("https://drive.google.com/uc?id=" ++ fileId
              ++ "&export=download")
    end.

(** A pattern whose literal needs a slash matches nowhere in a link made
    of a fixed start, an identifier, a fixed middle and a slash-free
    end. *)
Lemma no_match_twice (l : string) (r : regex) (pre id mid f : string) :
  failsThrough (Lit l :: r) pre (id ++ mid ++ f) ->
  JsString.all idChar id = true ->
  alignments l (mid ++ f) = false ->
  failsThrough (Lit l :: r) mid f ->
  JsString.all noSlash f = true ->
  alignments l EmptyString = false ->
  captured (jsMatch (pre ++ id ++ mid ++ f) (Lit l :: r)) = None.
Proof.
  intros Hpre Hid Ha Hmid Hf He.
  apply no_match; trivial.
  intros j. rewrite (search_skip _ _ _ _ Hmid).
  rewrite <- (app_nil_r f). apply search_slash_free; trivial.
  intros k. simpl. destruct l; [discriminate | reflexivity].
Qed.

Lemma direct_link_read_back (id : string) :
  isId id ->
  extractFileId ("https://drive.google.com/uc?id=" ++ id ++ "&export=download")
  = Some id.
Proof.
  intros [Hne Hid]. unfold extractFileId. cbn [firstCapture].
  assert (Hno : forall l r,
             failsThrough (Lit l :: r) "https://drive.google.com/uc?id="
               (id ++ "&export=download") ->
             alignments l "&export=download" = false ->
             (forall j, search (Lit l :: r) j "&export=download" = None) ->
             captured
               (jsMatch ("https://drive.google.com/uc?id=" ++ id
                         ++ "&export=download") (Lit l :: r)) = None).
  { intros l r F A S. now apply no_match. }
  unfold pat_file, pat_open, pat_docs.
  rewrite !Hno; try first [reflexivity | fails_through | intros; reflexivity].
  assert (H : captured
                (jsMatch ("https://drive.google.com/uc?id=" ++ id
                          ++ "&export=download") pat_uc) = Some id).
  { apply (first_match pat_uc "https://"
             ("drive.google.com/uc?id=" ++ id ++ "&export=download") id
             "&export=download");
      [fails_through | | exact Hne].
    apply (run_link "drive.google.com/uc?id=" (NoneOf "&"));
      [exact Hne | query_id Hid | reflexivity]. }
  now rewrite H.
Qed.

Lemma export_link_not_read_back (id f : string) :
  isId id ->
  JsString.all noSlash f = true ->
  extractFileId ("https://docs.google.com/export/download?id=" ++ id
                 ++ "&exportFormat=" ++ f) = None.
Proof.
  intros [Hne Hid] Hf. unfold extractFileId. cbn [firstCapture].
  assert (Hno : forall l r,
             failsThrough (Lit l :: r)
               "https://docs.google.com/export/download?id="
               (id ++ "&exportFormat=" ++ f) ->
             alignments l ("&exportFormat=" ++ f) = false ->
             failsThrough (Lit l :: r) "&exportFormat=" f ->
             alignments l EmptyString = false ->
             captured
               (jsMatch ("https://docs.google.com/export/download?id=" ++ id
                         ++ "&exportFormat=" ++ f) (Lit l :: r)) = None).
  { intros l r F A M E. now apply no_match_twice. }
  unfold pat_file, pat_open, pat_docs, pat_uc, pat_sheets, pat_slides.
  rewrite !Hno; try first [reflexivity | fails_through].
Qed.

(** X25. The address the page opens for a download is read back by
    [extractFileId] as the identifier it was built for when it is the
    direct link (no format chosen, or not a Google Apps file), and is
    read by no pattern when it is the export link.  The identifier is
    not empty and holds none of [/], [?] and [&]; the format holds no
    slash. *)
Theorem opened_link_read_back (id : string) (format : option string)
  (isGoogleApps : option bool) :
  isId id ->
  (forall f, format = Some f -> JsString.all noSlash f = true) ->
  exists u,
    downloadFile true isGoogleApps id format = Some u
    /\ extractFileId u
       = match given format, isGoogleApps with
         | Some _, Some true => None
         | _, _ => Some id
         end.
Proof.
  intros Hid Hf. unfold downloadFile.
  assert (Ht : JsString.truthy id = true).
  { destruct Hid as [Hne _]. now destruct id. }
  rewrite Ht. cbn [negb orb].
  destruct (given format) as [f|] eqn:Hg.
  - assert (Hff : JsString.all noSlash f = true).
    { apply Hf. unfold given in Hg. destruct format as [g|]; [|discriminate].
      destruct (JsString.truthy g); congruence. }
    destruct isGoogleApps as [[|]|]; eexists; split; try reflexivity;
      first [now apply export_link_not_read_back
            | now apply direct_link_read_back].
  - destruct isGoogleApps as [[|]|]; eexists; split; try reflexivity;
      now apply direct_link_read_back.
Qed.

Lemma opened_link_read_back_witness :
  exists u,
    downloadFile true (Some true) "1AbC_d-9" (Some "docx") = Some u
    /\ extractFileId u = None.
Proof.
  apply (opened_link_read_back "1AbC_d-9" (Some "docx") (Some true)).
  - split; [discriminate | reflexivity].
  - intros f H. injection H as <-. reflexivity.
Defined.

End PageLinks.

(* ===================================================================== *)
(** ** The name of a delivered file                                       *)
(* ===================================================================== *)

Module DeliveryNames.
Import StringFacts Resolver ResolverMore DownloadFacts.

Lemma resolved_name (baseName contentType : string) :
  exists stem ext,
    getProperFilename baseName contentType None = stem ++ "." ++ ext
    /\ ext <> EmptyString.
Proof.
  destruct (getProperFilename_resolved baseName contentType)
    as [ext e Hext He Hlow | ext e Hext He Hlow | ext text Hext He
       | ext Hext He | Hext].
  - destruct (extensionOf_inv _ _ Hext) as (stem & Hb & Ht & _).
    exists stem, ext. split; [exact Hb|]. now apply truthy_nonempty.
  - destruct (expected_plain _ _ He) as (_ & Ht & _).
    eexists _, e. split; [reflexivity|]. now apply truthy_nonempty.
  - destruct (get_inherited _ _ _ He) as (_ & Ht & _).
    eexists _, text. split; [reflexivity|]. now apply truthy_nonempty.
  - destruct (extensionOf_inv _ _ Hext) as (stem & Hb & Ht & _).
    exists stem, ext. split; [exact Hb|]. now apply truthy_nonempty.
  - destruct (chosen_extension_plain contentType) as (Ht & _).
    eexists _, _. split; [reflexivity|]. now apply truthy_nonempty.
Qed.

Lemma requested_name (baseName contentType fmt : string) :
  JsString.truthy fmt = true ->
  exists stem ext,
    getProperFilename baseName contentType (Some fmt) = stem ++ "." ++ ext
    /\ ext <> EmptyString.
Proof.
  intros H. rewrite getProperFilename_requested by exact H.
  eexists _, fmt. split; [reflexivity|]. now apply truthy_nonempty.
Qed.

Lemma exportFormatOf_truthy (format : option string) (mimeType : string) :
  JsString.truthy (Download.exportFormatOf format mimeType) = true.
Proof.
  unfold Download.exportFormatOf.
  destruct format as [[|c s]|]; cbn [given JsString.truthy JsString.orElse];
    repeat match goal with
           | |- context [String.eqb mimeType ?k] =>
               destruct (String.eqb mimeType k)
           end; reflexivity.
Qed.

Section Facts.
Context {Payload World : Type}.
Variable byteLength : Payload -> N.
Variable transport :
  World -> string -> Axios.options -> Axios.reply Payload * World.

(** A delivery under a name that ends in a dot and an extension. *)
Definition named (r : Response.t Payload) : Prop :=
  exists d contentType stem ext,
    r = Download.attachment d contentType (stem ++ "." ++ ext)
    /\ ext <> EmptyString.

Definition namedOrNone (o : option (Response.t Payload)) : Prop :=
  match o with Some r => named r | None => True end.

Lemma attachment_resolved (d : Axios.data Payload)
  (contentType baseName contentType' : string) :
  namedOrNone
    (Some (Download.attachment d contentType
             (getProperFilename baseName contentType' None))).
Proof.
  destruct (resolved_name baseName contentType') as (stem & ext & -> & H).
  now exists d, contentType, stem, ext.
Qed.

Lemma attachment_requested (d : Axios.data Payload)
  (contentType baseName contentType' fmt : string) :
  JsString.truthy fmt = true ->
  namedOrNone
    (Some (Download.attachment d contentType
             (getProperFilename baseName contentType' (Some fmt)))).
Proof.
  intros Hf.
  destruct (requested_name baseName contentType' fmt Hf)
    as (stem & ext & -> & H).
  now exists d, contentType, stem, ext.
Qed.

(** What the constructor accepts keeps its name. *)
Lemma deliver_resolved (d : Axios.data Payload)
  (contentType baseName contentType' : string) :
  DownloadMore.always namedOrNone
    (Download.deliver (World := World)
       (Download.attachment d contentType
          (getProperFilename baseName contentType' None))).
Proof.
  intros w.
  destruct (Download.deliver _ w) as [[o|e] w'] eqn:E; [|exact I].
  apply deliver_inv in E as (_ & -> & _). apply attachment_resolved.
Qed.

Lemma deliver_requested (d : Axios.data Payload)
  (contentType baseName contentType' fmt : string) :
  JsString.truthy fmt = true ->
  DownloadMore.always namedOrNone
    (Download.deliver (World := World)
       (Download.attachment d contentType
          (getProperFilename baseName contentType' (Some fmt)))).
Proof.
  intros Hf w.
  destruct (Download.deliver _ w) as [[o|e] w'] eqn:E; [|exact I].
  apply deliver_inv in E as (_ & -> & _). now apply attachment_requested.
Qed.

Ltac any_request :=
  apply (DownloadMore.always_bind (fun _ => True));
  [apply DownloadMore.always_get|].

Ltac any_value :=
  apply (DownloadMore.always_bind (fun _ => True));
  [intros ?w; now destruct (fst _)|].

Lemma viewOnlyPdf_named (fileId fileName : string) :
  DownloadMore.always namedOrNone
    (Download.viewOnlyPdf byteLength transport fileId fileName).
Proof.
  unfold Download.viewOnlyPdf. any_request. intros rp _.
  match goal with
  | |- DownloadMore.always _ (if ?b then _ else _) => destruct b
  end.
  - now apply deliver_requested.
  - any_request. intros re _.
    destruct (Axios.status re =? 200)%N;
      [now apply deliver_requested | now apply DownloadMore.always_ret].
Qed.

Lemma googleDocs_named (fileId fileName mimeType : string)
  (format : option string) :
  DownloadMore.always namedOrNone
    (Download.googleDocs transport fileId fileName mimeType format).
Proof.
  unfold Download.googleDocs. any_request. intros r _.
  match goal with
  | |- DownloadMore.always _ (if ?b then _ else _) => destruct b
  end; [|now apply DownloadMore.always_ret].
  apply deliver_requested, exportFormatOf_truthy.
Qed.

Lemma standardDownload_named (fileId fileName mimeType : string) :
  DownloadMore.always namedOrNone
    (Download.standardDownload byteLength transport fileId fileName
       mimeType).
Proof.
  unfold Download.standardDownload. any_request. intros r _.
  match goal with
  | |- DownloadMore.always _ (if ?b then _ else _) => destruct b
  end; [|now apply DownloadMore.always_ret].
  any_value. intros suspect _. destruct suspect;
    [|apply deliver_resolved].
  any_request. intros ra _. destruct (Axios.status ra =? 200)%N;
    [|apply deliver_resolved].
  any_value. intros genuine _.
  destruct genuine; apply deliver_resolved.
Qed.

Lemma lastResort_named (fileId fileName mimeType : string) :
  DownloadMore.always namedOrNone
    (Download.lastResort transport fileId fileName mimeType).
Proof.
  unfold Download.lastResort. any_request. intros r _.
  match goal with
  | |- DownloadMore.always _ (if ?b then _ else _) => destruct b
  end; [apply deliver_resolved | now apply DownloadMore.always_ret].
Qed.

Lemma orThen_named (P : Response.t Payload -> Prop)
  (a : Axios.M World (option (Response.t Payload)))
  (rest : Axios.M World (Response.t Payload)) :
  DownloadMore.always namedOrNone a ->
  (forall r, named r -> P r) ->
  DownloadMore.always P rest ->
  DownloadMore.always P (Download.orThen a rest).
Proof.
  intros Ha HP Hrest. unfold Download.orThen.
  apply (DownloadMore.always_bind namedOrNone); [exact Ha|].
  intros [r|] Hr; [apply DownloadMore.always_ret, HP, Hr | exact Hrest].
Qed.

Lemma attempts_named (fileId : string) (format : option string)
  (forcePdf viewOnly : bool) :
  DownloadMore.always
    (fun r => named r \/ r = Download.viewerRedirect fileId)
    (Download.attempts byteLength transport fileId format forcePdf
       viewOnly).
Proof.
  unfold Download.attempts. any_value. intros meta _.
  apply orThen_named; [|now left|].
  { match goal with
    | |- DownloadMore.always _ (if ?b then _ else _) => destruct b
    end; [|now apply DownloadMore.always_ret].
    apply DownloadMore.always_tryCatch; [apply viewOnlyPdf_named|].
    intros e. now apply DownloadMore.always_ret. }
  apply orThen_named; [|now left|].
  { match goal with
    | |- DownloadMore.always _ (if ?b then _ else _) => destruct b
    end; [apply googleDocs_named | now apply DownloadMore.always_ret]. }
  apply orThen_named; [apply standardDownload_named | now left |].
  apply orThen_named; [apply lastResort_named | now left |].
  eapply DownloadMore.always_weaken; [|apply DownloadMore.redirect_outcome].
  intros r ->. now right.
Qed.

(** X26. Whatever the download route delivers, it delivers under a name
    with an extension: every response with status 200 is an attachment
    whose file name ends in a dot and a non-empty extension, on every
    path (print version, embedded viewer, export, standard download,
    alternative address, last resort) and for every name and content
    type the network reports. *)
Theorem deliveries_are_named (q : Download.query) (w w' : World)
  (r : Response.t Payload) :
  Download.GET byteLength transport q w = (Axios.Value r, w') ->
  Response.status r = 200%N ->
  exists d contentType stem ext,
    r = Download.attachment d contentType (stem ++ "." ++ ext)
    /\ ext <> EmptyString.
Proof.
  unfold Download.GET.
  destruct (given (Download.fileId q)) as [fileId|].
  - pose proof (attempts_named fileId (Download.format q)
                  (Download.isTrue (Download.forcePdf q))
                  (Download.isTrue (Download.viewOnly q)) w) as H.
    unfold Axios.tryCatch.
    destruct (Download.attempts _ _ _ _ _ _ w) as [[r0|e] w0];
      cbn [fst] in H.
    + intros E. injection E as <- <-. destruct H as [H | ->].
      * intros _. exact H.
      * discriminate.
    + cbn. intros E. injection E as <- _. discriminate.
  - cbn. intros E. injection E as <- _. discriminate.
Qed.

End Facts.

Lemma deliveries_are_named_witness :
  exists d contentType stem ext,
    Download.attachment (Axios.Buffer 500%N) "text/html; charset=utf-8"
      "file_abc.bin"
    = Download.attachment (Payload := Scenario.blob) d contentType
        (stem ++ "." ++ ext)
    /\ ext <> EmptyString.
Proof.
  apply (deliveries_are_named Scenario.size
           (Scenario.serve Scenario.interstitialSite) Scenario.plain []
           [metadataUrl "abc"; downloadUrl "abc"; alternativeUrl "abc"]).
  - vm_compute. reflexivity.
  - reflexivity.
Defined.

End DeliveryNames.
